(** * Probe orchestration of the Vikranta health-check scripts

    A shallow embedding of the Node.js scripts

      - [comprehensive-health-check.js]  (module [HealthCheck])
      - [test-all-features.js]           (module [AllFeatures])
      - [test-complete-flow.js]          (module [CompleteFlow])
      - the quick authority verification script (module [QuickVerify])

    The scripts drive a running service over HTTP and print verdicts.  The
    service, the transports and the JavaScript engine's [JSON.parse] are
    collaborators: they are the fields of the class [Env].  Everything the
    scripts themselves do (guards on the module-level variables
    [testUniqueId] and [authToken], try/catch, promises that are resolved,
    rejected or left unsettled, the counters of the final report) is
    written out.

    Console lines are kept as their message text, without emoji,
    indentation and interpolated response fields; the evaluation of an
    interpolated expression is kept whenever it can raise a TypeError.

    Two limits of the embedding.  Every call handed to a collaborator is
    answered, by a response that has ended or by a reported error, the two
    events the scripts listen to: the scripts set no timeout, and a call on
    which neither event ever fires is not modelled, so a statement that a
    computation returns is about services that answer.  And numbers are
    integers, printed as their decimal digits, which is the text
    JavaScript gives for the safe integers ([exact_text]). *)

From Stdlib Require Import ZArith List String Ascii Bool Lia QArith.
From Stdlib Require Import DecimalString PrimFloat Uint63.
Import ListNotations.

Local Open Scope string_scope.
Local Open Scope Z_scope.

(** ** JavaScript values *)

(** The values [JSON.parse] can produce, plus [undefined] (the value of a
    missing property).  Numbers are restricted to integers. *)
#[warnings="-register-all"]
Inductive JsVal : Type :=
| JUndefined
| JNull
| JBool (b : bool)
| JNum (n : Z)
| JStr (s : string)
| JArr (items : list JsVal)
| JObj (fields : list (string * JsVal)).

(** ToBoolean: what [if (v)], [v ? a : b] and [a && b] test. *)
Definition truthy (v : JsVal) : bool :=
  match v with
  | JUndefined | JNull => false
  | JBool b => b
  | JNum n => negb (n =? 0)
  | JStr s => negb (String.eqb s "")
  | JArr _ | JObj _ => true
  end.

Fixpoint lookup {A : Type} (k : string) (l : list (string * A)) : option A :=
  match l with
  | [] => None
  | (k', v) :: rest => if String.eqb k k' then Some v else lookup k rest
  end.

(** [obj[k] = v] on an object whose keys keep their insertion order. *)
Fixpoint obj_set {A : Type} (k : string) (v : A) (l : list (string * A))
  : list (string * A) :=
  match l with
  | [] => [(k, v)]
  | (k', v') :: rest =>
      if String.eqb k k' then (k, v) :: rest else (k', v') :: obj_set k v rest
  end.

Fixpoint join (sep : string) (l : list string) : string :=
  match l with
  | [] => ""
  | [x] => x
  | x :: rest => x ++ sep ++ join sep rest
  end.

Definition Z_to_string (n : Z) : string := NilZero.string_of_int (Z.to_int n).

(** ToString, as a template literal [`${v}`] applies it.  A number is
    given by its decimal digits, which is its JavaScript text for the safe
    integers; see [exact_text]. *)
Fixpoint to_string (v : JsVal) : string :=
  match v with
  | JUndefined => "undefined"
  | JNull => "null"
  | JBool true => "true"
  | JBool false => "false"
  | JNum n => Z_to_string n
  | JStr s => s
  | JArr items =>
      join "," (map (fun x => match x with
                              | JUndefined | JNull => ""
                              | _ => to_string x
                              end) items)
  | JObj _ => "[object Object]"
  end.

(** The numbers whose text [to_string] gives as JavaScript prints it: the
    safe integers, which are doubles and print as their decimal digits. *)
Fixpoint exact_text (v : JsVal) : bool :=
  match v with
  | JNum n => Z.abs n <? 2 ^ 53
  | JArr items => forallb exact_text items
  | _ => true
  end.

(** [hay.includes(needle)] *)
Definition includes (hay needle : string) : bool :=
  match String.index 0 needle hay with
  | Some _ => true
  | None => false
  end.

Definition lower_ascii (c : ascii) : ascii :=
  let n := nat_of_ascii c in
  if (Nat.leb 65 n && Nat.leb n 90)%bool then ascii_of_nat (n + 32) else c.

Definition upper_ascii (c : ascii) : ascii :=
  let n := nat_of_ascii c in
  if (Nat.leb 97 n && Nat.leb n 122)%bool then ascii_of_nat (n - 32) else c.

Definition is_upper (c : ascii) : bool :=
  let n := nat_of_ascii c in (Nat.leb 65 n && Nat.leb n 90)%bool.

(** [s.toLowerCase()] on ASCII text *)
Fixpoint toLowerCase (s : string) : string :=
  match s with
  | EmptyString => EmptyString
  | String c rest => String (lower_ascii c) (toLowerCase rest)
  end.

(** [s.replace(' ', '')]: only the first blank is removed. *)
Fixpoint remove_first_blank (s : string) : string :=
  match s with
  | EmptyString => EmptyString
  | String c rest =>
      if Ascii.eqb c " "%char then rest else String c (remove_first_blank rest)
  end.

(** ** Collaborators *)

Inductive Method := GET | POST.

(** One invocation of a collaborator, in the order the script makes them. *)
Inductive Call : Type :=
| Api (m : Method) (path : string) (data : option JsVal)
      (headers : list (string * string))      (* http.request, localhost:3000 *)
| Https (path : string)                       (* https.request, localhost:443 *)
| Http (path : string)                        (* http.request, localhost:80 *)
| Submit (url : string) (fields : list (string * JsVal))   (* form.submit *)
| Exec (cmd : string).                        (* child_process.exec *)

(** What comes back: the ['error'] event (for [exec] and [form.submit], a
    non-null first callback argument), or a full response (for [exec], its
    standard output in [body]).  A call on which neither event fires has
    no answer and is not modelled. *)
Inductive Answer : Type :=
| ConnError (message : string)
| Response (status : Z) (body : string).

(** The service under test, the transports and the engine.  An answer may
    depend on every call made before it. *)
Class Env : Type := {
  JSON_parse : string -> option JsVal;        (* None: SyntaxError *)
  coerced_gt_zero : JsVal -> bool;            (* [v > 0] for a string, array or object [v] *)
  answer : list Call -> Call -> Answer
}.

(** ** Script state and completions *)

Record State : Type := mkState {
  testUniqueId : JsVal;                       (* let testUniqueId = null *)
  authToken : JsVal;                          (* let authToken = null *)
  calls : list Call;                          (* collaborator invocations so far *)
  console : list string;                      (* console.log lines so far *)
  files : list (string * string)              (* files the script wrote *)
}.

Definition initial : State :=
  {| testUniqueId := JNull; authToken := JNull;
     calls := []; console := []; files := [] |}.

(** A thrown value: an [Error] object, given by its message, as every
    fault of the runtime and of the scripts themselves is, or any other
    value.  Where a fault is expected, a message stands for the [Error]
    that carries it. *)
Inductive Fault : Type :=
| Err (message : string)
| Val (v : JsVal).
Coercion Err : string >-> Fault.

(** How an awaited computation ends: it returns, it throws (a rejected
    promise), or the promise it awaits is never settled. *)
Inductive Completion (A : Type) : Type :=
| Returned (a : A) (s : State)
| Thrown (e : Fault) (s : State)
| Pending (s : State).
Arguments Returned {A} a s.
Arguments Thrown {A} e s.
Arguments Pending {A} s.

Definition M (A : Type) : Type := State -> Completion A.

Definition ret {A} (a : A) : M A := fun s => Returned a s.

Definition bind {A B} (m : M A) (k : A -> M B) : M B :=
  fun s => match m s with
           | Returned a s' => k a s'
           | Thrown e s' => Thrown e s'
           | Pending s' => Pending s'
           end.

Definition throw {A} (e : Fault) : M A := fun s => Thrown e s.

(** [await new Promise(...)] whose [resolve] is never called. *)
Definition never {A} : M A := fun s => Pending s.

(** [try { m } catch (error) { h }], where [h] does not look at [error]. *)
Definition try_or {A} (m : M A) (h : M A) : M A :=
  fun s => match m s with
           | Thrown _ s' => h s'
           | r => r
           end.

Declare Scope js_scope.
Delimit Scope js_scope with js.
Notation "x <- m ;; k" := (bind m (fun x => k))
  (at level 61, m at next level, right associativity) : js_scope.
Notation "m ;; k" := (bind m (fun _ => k))
  (at level 61, right associativity) : js_scope.
Local Open Scope js_scope.

Definition final_state {A} (c : Completion A) : State :=
  match c with
  | Returned _ s | Thrown _ s | Pending s => s
  end.

Definition log (line : string) : M unit :=
  fun s => Returned tt
    {| testUniqueId := testUniqueId s; authToken := authToken s;
       calls := calls s; console := console s ++ [line]; files := files s |}.

Definition get_testUniqueId : M JsVal := fun s => Returned (testUniqueId s) s.
Definition get_authToken : M JsVal := fun s => Returned (authToken s) s.

Definition set_testUniqueId (v : JsVal) : M unit :=
  fun s => Returned tt
    {| testUniqueId := v; authToken := authToken s;
       calls := calls s; console := console s; files := files s |}.

Definition set_authToken (v : JsVal) : M unit :=
  fun s => Returned tt
    {| testUniqueId := testUniqueId s; authToken := v;
       calls := calls s; console := console s; files := files s |}.

(** Property access [v.k]: a TypeError on [null] and [undefined]. *)
Definition prop (v : JsVal) (k : string) : M JsVal :=
  match v with
  | JUndefined =>
      throw ("Cannot read properties of undefined (reading '" ++ k ++ "')")
  | JNull =>
      throw ("Cannot read properties of null (reading '" ++ k ++ "')")
  | JObj fields =>
      ret (match lookup k fields with Some x => x | None => JUndefined end)
  | _ => ret JUndefined
  end.

(** [error.message] in a catch clause: the message of an [Error]; on any
    other thrown value a property access, which throws on [null] and
    [undefined].  The handlers hand the message to the console, where the
    text of a message that is not a string stands for what is printed. *)
Definition message_of (e : Fault) : M string :=
  match e with
  | Err m => ret m
  | Val v => m <- prop v "message" ;; ret (to_string m)
  end.

(** [try { m } catch (error) { h error.message }], for the handlers whose
    first step evaluates [error.message]. *)
Definition try_catch {A} (m : M A) (h : string -> M A) : M A :=
  fun s => match m s with
           | Thrown e s' => (msg <- message_of e ;; h msg) s'
           | r => r
           end.

(** [fs.writeFileSync(path, content)] *)
Definition writeFileSync (path content : string) : M unit :=
  fun s => Returned tt
    {| testUniqueId := testUniqueId s; authToken := authToken s;
       calls := calls s; console := console s;
       files := obj_set path content (files s) |}.

Definition remove_file (path : string) (l : list (string * string))
  : list (string * string) :=
  filter (fun entry => negb (String.eqb path (fst entry))) l.
Arguments remove_file : simpl never.

(** [fs.unlinkSync(path)]: ENOENT when the file is not there. *)
Definition unlinkSync (path : string) : M unit :=
  fun s => match lookup path (files s) with
           | None => Thrown ("ENOENT: no such file or directory, unlink '"
                             ++ path ++ "'") s
           | Some _ => Returned tt
               {| testUniqueId := testUniqueId s; authToken := authToken s;
                  calls := calls s; console := console s;
                  files := remove_file path (files s) |}
           end.

Definition file_exists (path : string) (s : State) : bool :=
  match lookup path (files s) with Some _ => true | None => false end.

(** [s] after the lines [lines] were printed, and after the calls [cs]. *)
Definition logged (lines : list string) (s : State) : State :=
  {| testUniqueId := testUniqueId s; authToken := authToken s;
     calls := calls s; console := console s ++ lines; files := files s |}.

Definition called (cs : list Call) (s : State) : State :=
  {| testUniqueId := testUniqueId s; authToken := authToken s;
     calls := calls s ++ cs; console := console s; files := files s |}.

(** The two module-level variables that carry state between probes, and
    the test [if (testUniqueId && authToken)] over a set of them. *)
Inductive Key : Type := TestUniqueId | AuthToken.

Definition get (k : Key) (s : State) : JsVal :=
  match k with
  | TestUniqueId => testUniqueId s
  | AuthToken => authToken s
  end.

Definition hasAll (keys : list Key) (s : State) : bool :=
  forallb (fun k => truthy (get k s)) keys.

(** [v.k] on a value that is neither [null] nor [undefined]. *)
Definition field (k : string) (v : JsVal) : JsVal :=
  match v with
  | JObj fields =>
      match lookup k fields with Some x => x | None => JUndefined end
  | _ => JUndefined
  end.

Section Transport.
Context {E : Env}.

(** Hands [c] to its collaborator and waits for the answer; the scripts
    wait without a timeout. *)
Definition invoke (c : Call) : M Answer :=
  fun s => Returned (answer (calls s) c)
    {| testUniqueId := testUniqueId s; authToken := authToken s;
       calls := calls s ++ [c]; console := console s; files := files s |}.
End Transport.

(** The text of a response body and, on a fetched page, of the page. *)
Record ApiResponse : Type := {
  status : Z;                                 (* res.statusCode *)
  data : JsVal;                               (* the decoded body, or its text *)
  raw : option string                         (* the body text, where the script keeps it *)
}.

Record PageResponse : Type := {
  page_status : Z;
  page_data : string;
  protocol : option string                    (* 'HTTP' after the fallback *)
}.

Section Decoding.
Context {E : Env}.

(** [JSON.parse(body)] *)
Definition parse (body : string) : M JsVal :=
  match JSON_parse body with
  | Some v => ret v
  | None => throw "Unexpected token in JSON"
  end.

(** [response.status === 200 && response.data.success]; the property is
    read only when the status is 200. *)
Definition ok_and_success (response : ApiResponse) : M bool :=
  if status response =? 200
  then (v <- prop (data response) "success" ;; ret (truthy v))
  else ret false.
End Decoding.

(** [v > 0] *)
Definition gt_zero {E : Env} (v : JsVal) : bool :=
  match v with
  | JUndefined | JNull => false
  | JBool b => b
  | JNum n => 0 <? n
  | _ => coerced_gt_zero v
  end.

Definition Results : Type := list (string * bool).

(** ** Binary64 arithmetic of the score thresholds

    [generateFinalReport] compares the integer [passedTests] with the
    doubles [totalTests * 0.8] and [totalTests * 0.6].  Every value that
    occurs is a non-negative multiple of 2^-53, held here as the integer
    [x * 2^53]; the one rounding of each product is written out. *)
Module Binary64.
Definition scale : Z := 2 ^ 53.

(** 0.8 is the double 0x1.999999999999ap-1, and 0.6 is
    0x1.3333333333333p-1. *)
Definition c08 : Z := 7205759403792794.
Definition c06 : Z := 5404319552844595.

(** Round to nearest, ties to even, onto a 53-bit significand: the low
    [Z.log2 P - 52] bits are dropped. *)
Definition round (P : Z) : Z :=
  let drop := Z.log2 P - 52 in
  if drop <=? 0 then P
  else
    let q := P / 2 ^ drop in
    let r := P mod 2 ^ drop in
    let half := 2 ^ (drop - 1) in
    let q' := if ((half <? r) || ((r =? half) && Z.odd q))%bool
              then q + 1 else q in
    q' * 2 ^ drop.

(** [n * c] for an integer [n] below 2^53 and a constant [c]. *)
Definition mul_int (n c : Z) : Z := round (n * c).

(** [p >= x] for an integer [p]. *)
Definition int_ge (p x : Z) : bool := x <=? p * scale.

(** The same test on the hardware doubles of the kernel. *)
Definition hw_int_ge_mul (p n : Z) (c : float) : bool :=
  PrimFloat.leb (PrimFloat.mul (PrimFloat.of_uint63 (Uint63.of_Z n)) c)
                (PrimFloat.of_uint63 (Uint63.of_Z p)).
End Binary64.

(** ** comprehensive-health-check.js *)

Module HealthCheck.
Section Script.
Context {E : Env}.

(** Lines 23-64.  Only the caller's extra headers are recorded. *)
Definition makeRequest (method : Method) (path : string)
    (body : option JsVal) (headers : list (string * string))
  : M ApiResponse :=
  a <- invoke (Api method path body headers) ;;
  match a with
  | ConnError e => throw e
  | Response st responseData =>
      match JSON_parse responseData with
      | Some result =>
          ret {| status := st; data := result; raw := Some responseData |}
      | None =>
          ret {| status := st; data := JStr responseData;
                 raw := Some responseData |}
      end
  end.

(** Lines 67-104. *)
Definition makeHTTPSRequest (path : string) : M PageResponse :=
  a <- invoke (Https path) ;;
  match a with
  | Response st text =>
      ret {| page_status := st; page_data := text; protocol := None |}
  | ConnError _ =>
      b <- invoke (Http path) ;;
      match b with
      | Response st text =>
          ret {| page_status := st; page_data := text;
                 protocol := Some "HTTP" |}
      | ConnError httpError => throw httpError
      end
  end.

(** *** testInfrastructure, lines 107-187 *)

Definition docker : M bool :=
  log "1 Docker Containers..." ;;
  try_or
    (a <- invoke (Exec "docker-compose ps") ;;
     match a with
     | Response _ stdout =>
         if (includes stdout "Up" && includes stdout "healthy")%bool
         then log "Docker containers running and healthy" ;; ret true
         else log "Docker containers issue" ;; ret false
     | ConnError _ => log "Docker containers issue" ;; ret false
     end)
    (log "Docker check failed" ;; ret false).

Definition backend : M bool :=
  log "2 Backend API Health..." ;;
  try_or
    (response <- makeRequest GET "/api/health" None [] ;;
     if status response =? 200
     then log "Backend API responding" ;; ret true
     else log "Backend API responding but no health endpoint" ;;
          ret true (* Still consider it working *))
    (log "Backend API not accessible" ;; ret false).

Definition blockchain : M bool :=
  log "3 Blockchain Connection..." ;;
  try_or
    (response <- makeRequest POST "/api/tourist/register"
         (Some (JObj [("name", JStr "Health Check Tourist");
                      ("nationality", JStr "Test")])) [] ;;
     ok <- ok_and_success response ;;
     if ok
     then log "Blockchain connected and responsive" ;;
          id <- prop (data response) "uniqueId" ;;
          set_testUniqueId id ;;
          ret true
     else log "Blockchain connection issue" ;; ret false)
    (log "Blockchain not accessible" ;; ret false).

Definition frontend : M bool :=
  log "4 Frontend Web Server..." ;;
  try_or
    (response <- makeHTTPSRequest "/tourist-auth.html" ;;
     if ((page_status response =? 200)
         && includes (page_data response) "Tourist Portal")%bool
     then log "Frontend serving correctly" ;; ret true
     else log "Frontend not serving correctly" ;; ret false)
    (log "Frontend not accessible" ;; ret false).

Definition testInfrastructure : M Results :=
  log "INFRASTRUCTURE TESTS" ;;
  b1 <- docker ;;
  b2 <- backend ;;
  b3 <- blockchain ;;
  b4 <- frontend ;;
  ret (obj_set "frontend" b4
        (obj_set "blockchain" b3
          (obj_set "backend" b2
            (obj_set "docker" b1 [])))).

(** *** testCoreFeatures, lines 190-310 *)

Definition registration : M bool :=
  log "1 Tourist Registration..." ;;
  try_catch
    (response <- makeRequest POST "/api/tourist/register"
         (Some (JObj [("name", JStr "Feature Test Tourist");
                      ("nationality", JStr "Test Country");
                      ("email", JStr "test@example.com");
                      ("phone", JStr "+1234567890")])) [] ;;
     ok <- ok_and_success response ;;
     if ok
     then id <- prop (data response) "uniqueId" ;;
          set_testUniqueId id ;;
          log ("Registration successful (ID: " ++ to_string id ++ ")") ;;
          ret true
     else log "Registration failed" ;; ret false)
    (fun e => log ("Registration error: " ++ e) ;; ret false).

Definition infoRetrieval : M bool :=
  log "2 Tourist Info Retrieval..." ;;
  id <- get_testUniqueId ;;
  if truthy id
  then try_catch
         (response <- makeRequest GET
              ("/api/tourist/info/" ++ to_string id) None [] ;;
          ok <- ok_and_success response ;;
          if ok
          then log "Info retrieval working" ;; ret true
          else log "Info retrieval failed" ;; ret false)
         (fun e => log ("Info retrieval error: " ++ e) ;; ret false)
  else log "Skipped (no test ID)" ;; ret false.

Definition upload_url : string :=
  "http://localhost:3000/api/tourist/upload-document".

(** Lines 240-286.  When [form.submit] calls back with an error, the
    callback logs and assigns [results.documentUpload = false] but
    does not call [resolve]: the awaited promise stays unsettled. *)
Definition documentUpload : M bool :=
  log "3 Document Upload..." ;;
  id <- get_testUniqueId ;;
  if truthy id
  then try_catch
         (a <- invoke (Submit upload_url
                [("uniqueId", id);
                 ("documentType", JStr "passport");
                 ("document",
                  JStr "Test document content for health check")]) ;;
          match a with
          | ConnError err =>
              log ("Document upload error: " ++ err) ;; never
          | Response _ body =>
              try_or
                (result <- parse body ;;
                 success <- prop result "success" ;;
                 if truthy success
                 then log "Document upload working" ;; ret true
                 else log "Document upload failed" ;; ret false)
                (log "Document upload parse error" ;; ret false)
          end)
         (fun e => log ("Document upload error: " ++ e) ;; ret false)
  else log "Skipped (no test ID)" ;; ret false.

Definition documentRetrieval : M bool :=
  log "4 Document Retrieval..." ;;
  id <- get_testUniqueId ;;
  if truthy id
  then try_catch
         (response <- makeRequest GET
              ("/api/tourist/documents/" ++ to_string id) None [] ;;
          if status response =? 200
          then log "Document retrieval working" ;; ret true
          else log "Document retrieval failed" ;; ret false)
         (fun e => log ("Document retrieval error: " ++ e) ;; ret false)
  else log "Skipped (no test ID)" ;; ret false.

Definition testCoreFeatures : M Results :=
  log "CORE FEATURE TESTS" ;;
  b1 <- registration ;;
  b2 <- infoRetrieval ;;
  b3 <- documentUpload ;;
  b4 <- documentRetrieval ;;
  ret (obj_set "documentRetrieval" b4
        (obj_set "documentUpload" b3
          (obj_set "infoRetrieval" b2
            (obj_set "registration" b1 [])))).

(** *** testAuthorityFeatures, lines 313-386 *)

Definition authorityLogin : M bool :=
  log "1 Authority Login..." ;;
  try_catch
    (response <- makeRequest POST "/api/authority/login"
         (Some (JObj [("walletAddress",
                       JStr "0x9bBD3535c5582A4b15a529Bb3794688728988D41");
                      ("passphrase", JStr "vikrantaTBS$2025")])) [] ;;
     ok <- ok_and_success response ;;
     if ok
     then token <- prop (data response) "token" ;;
          set_authToken token ;;
          log "Authority login working" ;;
          ret true
     else _ <- prop (data response) "message" ;;
          log "Authority login failed:" ;;
          ret false)
    (fun e => log ("Authority login error: " ++ e) ;; ret false).

Definition bearer (token : JsVal) : list (string * string) :=
  [("Authorization", "Bearer " ++ to_string token)].

Definition pendingList : M bool :=
  log "2 Pending Tourists List..." ;;
  try_catch
    (token <- get_authToken ;;
     response <- makeRequest GET "/api/authority/pending" None
                   (if truthy token then bearer token else []) ;;
     if status response =? 200
     then log "Pending list accessible" ;; ret true
     else log "Pending list failed" ;; ret false)
    (fun e => log ("Pending list error: " ++ e) ;; ret false).

Definition verification : M bool :=
  log "3 Tourist Verification..." ;;
  id <- get_testUniqueId ;;
  token <- get_authToken ;;
  if (truthy id && truthy token)%bool
  then try_catch
         (response <- makeRequest POST "/api/authority/verify"
              (Some (JObj [("uniqueId", id);
                           ("validityDays", JNum 365);
                           ("notes", JStr "Health check verification")]))
              (bearer token) ;;
          ok <- ok_and_success response ;;
          if ok
          then log "Tourist verification working" ;; ret true
          else log "Tourist verification failed" ;; ret false)
         (fun e => log ("Tourist verification error: " ++ e) ;; ret false)
  else log "Skipped (no auth token or test ID)" ;; ret false.

Definition testAuthorityFeatures : M Results :=
  log "AUTHORITY FEATURE TESTS" ;;
  b1 <- authorityLogin ;;
  b2 <- pendingList ;;
  b3 <- verification ;;
  ret (obj_set "verification" b3
        (obj_set "pendingList" b2
          (obj_set "authorityLogin" b1 []))).

(** *** testAdvancedFeatures, lines 389-438 *)

Definition qrCode : M bool :=
  log "1 QR Code Generation..." ;;
  id <- get_testUniqueId ;;
  if truthy id
  then try_catch
         (response <- makeRequest GET
              ("/api/tourist/qrcode/" ++ to_string id) None [] ;;
          ok <- ok_and_success response ;;
          if ok
          then log "QR code generation working" ;; ret true
          else log "QR code generation failed" ;; ret false)
         (fun e => log ("QR code error: " ++ e) ;; ret false)
  else log "Skipped (no test ID)" ;; ret false.

Definition pvcCard : M bool :=
  log "2 PVC Card Generation..." ;;
  id <- get_testUniqueId ;;
  if truthy id
  then try_catch
         (response <- makeRequest GET
              ("/api/tourist/pvc-card/" ++ to_string id) None [] ;;
          if status response =? 200
          then log "PVC card generation working" ;; ret true
          else log "PVC card generation failed" ;; ret false)
         (fun e => log ("PVC card error: " ++ e) ;; ret false)
  else log "Skipped (no test ID)" ;; ret false.

Definition testAdvancedFeatures : M Results :=
  log "ADVANCED FEATURE TESTS" ;;
  b1 <- qrCode ;;
  b2 <- pvcCard ;;
  ret (obj_set "pvcCard" b2 (obj_set "qrCode" b1 [])).

(** *** testFrontendPages, lines 441-475 *)

Record Page : Type := { name : string; path : string; keyword : string }.

Definition pages : list Page :=
  [ {| name := "Home Page"; path := "/"; keyword := "VIKRANTA" |};
    {| name := "Portal"; path := "/portal.html";
       keyword := "Tourist Registry Portal" |};
    {| name := "Tourist Auth"; path := "/tourist-auth.html";
       keyword := "Tourist Portal" |};
    {| name := "Dashboard"; path := "/dashboard-simple.html";
       keyword := "Tourist Dashboard" |};
    {| name := "Authority Login"; path := "/authority-login.html";
       keyword := "Authority Login" |};
    {| name := "Authority Panel"; path := "/authority-panel.html";
       keyword := "Authority Dashboard" |} ].

(** [page.name.toLowerCase().replace(' ', '')] *)
Definition page_key (page : Page) : string :=
  remove_first_blank (toLowerCase (name page)).

Definition page_probe (i : nat) (page : Page) : M bool :=
  log (Z_to_string (Z.of_nat (i + 1)) ++ " " ++ name page ++ "...") ;;
  try_catch
    (response <- makeHTTPSRequest (path page) ;;
     if ((page_status response =? 200)
         && includes (page_data response) (keyword page))%bool
     then log (name page ++ " accessible") ;; ret true
     else log (name page ++ " issue") ;; ret false)
    (fun e => log (name page ++ " error: " ++ e) ;; ret false).

Fixpoint pages_loop (i : nat) (todo : list Page) (results : Results)
  : M Results :=
  match todo with
  | [] => ret results
  | page :: rest =>
      b <- page_probe i page ;;
      pages_loop (S i) rest (obj_set (page_key page) b results)
  end.

Definition testFrontendPages : M Results :=
  log "FRONTEND PAGE TESTS" ;;
  pages_loop 0 pages [].
End Script.

(** *** generateFinalReport, lines 478-531 *)

Inductive Tier : Type := Excellent | Good | NeedsAttention.

Definition allResults
    (infrastructure coreFeatures authorityFeatures advancedFeatures
     frontendPages : Results) : list (string * Results) :=
  [ ("Infrastructure", infrastructure);
    ("Core Features", coreFeatures);
    ("Authority Features", authorityFeatures);
    ("Advanced Features", advancedFeatures);
    ("Frontend Pages", frontendPages) ].

(** The two counters of the nested loop, [(totalTests, passedTests)]. *)
Definition count_tests (all : list (string * Results)) : Z * Z :=
  fold_left
    (fun (acc : Z * Z) (category : string * Results) =>
       fold_left
         (fun (counters : Z * Z) (entry : string * bool) =>
            (fst counters + 1,
             if snd entry then snd counters + 1 else snd counters))
         (snd category) acc)
    all (0, 0).

Definition totalTests (all : list (string * Results)) : Z :=
  fst (count_tests all).
Definition passedTests (all : list (string * Results)) : Z :=
  snd (count_tests all).

(** Lines 508-514. *)
Definition tier (passed total : Z) : Tier :=
  if Binary64.int_ge passed (Binary64.mul_int total Binary64.c08)
  then Excellent
  else if Binary64.int_ge passed (Binary64.mul_int total Binary64.c06)
       then Good
       else NeedsAttention.

(** What is handed to the console: the stage reports in stage order,
    the two counters and the tier. *)
Record FinalReport : Type := {
  categories : list (string * Results);
  total : Z;
  passed : Z;
  verdict : Tier
}.

Definition finalReport
    (infrastructure coreFeatures authorityFeatures advancedFeatures
     frontendPages : Results) : FinalReport :=
  let all := allResults infrastructure coreFeatures authorityFeatures
               advancedFeatures frontendPages in
  {| categories := all;
     total := totalTests all;
     passed := passedTests all;
     verdict := tier (passedTests all) (totalTests all) |}.

Fixpoint space_capitals (s : string) : string :=
  match s with
  | EmptyString => EmptyString
  | String c rest =>
      if is_upper c then String " " (String c (space_capitals rest))
      else String c (space_capitals rest)
  end.

(** [test.charAt(0).toUpperCase()
     + test.slice(1).replace(/([A-Z])/g, ' $1')] *)
Definition testName (test : string) : string :=
  match test with
  | EmptyString => EmptyString
  | String c rest => String (upper_ascii c) (space_capitals rest)
  end.

Definition test_line (entry : string * bool) : string :=
  "  " ++ testName (fst entry) ++ ": "
  ++ (if snd entry then "PASS" else "FAIL").

Definition tier_line (t : Tier) : string :=
  match t with
  | Excellent => "EXCELLENT! Your project is running successfully!"
  | Good => "GOOD! Most features are working correctly."
  | NeedsAttention => "NEEDS ATTENTION: Several components need fixing."
  end.

Definition report_header : string := "COMPREHENSIVE PROJECT HEALTH REPORT".

(** The lines of the report that depend on the outcomes.  The rounded
    percentage of the score line is left out. *)
Definition render (r : FinalReport) : list string :=
  report_header
  :: flat_map (fun category =>
                 (fst category ++ ":") :: map test_line (snd category))
              (categories r)
  ++ [ "OVERALL SCORE: " ++ Z_to_string (passed r) ++ "/"
       ++ Z_to_string (total r) ++ " tests passed";
       tier_line (verdict r) ].

Fixpoint log_all (lines : list string) : M unit :=
  match lines with
  | [] => ret tt
  | l :: rest => log l ;; log_all rest
  end.

Definition generateFinalReport
    (infrastructure coreFeatures authorityFeatures advancedFeatures
     frontendPages : Results) : M unit :=
  let r := finalReport infrastructure coreFeatures authorityFeatures
             advancedFeatures frontendPages in
  log_all (render r) ;;
  log "Quick Access URLs:" ;;
  log "Registration: https://localhost/tourist-auth.html" ;;
  id <- get_testUniqueId ;;
  log ("Dashboard: https://localhost/dashboard-simple.html?uniqueId="
       ++ (if truthy id then to_string id else "YOUR_ID")) ;;
  log "Authority: https://localhost/authority-login.html" ;;
  log "Home: https://localhost/" ;;
  log "Next Steps:" ;;
  if passed r =? total r
  then log "All systems operational! Ready for production use."
  else log "Focus on fixing the failed components above." ;;
       log "Check logs for specific error details.".

(** *** runComprehensiveHealthCheck, lines 534-549 *)

(** The body of [runComprehensiveHealthCheck] over any five stages. *)
Definition orchestrate (s1 s2 s3 s4 s5 : M Results) : M unit :=
  log "Starting comprehensive health check..." ;;
  try_catch
    (infrastructure <- s1 ;;
     coreFeatures <- s2 ;;
     authorityFeatures <- s3 ;;
     advancedFeatures <- s4 ;;
     frontendPages <- s5 ;;
     generateFinalReport infrastructure coreFeatures authorityFeatures
       advancedFeatures frontendPages)
    (fun e => log ("Health check failed: " ++ e)).

Definition runComprehensiveHealthCheck {E : Env} : M unit :=
  orchestrate testInfrastructure testCoreFeatures testAuthorityFeatures
    testAdvancedFeatures testFrontendPages.

(** Whether the report has been printed. *)
Definition report_printed (s : State) : bool :=
  existsb (String.eqb report_header) (console s).
End HealthCheck.

(** ** test-all-features.js *)

Module AllFeatures.
Section Script.
Context {E : Env}.

(** Lines 22-63: the resolved object has no [raw] field. *)
Definition makeRequest (method : Method) (path : string)
    (body : option JsVal) (headers : list (string * string))
  : M ApiResponse :=
  a <- invoke (Api method path body headers) ;;
  match a with
  | ConnError e => throw e
  | Response st responseData =>
      match JSON_parse responseData with
      | Some result => ret {| status := st; data := result; raw := None |}
      | None =>
          ret {| status := st; data := JStr responseData; raw := None |}
      end
  end.

Definition testData : JsVal :=
  JObj [("name", JStr "Complete Test Tourist");
        ("nationality", JStr "Test Country");
        ("email", JStr "complete@test.com");
        ("phone", JStr "+1234567890");
        ("passportNumber", JStr "TEST123456");
        ("dateOfBirth", JStr "1990-01-01");
        ("address", JStr "Test Address, Test City")].

(** Lines 66-97. *)
Definition testRegistration : M bool :=
  log "TEST 1: Tourist Registration" ;;
  try_catch
    (response <- makeRequest POST "/api/tourist/register" (Some testData) [] ;;
     ok <- ok_and_success response ;;
     if ok
     then id <- prop (data response) "uniqueId" ;;
          set_testUniqueId id ;;
          log "Registration: SUCCESS" ;;
          log ("Unique ID: " ++ to_string id) ;;
          log "Transaction:" ;;
          ret true
     else log "Registration: FAILED" ;;
          _ <- prop (data response) "message" ;;
          log "Response:" ;;
          ret false)
    (fun e => log ("Registration: ERROR - " ++ e) ;; ret false).

(** Lines 100-122. *)
Definition testLogin : M bool :=
  log "TEST 2: Tourist Login (Info Retrieval)" ;;
  try_catch
    (id <- get_testUniqueId ;;
     response <- makeRequest GET
         ("/api/tourist/info/" ++ to_string id) None [] ;;
     ok <- ok_and_success response ;;
     if ok
     then log "Login: SUCCESS" ;;
          info <- prop (data response) "data" ;;
          _ <- prop info "name" ;;
          log "Name:" ;;
          log "Nationality:" ;;
          log "Registered:" ;;
          log "Status:" ;;
          ret true
     else log "Login: FAILED" ;;
          _ <- prop (data response) "message" ;;
          log "Response:" ;;
          ret false)
    (fun e => log ("Login: ERROR - " ++ e) ;; ret false).

(** [path.join(__dirname, 'test-passport.txt')], relative to the script. *)
Definition testFilePath : string := "test-passport.txt".

Definition upload_url : string :=
  "http://localhost:3000/api/tourist/upload-document".

(** Lines 125-190.  The promise resolves with [false] or with the value of
    [result.success].  The issue date of the file text is left out. *)
Definition testDocumentUpload : M JsVal :=
  log "TEST 3: Document Upload" ;;
  id <- get_testUniqueId ;;
  writeFileSync testFilePath
    ("PASSPORT DOCUMENT Tourist ID: " ++ to_string id) ;;
  a <- invoke (Submit upload_url
         [("uniqueId", id);
          ("documentType", JStr "passport");
          ("document", JStr testFilePath)]) ;;
  match a with
  | ConnError err =>
      log ("Document Upload: ERROR - " ++ err) ;;
      ret (JBool false)
  | Response _ body =>
      try_catch
        (result <- parse body ;;
         success <- prop result "success" ;;
         (if truthy success
          then log "Document Upload: SUCCESS" ;;
               log "Document Type: passport" ;;
               log "IPFS Hash:" ;;
               log "Transaction:"
          else log "Document Upload: FAILED" ;;
               log "Error:") ;;
         (* Clean up test file *)
         try_or (unlinkSync testFilePath)
                (ret tt (* Ignore cleanup errors *)) ;;
         ret success)
        (fun e =>
           log ("Document Upload: PARSE ERROR - " ++ e) ;;
           ret (JBool false))
  end.

(** [v.length] on a value that is neither [null] nor [undefined]. *)
Definition js_length (v : JsVal) : JsVal :=
  match v with
  | JArr items => JNum (Z.of_nat (List.length items))
  | JStr s => JNum (Z.of_nat (String.length s))
  | JObj fields =>
      match lookup "length" fields with Some x => x | None => JUndefined end
  | _ => JUndefined
  end.

Fixpoint log_documents (items : list JsVal) : M unit :=
  match items with
  | [] => ret tt
  | doc :: rest =>
      log "Document:" ;;
      _ <- prop doc "documentType" ;;
      log "Type:" ;;
      log "IPFS:" ;;
      log "Status:" ;;
      log_documents rest
  end.

(** [documents.forEach(...)]: only an array has the method. *)
Definition forEach_document (documents : JsVal) : M unit :=
  match documents with
  | JArr items => log_documents items
  | _ => throw "documents.forEach is not a function"
  end.

(** Lines 193-224. *)
Definition testDocumentRetrieval : M bool :=
  log "TEST 4: Document Retrieval" ;;
  try_catch
    (id <- get_testUniqueId ;;
     response <- makeRequest GET
         ("/api/tourist/documents/" ++ to_string id) None [] ;;
     ok <- ok_and_success response ;;
     if ok
     then documents <- prop (data response) "documents" ;;
          if (truthy documents && gt_zero (js_length documents))%bool
          then log "Document Retrieval: SUCCESS" ;;
               log "Documents Found:" ;;
               forEach_document documents ;;
               ret true
          else log "Document Retrieval: SUCCESS but no documents found" ;;
               ret true (* Still counts as success *)
     else log "Document Retrieval: FAILED" ;;
          _ <- prop (data response) "message" ;;
          log "Response:" ;;
          ret false)
    (fun e => log ("Document Retrieval: ERROR - " ++ e) ;; ret false).

Definition loginData : JsVal :=
  JObj [("walletAddress", JStr "0x9bBD3535c5582A4b15a529Bb3794688728988D41");
        ("passphrase", JStr "vikrantaTBS$2025")].

(** Lines 227-252. *)
Definition testAuthorityLogin : M bool :=
  log "TEST 5: Authority Login" ;;
  try_catch
    (response <- makeRequest POST "/api/authority/login" (Some loginData) [] ;;
     ok <- ok_and_success response ;;
     if ok
     then token <- prop (data response) "token" ;;
          set_authToken token ;;
          log "Authority Login: SUCCESS" ;;
          log (if truthy token then "Token: Generated" else "Token: None") ;;
          ret true
     else log "Authority Login: FAILED" ;;
          _ <- prop (data response) "message" ;;
          log "Response:" ;;
          ret false)
    (fun e => log ("Authority Login: ERROR - " ++ e) ;; ret false).

(** Lines 255-282. *)
Definition testTouristVerification : M bool :=
  log "TEST 6: Tourist Verification" ;;
  try_catch
    (id <- get_testUniqueId ;;
     token <- get_authToken ;;
     response <- makeRequest POST "/api/authority/verify"
         (Some (JObj [("uniqueId", id);
                      ("validityDays", JNum 365);
                      ("notes", JStr "Automated test verification")]))
         (if truthy token
          then [("Authorization", "Bearer " ++ to_string token)] else []) ;;
     ok <- ok_and_success response ;;
     if ok
     then log "Tourist Verification: SUCCESS" ;;
          log "Transaction:" ;;
          ret true
     else log "Tourist Verification: FAILED" ;;
          _ <- prop (data response) "message" ;;
          log "Response:" ;;
          ret false)
    (fun e => log ("Tourist Verification: ERROR - " ++ e) ;; ret false).

(** Lines 285-304. *)
Definition testQRCodeGeneration : M bool :=
  log "TEST 7: QR Code Generation" ;;
  try_catch
    (id <- get_testUniqueId ;;
     response <- makeRequest GET
         ("/api/tourist/qrcode/" ++ to_string id) None [] ;;
     ok <- ok_and_success response ;;
     if ok
     then log "QR Code Generation: SUCCESS" ;;
          log "QR Code:" ;;
          ret true
     else log "QR Code Generation: FAILED" ;;
          _ <- prop (data response) "message" ;;
          log "Response:" ;;
          ret false)
    (fun e => log ("QR Code Generation: ERROR - " ++ e) ;; ret false).

(** Lines 307-326. *)
Definition testPVCCardGeneration : M bool :=
  log "TEST 8: PVC Card Generation" ;;
  try_catch
    (id <- get_testUniqueId ;;
     response <- makeRequest GET
         ("/api/tourist/pvc-card/" ++ to_string id) None [] ;;
     if status response =? 200
     then log "PVC Card Generation: SUCCESS" ;;
          log "PVC Card: Generated (PDF)" ;;
          ret true
     else log "PVC Card Generation: FAILED" ;;
          log "Response:" ;;
          ret false)
    (fun e => log ("PVC Card Generation: ERROR - " ++ e) ;; ret false).

(** Lines 329-367: the secure transport only. *)
Definition testFrontendAccess : M bool :=
  log "TEST 9: Frontend Access" ;;
  a <- invoke (Https "/dashboard-simple.html") ;;
  match a with
  | Response _ html =>
      if (includes html "Tourist Dashboard"
          && includes html "Document Upload")%bool
      then log "Frontend Access: SUCCESS" ;;
           log "Dashboard: Accessible" ;;
           ret true
      else log "Frontend Access: Content incorrect" ;; ret false
  | ConnError e => log ("Frontend Access: ERROR - " ++ e) ;; ret false
  end.

Definition initial_results : list (string * JsVal) :=
  [("registration", JBool false); ("login", JBool false);
   ("documentUpload", JBool false); ("documentRetrieval", JBool false);
   ("authorityLogin", JBool false); ("verification", JBool false);
   ("qrCode", JBool false); ("pvcCard", JBool false);
   ("frontend", JBool false)].

(** Lines 373-404; the two-second pause is left out. *)
Definition run_tests : M (list (string * JsVal)) :=
  let results := initial_results in
  registration <- testRegistration ;;
  let results := obj_set "registration" (JBool registration) results in
  if registration
  then login <- testLogin ;;
       let results := obj_set "login" (JBool login) results in
       documentUpload <- testDocumentUpload ;;
       let results := obj_set "documentUpload" documentUpload results in
       documentRetrieval <- testDocumentRetrieval ;;
       let results :=
         obj_set "documentRetrieval" (JBool documentRetrieval) results in
       authorityLogin <- testAuthorityLogin ;;
       let results := obj_set "authorityLogin" (JBool authorityLogin) results in
       results <-
         (if authorityLogin
          then verification <- testTouristVerification ;;
               qrCode <- testQRCodeGeneration ;;
               pvcCard <- testPVCCardGeneration ;;
               ret (obj_set "pvcCard" (JBool pvcCard)
                     (obj_set "qrCode" (JBool qrCode)
                       (obj_set "verification" (JBool verification) results)))
          else ret results) ;;
       frontend <- testFrontendAccess ;;
       ret (obj_set "frontend" (JBool frontend) results)
  else ret results.
End Script.

Definition testNames : list (string * string) :=
  [("registration", "1. Registration");
   ("login", "2. Login/Info Retrieval");
   ("documentUpload", "3. Document Upload");
   ("documentRetrieval", "4. Document Retrieval");
   ("authorityLogin", "5. Authority Login");
   ("verification", "6. Tourist Verification");
   ("qrCode", "7. QR Code Generation");
   ("pvcCard", "8. PVC Card Generation");
   ("frontend", "9. Frontend Access")].

(** [results[key]] *)
Definition result_of (results : list (string * JsVal)) (key : string) : JsVal :=
  match lookup key results with Some v => v | None => JUndefined end.

Definition passedTests (results : list (string * JsVal)) : Z :=
  fold_left (fun (n : Z) (entry : string * string) =>
               if truthy (result_of results (fst entry)) then n + 1 else n)
            testNames 0.

Fixpoint log_all (lines : list string) : M unit :=
  match lines with
  | [] => ret tt
  | l :: rest => log l ;; log_all rest
  end.

(** Lines 370-446. *)
Definition runCompleteSystemTest {E : Env} : M unit :=
  log "Starting Complete System Test..." ;;
  results <- run_tests ;;
  log "FINAL TEST RESULTS" ;;
  log_all (map (fun entry : string * string =>
                  snd entry ++ ": "
                  ++ (if truthy (result_of results (fst entry))
                      then "PASS" else "FAIL"))
               testNames) ;;
  let totalTests := Z.of_nat (List.length results) in
  log ("SCORE: " ++ Z_to_string (passedTests results) ++ "/"
       ++ Z_to_string totalTests ++ " tests passed") ;;
  if passedTests results =? totalTests
  then log "ALL TESTS PASSED! SYSTEM IS FULLY FUNCTIONAL!" ;;
       log "Access URLs:" ;;
       log "Registration: https://localhost/tourist-auth.html" ;;
       id <- get_testUniqueId ;;
       log ("Dashboard: https://localhost/dashboard-simple.html?uniqueId="
            ++ to_string id) ;;
       log "Authority: https://localhost/authority-panel.html"
  else log "Some tests failed. Please check the errors above.".
End AllFeatures.

(** ** test-complete-flow.js *)

Module CompleteFlow.
Section Script.
Context {E : Env}.

(** Lines 18-56: a body that does not decode rejects the promise. *)
Definition makeRequest (method : Method) (path : string)
    (body : option JsVal) : M ApiResponse :=
  a <- invoke (Api method path body []) ;;
  match a with
  | ConnError e => throw e
  | Response st responseData =>
      match JSON_parse responseData with
      | Some result => ret {| status := st; data := result; raw := None |}
      | None => throw ("Failed to parse response: " ++ responseData)
      end
  end.

Definition testData : JsVal :=
  JObj [("name", JStr "Test Tourist Flow");
        ("nationality", JStr "Test Country");
        ("email", JStr "test@example.com");
        ("phone", JStr "+1234567890")].

(** Lines 59-86. *)
Definition testRegistration : M bool :=
  log "Step 1: Testing Tourist Registration..." ;;
  try_catch
    (response <- makeRequest POST "/api/tourist/register" (Some testData) ;;
     ok <- ok_and_success response ;;
     if ok
     then id <- prop (data response) "uniqueId" ;;
          set_testUniqueId id ;;
          log "Registration successful" ;;
          log ("Unique ID: " ++ to_string id) ;;
          log "Transaction Hash:" ;;
          ret true
     else _ <- prop (data response) "message" ;;
          log "Registration failed:" ;;
          ret false)
    (fun e => log ("Registration error: " ++ e) ;; ret false).

(** Lines 89-110. *)
Definition testInfoRetrieval : M bool :=
  log "Step 2: Testing Tourist Info Retrieval..." ;;
  try_catch
    (id <- get_testUniqueId ;;
     response <- makeRequest GET ("/api/tourist/info/" ++ to_string id) None ;;
     ok <- ok_and_success response ;;
     if ok
     then log "Info retrieval successful" ;;
          info <- prop (data response) "data" ;;
          _ <- prop info "name" ;;
          log "Name:" ;;
          log "Nationality:" ;;
          log "Registration Date:" ;;
          log "Verification Status:" ;;
          ret true
     else _ <- prop (data response) "message" ;;
          log "Info retrieval failed:" ;;
          ret false)
    (fun e => log ("Info retrieval error: " ++ e) ;; ret false).

Definition page_ok (html : string) : bool :=
  (includes html "Tourist Portal" && includes html "Register")%bool.

(** Lines 113-186. *)
Definition testFrontendAccess : M bool :=
  log "Step 3: Testing Frontend Access..." ;;
  a <- invoke (Https "/tourist-auth.html") ;;
  match a with
  | Response _ html =>
      if page_ok html
      then log "Frontend accessible" ;;
           log "Tourist Auth page loaded correctly" ;;
           ret true
      else log "Frontend loaded but content incorrect" ;; ret false
  | ConnError _ =>
      log "HTTPS failed, trying HTTP..." ;;
      b <- invoke (Http "/tourist-auth.html") ;;
      match b with
      | Response _ html =>
          if page_ok html
          then log "Frontend accessible via HTTP" ;;
               log "Tourist Auth page loaded correctly" ;;
               ret true
          else log "Frontend loaded but content incorrect" ;; ret false
      | ConnError httpError =>
          log ("Both HTTPS and HTTP failed: " ++ httpError) ;;
          ret false
      end
  end.

Definition summary : M unit :=
  log "ALL TESTS PASSED!" ;;
  log "Test Summary:" ;;
  log "1. Tourist Registration Working" ;;
  log "2. Info Retrieval Working" ;;
  log "3. Frontend Access Working".

(** Lines 189-233. *)
Definition runCompleteTest : M unit :=
  try_catch
    (log "Starting complete flow test..." ;;
     registered <- testRegistration ;;
     if negb registered
     then log "Registration test failed. Stopping tests."
     else
       retrieved <- testInfoRetrieval ;;
       if negb retrieved
       then log "Info retrieval test failed. Stopping tests."
       else
         served <- testFrontendAccess ;;
         if negb served
         then log "Frontend access test failed."
         else summary)
    (fun e => log ("Test suite error: " ++ e)).
End Script.
End CompleteFlow.

(** ** The probes of comprehensive-health-check.js as a table

    Each probe of the four API stages with the guard the source puts
    around it ([dependencies]), the first line it prints, the line it
    prints when the guard fails, and the call it makes when it runs. *)
Module Probes.
Import HealthCheck.

Inductive Probe : Type :=
| Docker | Backend | Blockchain | Frontend
| Registration | InfoRetrieval | DocumentUpload | DocumentRetrieval
| AuthorityLogin | PendingList | Verification
| QrCode | PvcCard.

Definition run {E : Env} (p : Probe) : M bool :=
  match p with
  | Docker => docker
  | Backend => backend
  | Blockchain => blockchain
  | Frontend => frontend
  | Registration => registration
  | InfoRetrieval => infoRetrieval
  | DocumentUpload => documentUpload
  | DocumentRetrieval => documentRetrieval
  | AuthorityLogin => authorityLogin
  | PendingList => pendingList
  | Verification => verification
  | QrCode => qrCode
  | PvcCard => pvcCard
  end.

(** The key under which the stage records the outcome. *)
Definition key (p : Probe) : string :=
  match p with
  | Docker => "docker"
  | Backend => "backend"
  | Blockchain => "blockchain"
  | Frontend => "frontend"
  | Registration => "registration"
  | InfoRetrieval => "infoRetrieval"
  | DocumentUpload => "documentUpload"
  | DocumentRetrieval => "documentRetrieval"
  | AuthorityLogin => "authorityLogin"
  | PendingList => "pendingList"
  | Verification => "verification"
  | QrCode => "qrCode"
  | PvcCard => "pvcCard"
  end.

(** The variables tested by the [if] around the probe. *)
Definition dependencies (p : Probe) : list Key :=
  match p with
  | InfoRetrieval | DocumentUpload | DocumentRetrieval | QrCode | PvcCard =>
      [TestUniqueId]
  | Verification => [TestUniqueId; AuthToken]
  | _ => []
  end.

Definition header (p : Probe) : string :=
  match p with
  | Docker => "1 Docker Containers..."
  | Backend => "2 Backend API Health..."
  | Blockchain => "3 Blockchain Connection..."
  | Frontend => "4 Frontend Web Server..."
  | Registration => "1 Tourist Registration..."
  | InfoRetrieval => "2 Tourist Info Retrieval..."
  | DocumentUpload => "3 Document Upload..."
  | DocumentRetrieval => "4 Document Retrieval..."
  | AuthorityLogin => "1 Authority Login..."
  | PendingList => "2 Pending Tourists List..."
  | Verification => "3 Tourist Verification..."
  | QrCode => "1 QR Code Generation..."
  | PvcCard => "2 PVC Card Generation..."
  end.

Definition skip_line (p : Probe) : string :=
  match p with
  | Verification => "Skipped (no auth token or test ID)"
  | _ => "Skipped (no test ID)"
  end.

(** The first call of the probe when it runs in state [s]. *)
Definition request (p : Probe) (s : State) : Call :=
  let id := testUniqueId s in
  let token := authToken s in
  match p with
  | Docker => Exec "docker-compose ps"
  | Backend => Api GET "/api/health" None []
  | Blockchain =>
      Api POST "/api/tourist/register"
        (Some (JObj [("name", JStr "Health Check Tourist");
                     ("nationality", JStr "Test")])) []
  | Frontend => Https "/tourist-auth.html"
  | Registration =>
      Api POST "/api/tourist/register"
        (Some (JObj [("name", JStr "Feature Test Tourist");
                     ("nationality", JStr "Test Country");
                     ("email", JStr "test@example.com");
                     ("phone", JStr "+1234567890")])) []
  | InfoRetrieval => Api GET ("/api/tourist/info/" ++ to_string id) None []
  | DocumentUpload =>
      Submit upload_url
        [("uniqueId", id);
         ("documentType", JStr "passport");
         ("document", JStr "Test document content for health check")]
  | DocumentRetrieval =>
      Api GET ("/api/tourist/documents/" ++ to_string id) None []
  | AuthorityLogin =>
      Api POST "/api/authority/login"
        (Some (JObj [("walletAddress",
                      JStr "0x9bBD3535c5582A4b15a529Bb3794688728988D41");
                     ("passphrase", JStr "vikrantaTBS$2025")])) []
  | PendingList =>
      Api GET "/api/authority/pending" None
        (if truthy token then bearer token else [])
  | Verification =>
      Api POST "/api/authority/verify"
        (Some (JObj [("uniqueId", id);
                     ("validityDays", JNum 365);
                     ("notes", JStr "Health check verification")]))
        (bearer token)
  | QrCode => Api GET ("/api/tourist/qrcode/" ++ to_string id) None []
  | PvcCard => Api GET ("/api/tourist/pvc-card/" ++ to_string id) None []
  end.

(** What a probe tests on the response it receives: nothing, the status
    alone, the status and [data.success], or (the upload) the [success]
    field of the decoded body alone. *)
Inductive Check : Type :=
| AnyResponse | StatusOnly | StatusAndSuccess | SuccessOnly.

Definition check (p : Probe) : option Check :=
  match p with
  | Backend => Some AnyResponse
  | DocumentRetrieval | PendingList | PvcCard => Some StatusOnly
  | Blockchain | Registration | InfoRetrieval | AuthorityLogin
  | Verification | QrCode => Some StatusAndSuccess
  | DocumentUpload => Some SuccessOnly
  | Docker | Frontend => None
  end.

(** A stage as the source writes it: the probes in order, each outcome
    assigned to [results] under the probe's key. *)
Fixpoint run_stage {E : Env} (probes : list Probe) (results : Results)
  : M Results :=
  match probes with
  | [] => ret results
  | p :: rest =>
      b <- run p ;;
      run_stage rest (obj_set (key p) b results)
  end.
End Probes.

(** ** Concrete services

    Small deterministic services for the examples.  Their JSON bodies are
    written as values and sent as text; [JSON_parse] recognises exactly the
    texts of the values a service can send, and nothing else. *)
Module Services.

Definition dq : string := String (ascii_of_nat 34) EmptyString.

(** The JSON text of a value without [undefined]. *)
Fixpoint json_text (v : JsVal) : string :=
  match v with
  | JUndefined | JNull => "null"
  | JBool true => "true"
  | JBool false => "false"
  | JNum n => Z_to_string n
  | JStr s => dq ++ s ++ dq
  | JArr items => "[" ++ join "," (map json_text items) ++ "]"
  | JObj fields =>
      "{" ++ join "," (map (fun kv : string * JsVal =>
                              let (k, x) := kv in
                              dq ++ k ++ dq ++ ":" ++ json_text x) fields)
      ++ "}"
  end.

Definition parse_among (known : list JsVal) (text : string) : option JsVal :=
  find (fun v => String.eqb (json_text v) text) known.

Definition success : JsVal := JObj [("success", JBool true)].
Definition success_with_id : JsVal :=
  JObj [("success", JBool true); ("uniqueId", JStr "T1")].
Definition success_with_token : JsVal :=
  JObj [("success", JBool true); ("token", JStr "secret")].
Definition failure : JsVal := JObj [("success", JBool false)].

Definition known : list JsVal :=
  [success; success_with_id; success_with_token; failure].

(** A service given by its answers; the examples never compare a string,
    an array or an object with zero. *)
Definition service (respond : list Call -> Call -> Answer) : Env :=
  {| JSON_parse := parse_among known;
     coerced_gt_zero := fun _ => false;
     answer := respond |}.

Definition api_path (c : Call) : string :=
  match c with
  | Api _ path _ _ => path
  | _ => ""
  end.

Definition is_register (c : Call) : bool :=
  String.eqb (api_path c) "/api/tourist/register".
Definition is_login (c : Call) : bool :=
  String.eqb (api_path c) "/api/authority/login".
Definition is_info (c : Call) : bool :=
  String.prefix "/api/tourist/info/" (api_path c).
Definition is_qrcode (c : Call) : bool :=
  String.prefix "/api/tourist/qrcode/" (api_path c).
Definition is_pvc_card (c : Call) : bool :=
  String.prefix "/api/tourist/pvc-card/" (api_path c).
Definition is_insecure (c : Call) : bool :=
  match c with Http _ => true | _ => false end.

(** Nothing listens anywhere. *)
Definition down : Env :=
  service (fun _ _ => ConnError "connect ECONNREFUSED").

(** Registration succeeds and issues T1; every other request is answered
    with status 500 and [{success:false}]. *)
Definition failing_after_registration : Env :=
  service (fun _ c =>
    if is_register c then Response 200 (json_text success_with_id)
    else Response 500 (json_text failure)).

(** The same, but the registration answer carries no [uniqueId]. *)
Definition registration_without_id : Env :=
  service (fun _ c =>
    if is_register c then Response 200 (json_text success)
    else Response 500 (json_text failure)).

(** Everything works except the authority login, which is refused. *)
Definition login_refused : Env :=
  service (fun _ c =>
    match c with
    | Api _ _ _ _ =>
        if is_register c then Response 200 (json_text success_with_id)
        else if is_login c then Response 401 (json_text failure)
        else Response 200 (json_text success)
    | Submit _ _ => Response 200 (json_text success)
    | Https _ | Http _ =>
        Response 200 "Tourist Dashboard, Document Upload, Tourist Portal"
    | Exec _ => Response 0 "Up (healthy)"
    end).

(** Everything works, but the upload endpoint refuses the connection. *)
Definition upload_refused : Env :=
  service (fun _ c =>
    match c with
    | Api _ _ _ _ =>
        if is_register c then Response 200 (json_text success_with_id)
        else if is_login c then Response 200 (json_text success_with_token)
        else Response 200 (json_text success)
    | Submit _ _ => ConnError "connect ECONNREFUSED"
    | Https _ | Http _ => Response 200 "VIKRANTA Tourist Portal"
    | Exec _ => Response 0 "Up (healthy)"
    end).

(** The upload endpoint sits behind a gateway that answers in HTML. *)
Definition upload_bad_gateway : Env :=
  service (fun _ c =>
    match c with
    | Submit _ _ => Response 502 "<html>502 Bad Gateway</html>"
    | _ => Response 200 (json_text success_with_id)
    end).

(** The upload succeeds. *)
Definition upload_accepted : Env :=
  service (fun _ c => Response 200 (json_text success)).

(** The card endpoint answers with a PDF, the health endpoint with 404
    and a plain text. *)
Definition pdf_card : Env :=
  service (fun _ c =>
    if is_pvc_card c then Response 200 "%PDF-1.4"
    else Response 404 "Not Found").

(** The first registration issues T1, every later one answers success
    without a [uniqueId]. *)
Definition id_only_once : Env :=
  service (fun trace c =>
    match c with
    | Api _ _ _ _ =>
        if is_register c
        then if existsb is_register trace
             then Response 200 (json_text success)
             else Response 200 (json_text success_with_id)
        else Response 200 (json_text success)
    | _ => ConnError "connect ECONNREFUSED"
    end).

(** Only the secure port serves the pages. *)
Definition secure_pages : Env :=
  service (fun _ c =>
    match c with
    | Https _ => Response 200 "Tourist Portal: Register"
    | _ => ConnError "connect ECONNREFUSED"
    end).

(** Only the insecure port serves the pages. *)
Definition insecure_pages : Env :=
  service (fun _ c =>
    match c with
    | Http _ => Response 200 "Tourist Portal: Register"
    | _ => ConnError "connect ECONNREFUSED"
    end).

(** A healthy service: every success answer carries its key. *)
Definition healthy : Env :=
  service (fun _ c =>
    match c with
    | Api _ _ _ _ =>
        if is_register c then Response 200 (json_text success_with_id)
        else if is_login c then Response 200 (json_text success_with_token)
        else Response 200 (json_text success)
    | Submit _ _ => Response 200 (json_text success)
    | Https _ | Http _ => Response 200 "VIKRANTA Tourist Portal"
    | Exec _ => Response 0 "Up (healthy)"
    end).

(** The state in which an earlier registration has issued T1. *)
Definition registered : State :=
  {| testUniqueId := JStr "T1"; authToken := JNull;
     calls := []; console := []; files := [] |}.
End Services.

(** ** Vocabulary of the statements *)

(** Whether the transport delivered a response. *)
Definition responded (a : Answer) : bool :=
  match a with
  | Response _ _ => true
  | ConnError _ => false
  end.

(** The calls a computation added to the trace of [s]. *)
Definition new_calls {A} (c : Completion A) (s : State) : list Call :=
  skipn (List.length (calls s)) (calls (final_state c)).

(** Requests of the probes that test-all-features.js runs only after a
    successful authority login. *)
Definition behind_login (c : Call) : bool :=
  (String.eqb (Services.api_path c) "/api/authority/verify"
   || Services.is_qrcode c || Services.is_pvc_card c)%bool.

Definition is_page_fetch (c : Call) : bool :=
  match c with
  | Https _ | Http _ => true
  | _ => false
  end.

(** The five awaits of the [try] block of [runComprehensiveHealthCheck],
    without the report. *)
Definition all_stages (s1 s2 s3 s4 s5 : M Results)
  : M (Results * Results * Results * Results * Results) :=
  (infrastructure <- s1 ;;
   coreFeatures <- s2 ;;
   authorityFeatures <- s3 ;;
   advancedFeatures <- s4 ;;
   frontendPages <- s5 ;;
   ret (infrastructure, coreFeatures, authorityFeatures, advancedFeatures,
        frontendPages))%js.

Definition start_line : string := "Starting comprehensive health check...".


(** Numbers of outcomes on which the binary64 model is compared with the
    hardware doubles. *)
Definition small_counts : list Z := map Z.of_nat (seq 0 65).

(** The console lines a computation added to those of [s]. *)
Definition new_lines {A} (c : Completion A) (s : State) : list string :=
  skipn (List.length (console s)) (console (final_state c)).

Definition fallback_line : string := "HTTPS failed, trying HTTP...".

(** The calls of a page fetch with fallback for [path], given the answer
    of the secure transport. *)
Definition fetch_calls (secure : Answer) (path : string) : list Call :=
  match secure with
  | Response _ _ => [Https path]
  | ConnError _ => [Https path; Http path]
  end.

(** What a probe that goes through [makeRequest] records when the body
    of the response is not JSON and the status is [st]. *)
Definition verdict_on_text (c : Probes.Check) (st : Z) : bool :=
  match c with
  | Probes.AnyResponse => true
  | Probes.StatusOnly => st =? 200
  | Probes.StatusAndSuccess | Probes.SuccessOnly => false
  end.

(** All recorded outcomes of a report, in order. *)
Definition entries (all : list (string * Results)) : list (string * bool) :=
  flat_map snd all.

Definition passing (results : list (string * bool)) : list (string * bool) :=
  filter snd results.

Definition flow_register : Call :=
  Api POST "/api/tourist/register" (Some CompleteFlow.testData) [].

(** The variable a probe assigns, if any: [testUniqueId =
    response.data.uniqueId] in the two registration probes and
    [authToken = response.data.token] in the login probe. *)
Definition writes (p : Probes.Probe) : option Key :=
  match p with
  | Probes.Blockchain | Probes.Registration => Some TestUniqueId
  | Probes.AuthorityLogin => Some AuthToken
  | _ => None
  end.

(** A service whose successful registration and login answers always
    carry the identifier, respectively the token. *)
Definition carries_keys (E : Env) : Prop :=
  forall trace m path d h body v,
    answer trace (Api m path d h) = Response 200 body ->
    JSON_parse body = Some v ->
    truthy (field "success" v) = true ->
    (path = "/api/tourist/register" -> truthy (field "uniqueId" v) = true)
    /\ (path = "/api/authority/login" -> truthy (field "token" v) = true).

(** [m] never takes a present key [k] away. *)
Definition keeps (k : Key) {A} (m : M A) : Prop :=
  forall s,
    truthy (get k s) = true -> truthy (get k (final_state (m s))) = true.

(** ** The quick authority verification script (src/unnamed/part_000)

    The script prints a banner and calls [tryDirectVerification];
    [verifyTourist] is defined and never called.  A call records the
    method, the path and the data; the Content-Type and Content-Length
    headers that [verifyTourist] sets are left out. *)
Module QuickVerify.
Section Script.
Context {E : Env}.

Definition uniqueId : string := "epi686omTS".

(** Lines 15-72. *)
Definition verifyTourist : M unit :=
  a <- invoke (Api POST "/api/authority/verify-direct"
                 (Some (JObj [("uniqueId", JStr uniqueId);
                              ("validityDays", JNum 365);
                              ("notes",
                               JStr "Manual verification for testing")]))
                 []) ;;
  match a with
  | ConnError e => log ("Request error: " ++ e)
  | Response _ text =>
      try_catch
        (result <- parse text ;;
         success <- prop result "success" ;;
         if truthy success
         then log "Tourist verified successfully!" ;;
              log ("Unique ID: " ++ uniqueId) ;;
              log "Transaction:" ;;
              log "Now you can access:" ;;
              log ("QR Code: https://localhost/dashboard-simple.html?uniqueId="
                   ++ uniqueId) ;;
              log "PVC Card: Download available in dashboard"
         else log "Verification failed:")
        (fun e =>
           log ("Parse error: " ++ e) ;;
           log ("Raw response: " ++ text))
  end.

Definition advice : list string :=
  ["Tourist needs verification for QR/PVC features";
   "SOLUTION: You can manually verify this tourist by:";
   "1. Going to: https://localhost/authority-login.html";
   "2. Connect MetaMask wallet";
   "3. Enter passphrase: vikrantaTBS$2025";
   "4. Go to authority panel and verify the tourist";
   "Tourist ID to verify: " ++ uniqueId].

Fixpoint log_each (lines : list string) : M unit :=
  match lines with
  | [] => ret tt
  | l :: rest => log l ;; log_each rest
  end.

(** Lines 75-126. *)
Definition tryDirectVerification : M unit :=
  log "Attempting direct tourist verification..." ;;
  a <- invoke (Api GET ("/api/tourist/info/" ++ uniqueId) None []) ;;
  match a with
  | ConnError e => log ("Connection error: " ++ e)
  | Response _ text =>
      try_catch
        (result <- parse text ;;
         success <- prop result "success" ;;
         if truthy success
         then info <- prop result "data" ;;
              _ <- prop info "name" ;;
              log "Tourist found:" ;;
              isVerified <- prop info "isVerified" ;;
              log (if truthy isVerified
                   then "Current status: Verified"
                   else "Current status: Pending") ;;
              if negb (truthy isVerified)
              then log_each advice
              else log "Tourist is already verified!" ;;
                   log "QR and PVC features should be available"
         else log "Tourist not found")
        (fun e => log ("Error checking tourist: " ++ e))
  end.
End Script.
End QuickVerify.

(** The four stages of comprehensive-health-check.js that go through the
    probes of the table, each with its heading and its probes in order. *)
Definition api_stages {E : Env}
  : list (M Results * string * list Probes.Probe) :=
  [ (HealthCheck.testInfrastructure, "INFRASTRUCTURE TESTS",
     [Probes.Docker; Probes.Backend; Probes.Blockchain; Probes.Frontend]);
    (HealthCheck.testCoreFeatures, "CORE FEATURE TESTS",
     [Probes.Registration; Probes.InfoRetrieval; Probes.DocumentUpload;
      Probes.DocumentRetrieval]);
    (HealthCheck.testAuthorityFeatures, "AUTHORITY FEATURE TESTS",
     [Probes.AuthorityLogin; Probes.PendingList; Probes.Verification]);
    (HealthCheck.testAdvancedFeatures, "ADVANCED FEATURE TESTS",
     [Probes.QrCode; Probes.PvcCard]) ].

(** ** Vocabulary of the further statements *)

(** What [makeRequest] of comprehensive-health-check.js and of
    test-all-features.js puts in [data]: the decoded body, or its text. *)
Definition decoded {E : Env} (body : string) : JsVal :=
  match JSON_parse body with
  | Some v => v
  | None => JStr body
  end.

(** The data of an answer that passes
    [response.status === 200 && response.data.success]. *)
Definition accepted {E : Env} (a : Answer) : option JsVal :=
  match a with
  | Response st body =>
      if ((st =? 200) && truthy (field "success" (decoded body)))%bool
      then Some (decoded body)
      else None
  | ConnError _ => None
  end.

Definition is_some {A} (o : option A) : bool :=
  match o with Some _ => true | None => false end.

(** Neither [null] nor [undefined]: a value whose properties can be read. *)
Definition present (v : JsVal) : bool :=
  match v with
  | JUndefined | JNull => false
  | _ => true
  end.

(** The response field a writing probe stores in a key. *)
Definition carried (k : Key) : string :=
  match k with
  | TestUniqueId => "uniqueId"
  | AuthToken => "token"
  end.

(** [m] only appends to the trace of calls. *)
Definition appends {A} (m : M A) : Prop :=
  forall s, exists more, calls (final_state (m s)) = (calls s ++ more)%list.

Definition is_post (c : Call) : bool :=
  match c with
  | Api POST _ _ _ => true
  | _ => false
  end.

Definition operational_line : string :=
  "All systems operational! Ready for production use.".

Definition all_passed_line : string := "ALL TESTS PASSED!".

(** The nine lines printed for a run of test-all-features.js in which
    nothing passed. *)
Definition nothing_passed : list string :=
  ["FINAL TEST RESULTS";
   "1. Registration: FAIL";
   "2. Login/Info Retrieval: FAIL";
   "3. Document Upload: FAIL";
   "4. Document Retrieval: FAIL";
   "5. Authority Login: FAIL";
   "6. Tourist Verification: FAIL";
   "7. QR Code Generation: FAIL";
   "8. PVC Card Generation: FAIL";
   "9. Frontend Access: FAIL";
   "SCORE: 0/9 tests passed";
   "Some tests failed. Please check the errors above."].

(** Whether the upload probe of test-all-features.js reaches the
    statement that removes its temporary file: a response arrived and its
    body decoded to something whose [success] can be read. *)
Definition cleanup_reached {E : Env} (a : Answer) : bool :=
  match a with
  | Response _ body =>
      match JSON_parse body with
      | Some v => present v
      | None => false
      end
  | ConnError _ => false
  end.

(** The answer on which the quick verification script prints its advice:
    the tourist was found and is not verified. *)
Definition found_unverified {E : Env} (a : Answer) : bool :=
  match a with
  | Response _ text =>
      match JSON_parse text with
      | Some v =>
          truthy (field "success" v)
          && present (field "data" v)
          && negb (truthy (field "isVerified" (field "data" v)))
      | None => false
      end
  | ConnError _ => false
  end.

Definition info_request : Call :=
  Api GET ("/api/tourist/info/" ++ QuickVerify.uniqueId) None [].

Definition advice_line : string :=
  "Tourist needs verification for QR/PVC features".

(** What makes test-complete-flow.js print its success line, read from
    the answers alone. *)
Definition flow_page : string := "/tourist-auth.html".

Definition flow_passes {E : Env} (s : State) : bool :=
  match accepted (answer (calls s) flow_register) with
  | None => false
  | Some v1 =>
      let info :=
        Api GET ("/api/tourist/info/" ++ to_string (field "uniqueId" v1))
          None [] in
      match accepted (answer (calls s ++ [flow_register]) info) with
      | None => false
      | Some v2 =>
          present (field "data" v2)
          && match answer (calls s ++ [flow_register; info])
                     (Https flow_page) with
             | Response _ html => CompleteFlow.page_ok html
             | ConnError _ =>
                 match answer (calls s ++ [flow_register; info;
                                           Https flow_page])
                         (Http flow_page) with
                 | Response _ html => CompleteFlow.page_ok html
                 | ConnError _ => false
                 end
             end
      end
  end.

(** A service that answers every call with status 200 and the body
    [null]. *)
Definition null_bodies : Env :=
  {| JSON_parse := fun text =>
       if String.eqb text "null" then Some JNull else None;
     coerced_gt_zero := fun _ => false;
     answer := fun _ _ => Response 200 "null" |}.

(** The first three requests of the infrastructure stage of
    comprehensive-health-check.js. *)
Definition infrastructure_requests : list Call :=
  [Exec "docker-compose ps";
   Api GET "/api/health" None [];
   Api POST "/api/tourist/register"
     (Some (JObj [("name", JStr "Health Check Tourist");
                  ("nationality", JStr "Test")])) []].

(** * Properties *)

(** ** Running a probe symbolically *)

Ltac unfold_js :=
  unfold HealthCheck.makeRequest, HealthCheck.makeHTTPSRequest,
    AllFeatures.makeRequest, CompleteFlow.makeRequest,
    ok_and_success, parse, prop, invoke, log,
    get_testUniqueId, get_authToken, set_testUniqueId, set_authToken,
    try_catch, try_or, message_of, bind, ret, throw, never in *.

(** Splits on the next thing the script looks at: an answer, the outcome
    of [JSON.parse], a test, a value whose property is read. *)
Ltac split_next :=
  match goal with
  | |- context [match answer ?t ?c with _ => _ end] =>
      destruct (answer t c) eqn:?
  | |- context [match JSON_parse ?b with _ => _ end] =>
      destruct (JSON_parse b) eqn:?
  | |- context [if ?b then _ else _] => destruct b eqn:?
  | |- context [match ?v with JUndefined => _ | _ => _ end] =>
      destruct v eqn:?
  end.

Ltac run_js := unfold_js; cbn; repeat (split_next; cbn).

Ltac unfold_probes :=
  unfold HealthCheck.docker, HealthCheck.backend, HealthCheck.blockchain,
    HealthCheck.frontend, HealthCheck.registration,
    HealthCheck.infoRetrieval, HealthCheck.documentUpload,
    HealthCheck.documentRetrieval, HealthCheck.authorityLogin,
    HealthCheck.pendingList, HealthCheck.verification,
    HealthCheck.qrCode, HealthCheck.pvcCard in *.

Lemma bind_returned {A B} (m : M A) (k : A -> M B) (s s' : State) (a : A) :
  m s = Returned a s' -> bind m k s = k a s'.
Proof. intros Hm. unfold bind. now rewrite Hm. Qed.

Lemma logged_logged lines more s :
  logged more (logged lines s) = logged (lines ++ more)%list s.
Proof. unfold logged; cbn. now rewrite app_assoc. Qed.

Lemma console_two (s : State) (a b : string) :
  ((console s ++ [a]) ++ [b] = console s ++ [a; b])%list.
Proof. now rewrite <- app_assoc. Qed.

(** ** The backend-health probe *)

Lemma docker_returns {E : Env} (s : State) :
  exists b lines,
    HealthCheck.docker s
    = Returned b (logged lines (called [Exec "docker-compose ps"] s)).
Proof.
  unfold HealthCheck.docker. run_js;
    eexists; eexists; unfold logged, called; cbn;
    rewrite ?console_two; reflexivity.
Qed.

(** ** Every probe settles, except an upload whose connection fails *)

Lemma probe_never_throws {E : Env} (p : Probes.Probe) (s : State) :
  forall e s', Probes.run p s <> Thrown e s'.
Proof.
  intros e s'.
  destruct p; cbn [Probes.run];
    unfold_probes;
    run_js; discriminate.
Qed.

Lemma probe_returns {E : Env} (p : Probes.Probe) (s : State) :
  p <> Probes.DocumentUpload ->
  exists b s', Probes.run p s = Returned b s'.
Proof.
  intros Hp.
  destruct p; try congruence; cbn [Probes.run];
    unfold_probes;
    run_js; eauto.
Qed.

Lemma backend_outcome {E : Env} (s : State) :
  exists s',
    HealthCheck.backend s
    = Returned (responded (answer (calls s) (Api GET "/api/health" None [])))
               s'.
Proof. unfold HealthCheck.backend. run_js; eauto. Qed.

(** C10: the backend-health probe records [true] for any response it
    receives, whatever the status code, and [false] only when the transport
    fails; the infrastructure stage records that value under [backend]. *)
Theorem backend_healthy_on_any_response {E : Env} (s : State) :
  (exists s',
     HealthCheck.backend s
     = Returned (responded (answer (calls s) (Api GET "/api/health" None [])))
                s')
  /\ (exists results s',
        HealthCheck.testInfrastructure s = Returned results s'
        /\ lookup "backend" results
           = Some (responded
                     (answer (calls s ++ [Exec "docker-compose ps"])
                             (Api GET "/api/health" None [])))).
Proof.
  split; [apply backend_outcome |].
  unfold HealthCheck.testInfrastructure.
  rewrite (bind_returned _ _ s (logged ["INFRASTRUCTURE TESTS"] s) tt)
    by reflexivity.
  destruct (docker_returns (logged ["INFRASTRUCTURE TESTS"] s))
    as (b1 & lines & H1).
  rewrite (bind_returned _ _ _ _ _ H1).
  destruct (backend_outcome
              (logged lines
                 (called [Exec "docker-compose ps"]
                    (logged ["INFRASTRUCTURE TESTS"] s)))) as (s2 & H2).
  rewrite (bind_returned _ _ _ _ _ H2).
  destruct (probe_returns Probes.Blockchain s2) as (b3 & s3 & H3);
    [discriminate |].
  cbn [Probes.run] in H3. rewrite (bind_returned _ _ _ _ _ H3).
  destruct (probe_returns Probes.Frontend s3) as (b4 & s4 & H4);
    [discriminate |].
  cbn [Probes.run] in H4. rewrite (bind_returned _ _ _ _ _ H4).
  eexists; eexists; split; [reflexivity | reflexivity].
Qed.

(** ** Probes whose guard fails *)

Lemma skip_run {E : Env} (p : Probes.Probe) (s : State) :
  hasAll (Probes.dependencies p) s = false ->
  Probes.run p s
  = Returned false (logged [Probes.header p; Probes.skip_line p] s).
Proof.
  intros Hdeps.
  destruct p; cbn in Hdeps; try discriminate;
    rewrite ?andb_true_r in Hdeps;
    cbn [Probes.run Probes.header Probes.skip_line];
    unfold_probes; unfold_js; cbn; rewrite Hdeps;
    unfold logged; cbn; now rewrite console_two.
Qed.

(** C8: a probe of comprehensive-health-check.js whose guard fails
    returns at once with the skip record; it invokes no collaborator, it
    leaves the files and both variables as they were, and all it does is
    print its heading and its skip line. *)
Theorem skipped_probe_makes_no_call {E : Env} (p : Probes.Probe) (s : State) :
  hasAll (Probes.dependencies p) s = false ->
  exists s',
    Probes.run p s = Returned false s'
    /\ calls s' = calls s
    /\ files s' = files s
    /\ testUniqueId s' = testUniqueId s
    /\ authToken s' = authToken s
    /\ console s' = (console s ++ [Probes.header p; Probes.skip_line p])%list.
Proof.
  intros Hdeps. rewrite (skip_run p s Hdeps).
  eexists; split; [reflexivity |]. cbn. repeat split.
Qed.

Lemma skipped_probe_makes_no_call_witness :
  hasAll (Probes.dependencies Probes.Verification) Services.registered = false
  /\ exists s',
       Probes.run (E := Services.healthy) Probes.Verification
         Services.registered = Returned false s'
       /\ calls s' = calls Services.registered
       /\ files s' = files Services.registered
       /\ testUniqueId s' = testUniqueId Services.registered
       /\ authToken s' = authToken Services.registered
       /\ console s'
          = (console Services.registered
             ++ [Probes.header Probes.Verification;
                 Probes.skip_line Probes.Verification])%list.
Proof.
  split; [reflexivity |].
  apply (skipped_probe_makes_no_call (E := Services.healthy)
           Probes.Verification Services.registered).
  reflexivity.
Defined.

(** ** The counters of the report *)

Lemma count_stage (results : Results) (acc : Z * Z) :
  fold_left
    (fun (counters : Z * Z) (entry : string * bool) =>
       (fst counters + 1,
        if snd entry then snd counters + 1 else snd counters))
    results acc
  = (fst acc + Z.of_nat (List.length results),
     snd acc + Z.of_nat (List.length (passing results))).
Proof.
  revert acc. induction results as [| [k b] rest IH]; intros [t p].
  - cbn. f_equal; lia.
  - cbn [fold_left]. rewrite IH. unfold passing.
    destruct b; cbn [fst snd filter List.length]; f_equal; lia.
Qed.

Lemma count_tests_entries (all : list (string * Results)) :
  HealthCheck.count_tests all
  = (Z.of_nat (List.length (entries all)),
     Z.of_nat (List.length (passing (entries all)))).
Proof.
  unfold HealthCheck.count_tests.
  assert (Hgen : forall acc,
    fold_left
      (fun (acc : Z * Z) (category : string * Results) =>
         fold_left
           (fun (counters : Z * Z) (entry : string * bool) =>
              (fst counters + 1,
               if snd entry then snd counters + 1 else snd counters))
           (snd category) acc)
      all acc
    = (fst acc + Z.of_nat (List.length (entries all)),
       snd acc + Z.of_nat (List.length (passing (entries all))))).
  { induction all as [| [name results] rest IH]; intros [t p].
    - cbn. f_equal; lia.
    - cbn [fold_left snd]. rewrite count_stage, IH.
      unfold entries, passing. cbn [flat_map snd fst].
      rewrite filter_app, !length_app. f_equal; lia. }
  rewrite Hgen. reflexivity.
Qed.

(** ** Skipped outcomes in the reports *)

(** C1 as stated fails.  Against a service that is down, the core stage
    makes one call: the registration probe runs and fails, the three
    probes behind it are skipped, and the stage report holds the same
    [false] for all four.  And against a service whose registration answer
    carries no id the info-retrieval probe is skipped, against a service
    that issues an id and then answers 500 it runs and fails, and the two
    stage reports are the same list. *)
Lemma skipped_and_failed_reports_coincide :
  let skipped :=
    HealthCheck.testCoreFeatures (E := Services.registration_without_id)
      initial in
  let failed :=
    HealthCheck.testCoreFeatures (E := Services.failing_after_registration)
      initial in
  (exists s',
     HealthCheck.testCoreFeatures (E := Services.down) initial
     = Returned [("registration", false); ("infoRetrieval", false);
                 ("documentUpload", false); ("documentRetrieval", false)] s'
     /\ calls s' = [Probes.request Probes.Registration initial])
  /\ existsb Services.is_info (calls (final_state skipped)) = false
  /\ existsb Services.is_info (calls (final_state failed)) = true
  /\ exists report s1 s2,
       skipped = Returned report s1
       /\ failed = Returned report s2
       /\ lookup "infoRetrieval" report = Some false.
Proof.
  cbv zeta.
  split; [eexists; split; vm_compute; reflexivity |].
  split; [vm_compute; reflexivity |].
  split; [vm_compute; reflexivity |].
  eexists; eexists; eexists.
  split; [vm_compute; reflexivity |].
  split; [vm_compute; reflexivity | reflexivity].
Qed.

(** ** What each probe of test-all-features.js asks for *)

Lemma log_documents_settles (items : list JsVal) (s : State) :
  (exists lines,
     AllFeatures.log_documents items s = Returned tt (logged lines s))
  \/ (exists (e : string) lines,
        AllFeatures.log_documents items s = Thrown e (logged lines s)).
Proof.
  revert s. induction items as [| doc rest IH]; intros s.
  - left. exists []. unfold logged; cbn. now rewrite app_nil_r; destruct s.
  - cbn [AllFeatures.log_documents]. unfold_js.
    destruct doc; cbn;
      try (right; eexists; exists ["Document:"]; reflexivity);
      match goal with
      | |- context [AllFeatures.log_documents rest ?st] =>
          destruct (IH st) as [(lines & ->) | (e & lines & ->)];
          [left | right; exists e];
          eexists; unfold logged; cbn; rewrite <- ?app_assoc; reflexivity
      end.
Qed.

Lemma new_calls_app {A} (c : Completion A) (s : State) (cs : list Call) :
  calls (final_state c) = (calls s ++ cs)%list -> new_calls c s = cs.
Proof.
  intros Hc. unfold new_calls. rewrite Hc.
  rewrite skipn_app, skipn_all, Nat.sub_diag. reflexivity.
Qed.

Section AllFeaturesCalls.
Context {E : Env}.

Lemma all_registration_call (s : State) :
  exists b s',
    AllFeatures.testRegistration s = Returned b s'
    /\ calls s'
       = (calls s ++ [Api POST "/api/tourist/register"
                        (Some AllFeatures.testData) []])%list.
Proof.
  unfold AllFeatures.testRegistration. run_js;
    eexists; eexists; split; reflexivity.
Qed.

Lemma all_login_call (s : State) :
  exists b s',
    AllFeatures.testLogin s = Returned b s'
    /\ testUniqueId s' = testUniqueId s
    /\ calls s'
       = (calls s ++ [Api GET ("/api/tourist/info/"
                               ++ to_string (testUniqueId s)) None []])%list.
Proof.
  unfold AllFeatures.testLogin. run_js;
    eexists; eexists; repeat split; reflexivity.
Qed.

Lemma all_upload_call (s : State) :
  exists v s',
    AllFeatures.testDocumentUpload s = Returned v s'
    /\ testUniqueId s' = testUniqueId s
    /\ calls s'
       = (calls s ++ [Submit AllFeatures.upload_url
                        [("uniqueId", testUniqueId s);
                         ("documentType", JStr "passport");
                         ("document", JStr AllFeatures.testFilePath)]])%list.
Proof.
  unfold AllFeatures.testDocumentUpload, writeFileSync, unlinkSync.
  run_js; eexists; eexists; repeat split; reflexivity.
Qed.

Lemma all_retrieval_call (s : State) :
  exists b s',
    AllFeatures.testDocumentRetrieval s = Returned b s'
    /\ testUniqueId s' = testUniqueId s
    /\ calls s'
       = (calls s ++ [Api GET ("/api/tourist/documents/"
                               ++ to_string (testUniqueId s)) None []])%list.
Proof.
  unfold AllFeatures.testDocumentRetrieval, AllFeatures.forEach_document.
  run_js;
    try match goal with
        | |- context [AllFeatures.log_documents ?l ?st] =>
            destruct (log_documents_settles l st)
              as [(lines & ->) | (e & lines & ->)]
        end;
    eexists; eexists; repeat split; reflexivity.
Qed.

Lemma all_authority_login_call (s : State) :
  exists b s',
    AllFeatures.testAuthorityLogin s = Returned b s'
    /\ testUniqueId s' = testUniqueId s
    /\ calls s'
       = (calls s ++ [Api POST "/api/authority/login"
                        (Some AllFeatures.loginData) []])%list.
Proof.
  unfold AllFeatures.testAuthorityLogin. run_js;
    eexists; eexists; repeat split; reflexivity.
Qed.

Lemma all_frontend_call (s : State) :
  exists b s',
    AllFeatures.testFrontendAccess s = Returned b s'
    /\ calls s' = (calls s ++ [Https "/dashboard-simple.html"])%list.
Proof.
  unfold AllFeatures.testFrontendAccess. run_js;
    eexists; eexists; repeat split; reflexivity.
Qed.
End AllFeaturesCalls.

(** ** Which probes run *)

Lemma probe_runs {E : Env} (p : Probes.Probe) (s : State) :
  hasAll (Probes.dependencies p) s = true ->
  exists rest, new_calls (Probes.run p s) s = Probes.request p s :: rest.
Proof.
  intros Hdeps.
  assert (Hcalls : exists rest,
             calls (final_state (Probes.run p s))
             = (calls s ++ Probes.request p s :: rest)%list).
  { destruct p; cbn in Hdeps; rewrite ?andb_true_r in Hdeps;
      cbn [Probes.run Probes.request];
      unfold_probes; unfold_js; cbn;
      try (rewrite Hdeps; cbn);
      repeat (split_next; cbn);
      eexists; rewrite <- ?app_assoc; reflexivity. }
  destruct Hcalls as (rest & Hcalls). exists rest.
  now apply new_calls_app.
Qed.

Lemma infrastructure_returns {E : Env} (s : State) :
  exists b1 b2 b3 b4 s',
    HealthCheck.testInfrastructure s
    = Returned [("docker", b1); ("backend", b2);
                ("blockchain", b3); ("frontend", b4)] s'.
Proof.
  unfold HealthCheck.testInfrastructure.
  rewrite (bind_returned _ _ s (logged ["INFRASTRUCTURE TESTS"] s) tt)
    by reflexivity.
  destruct (probe_returns Probes.Docker (logged ["INFRASTRUCTURE TESTS"] s))
    as (b1 & s1 & H1); [discriminate |].
  destruct (probe_returns Probes.Backend s1) as (b2 & s2 & H2);
    [discriminate |].
  destruct (probe_returns Probes.Blockchain s2) as (b3 & s3 & H3);
    [discriminate |].
  destruct (probe_returns Probes.Frontend s3) as (b4 & s4 & H4);
    [discriminate |].
  cbn [Probes.run] in *.
  rewrite (bind_returned _ _ _ _ _ H1), (bind_returned _ _ _ _ _ H2),
    (bind_returned _ _ _ _ _ H3), (bind_returned _ _ _ _ _ H4).
  now exists b1, b2, b3, b4, s4.
Qed.

Lemma authority_returns {E : Env} (s : State) :
  exists b1 b2 b3 s',
    HealthCheck.testAuthorityFeatures s
    = Returned [("authorityLogin", b1); ("pendingList", b2);
                ("verification", b3)] s'.
Proof.
  unfold HealthCheck.testAuthorityFeatures.
  rewrite (bind_returned _ _ s (logged ["AUTHORITY FEATURE TESTS"] s) tt)
    by reflexivity.
  destruct (probe_returns Probes.AuthorityLogin
              (logged ["AUTHORITY FEATURE TESTS"] s))
    as (b1 & s1 & H1); [discriminate |].
  destruct (probe_returns Probes.PendingList s1) as (b2 & s2 & H2);
    [discriminate |].
  destruct (probe_returns Probes.Verification s2) as (b3 & s3 & H3);
    [discriminate |].
  cbn [Probes.run] in *.
  rewrite (bind_returned _ _ _ _ _ H1), (bind_returned _ _ _ _ _ H2),
    (bind_returned _ _ _ _ _ H3).
  now exists b1, b2, b3, s3.
Qed.

Lemma advanced_returns {E : Env} (s : State) :
  exists b1 b2 s',
    HealthCheck.testAdvancedFeatures s
    = Returned [("qrCode", b1); ("pvcCard", b2)] s'.
Proof.
  unfold HealthCheck.testAdvancedFeatures.
  rewrite (bind_returned _ _ s (logged ["ADVANCED FEATURE TESTS"] s) tt)
    by reflexivity.
  destruct (probe_returns Probes.QrCode (logged ["ADVANCED FEATURE TESTS"] s))
    as (b1 & s1 & H1); [discriminate |].
  destruct (probe_returns Probes.PvcCard s1) as (b2 & s2 & H2);
    [discriminate |].
  cbn [Probes.run] in *.
  rewrite (bind_returned _ _ _ _ _ H1), (bind_returned _ _ _ _ _ H2).
  now exists b1, b2, s2.
Qed.

Lemma page_probe_returns {E : Env} (i : nat) (page : HealthCheck.Page)
    (s : State) :
  exists b s', HealthCheck.page_probe i page s = Returned b s'.
Proof. unfold HealthCheck.page_probe. run_js; eauto. Qed.

Lemma frontend_pages_returns {E : Env} (s : State) :
  exists b1 b2 b3 b4 b5 b6 s',
    HealthCheck.testFrontendPages s
    = Returned [("homepage", b1); ("portal", b2); ("touristauth", b3);
                ("dashboard", b4); ("authoritylogin", b5);
                ("authoritypanel", b6)] s'.
Proof.
  unfold HealthCheck.testFrontendPages, HealthCheck.pages.
  rewrite (bind_returned _ _ s (logged ["FRONTEND PAGE TESTS"] s) tt)
    by reflexivity.
  cbn [HealthCheck.pages_loop].
  repeat match goal with
         | |- context [bind (HealthCheck.page_probe ?i ?page) _ ?st] =>
             let b := fresh "b" in
             let s' := fresh "s" in
             let Hp := fresh "Hp" in
             destruct (page_probe_returns i page st) as (b & s' & Hp);
             rewrite (bind_returned _ _ _ _ _ Hp);
             cbn [HealthCheck.pages_loop]
         end.
  repeat eexists.
Qed.

Lemma bind_returned_inv {A B} (m : M A) (k : A -> M B) (s s' : State) (b : B) :
  bind m k s = Returned b s' ->
  exists a s1, m s = Returned a s1 /\ k a s1 = Returned b s'.
Proof.
  unfold bind. destruct (m s) as [a s1 | e s1 | s1]; try discriminate.
  intros Hk. now exists a, s1.
Qed.

Lemma all_stops_after_failed_registration {E : Env} (s s1 : State) :
  AllFeatures.testRegistration s = Returned false s1 ->
  AllFeatures.run_tests s = Returned AllFeatures.initial_results s1.
Proof.
  intros Hreg. unfold AllFeatures.run_tests.
  now rewrite (bind_returned _ _ _ _ _ Hreg).
Qed.

Lemma all_login_gate {E : Env} (s s' : State) (results : list (string * JsVal)) :
  AllFeatures.run_tests s = Returned results s' ->
  AllFeatures.result_of results "authorityLogin" = JBool false ->
  existsb behind_login (new_calls (AllFeatures.run_tests s) s) = false.
Proof.
  intros Hrun Hlogin.
  assert (Hcalls : exists cs,
             calls s' = (calls s ++ cs)%list /\ existsb behind_login cs = false).
  { unfold AllFeatures.run_tests in Hrun.
    destruct (all_registration_call s) as (b1 & s1 & H1 & C1).
    rewrite (bind_returned _ _ _ _ _ H1) in Hrun.
    destruct b1.
    - destruct (all_login_call s1) as (b2 & s2 & H2 & I2 & C2).
      rewrite (bind_returned _ _ _ _ _ H2) in Hrun.
      destruct (all_upload_call s2) as (v3 & s3 & H3 & I3 & C3).
      rewrite (bind_returned _ _ _ _ _ H3) in Hrun.
      destruct (all_retrieval_call s3) as (b4 & s4 & H4 & I4 & C4).
      rewrite (bind_returned _ _ _ _ _ H4) in Hrun.
      destruct (all_authority_login_call s4) as (b5 & s5 & H5 & I5 & C5).
      rewrite (bind_returned _ _ _ _ _ H5) in Hrun.
      destruct b5.
      + exfalso.
        apply bind_returned_inv in Hrun.
        destruct Hrun as (r & s6 & Hgated & Hrun).
        apply bind_returned_inv in Hgated.
        destruct Hgated as (b6 & s7 & _ & Hgated).
        apply bind_returned_inv in Hgated.
        destruct Hgated as (b7 & s8 & _ & Hgated).
        apply bind_returned_inv in Hgated.
        destruct Hgated as (b8 & s9 & _ & Hgated).
        apply bind_returned_inv in Hrun.
        destruct Hrun as (b9 & s10 & _ & Hrun).
        unfold ret in Hgated, Hrun.
        injection Hgated as <- _. injection Hrun as <- _.
        cbn in Hlogin. discriminate.
      + destruct (all_frontend_call s5) as (b9 & s9 & H9 & C9).
        rewrite (bind_returned _ _ s5 s5 _ eq_refl) in Hrun.
        rewrite (bind_returned _ _ _ _ _ H9) in Hrun.
        unfold ret in Hrun. injection Hrun as _ <-.
        rewrite C9, C5, C4, C3, C2, C1, <- !app_assoc.
        eexists; split; [reflexivity |]. reflexivity.
    - unfold ret in Hrun. injection Hrun as _ <-.
      rewrite C1. eexists; split; [reflexivity |]. reflexivity. }
  destruct Hcalls as (cs & Hcs & Hnone).
  rewrite (new_calls_app _ s cs); [exact Hnone |].
  now rewrite Hrun.
Qed.

Lemma flow_registration_call {E : Env} (s : State) :
  exists b s',
    CompleteFlow.testRegistration s = Returned b s'
    /\ calls s'
       = (calls s ++ [Api POST "/api/tourist/register"
                        (Some CompleteFlow.testData) []])%list.
Proof.
  unfold CompleteFlow.testRegistration. run_js;
    eexists; eexists; split; reflexivity.
Qed.

Lemma flow_stops_after_failed_registration {E : Env} (s s1 : State) :
  CompleteFlow.testRegistration (logged ["Starting complete flow test..."] s)
  = Returned false s1 ->
  CompleteFlow.runCompleteTest s
  = Returned tt (logged ["Registration test failed. Stopping tests."] s1)
  /\ new_calls (CompleteFlow.runCompleteTest s) s
     = [Api POST "/api/tourist/register" (Some CompleteFlow.testData) []].
Proof.
  intros Hreg.
  assert (Hrun : CompleteFlow.runCompleteTest s
                 = Returned tt
                     (logged ["Registration test failed. Stopping tests."] s1)).
  { unfold CompleteFlow.runCompleteTest, try_catch.
    rewrite (bind_returned _ _ s
               (logged ["Starting complete flow test..."] s) tt)
      by reflexivity.
    now rewrite (bind_returned _ _ _ _ _ Hreg). }
  split; [exact Hrun |].
  apply new_calls_app. rewrite Hrun.
  destruct (flow_registration_call
              (logged ["Starting complete flow test..."] s))
    as (b & s2 & H2 & C2).
  rewrite Hreg in H2. injection H2 as _ <-. exact C2.
Qed.

(** C2 as stated fails.  Against a service that refuses only the
    authority login, test-all-features.js ends with the issued id in
    [testUniqueId] and has made no QR and no card request;
    comprehensive-health-check.js makes both against the same service.
    Against a service that is down, test-complete-flow.js never fetches
    the page, a probe that depends on nothing. *)
Lemma card_probes_gated_by_login :
  let gated :=
    final_state (AllFeatures.runCompleteSystemTest
                   (E := Services.login_refused) initial) in
  let guarded :=
    final_state (HealthCheck.runComprehensiveHealthCheck
                   (E := Services.login_refused) initial) in
  let stopped :=
    final_state (CompleteFlow.runCompleteTest (E := Services.down) initial) in
  testUniqueId gated = JStr "T1"
  /\ existsb Services.is_qrcode (calls gated) = false
  /\ existsb Services.is_pvc_card (calls gated) = false
  /\ existsb Services.is_qrcode (calls guarded) = true
  /\ existsb Services.is_pvc_card (calls guarded) = true
  /\ existsb is_page_fetch (calls stopped) = false.
Proof. cbv zeta. repeat split; vm_compute; reflexivity. Qed.

(** ** The orchestrator and faults *)

Lemma log_all_logged (lines : list string) (s : State) :
  HealthCheck.log_all lines s = Returned tt (logged lines s).
Proof.
  revert s. induction lines as [| l rest IH]; intros s.
  - cbn. unfold ret, logged. rewrite app_nil_r. now destruct s.
  - cbn [HealthCheck.log_all].
    rewrite (bind_returned _ _ s (logged [l] s) tt) by reflexivity.
    rewrite IH, logged_logged. reflexivity.
Qed.

Lemma generateFinalReport_prints (i c a adv f : Results) (s : State) :
  exists rest,
    HealthCheck.generateFinalReport i c a adv f s
    = Returned tt
        (logged (HealthCheck.render (HealthCheck.finalReport i c a adv f)
                 ++ rest)%list s).
Proof.
  unfold HealthCheck.generateFinalReport. cbv zeta.
  rewrite (bind_returned _ _ _ _ _ (log_all_logged _ s)).
  remember (HealthCheck.render (HealthCheck.finalReport i c a adv f)) as lines.
  remember (HealthCheck.passed (HealthCheck.finalReport i c a adv f)
            =? HealthCheck.total (HealthCheck.finalReport i c a adv f))
    as operational.
  unfold_js. cbn.
  destruct operational; cbn;
    eexists; unfold logged; cbn; rewrite <- !app_assoc; cbn; reflexivity.
Qed.

(** C3, as the code has it.  What [runComprehensiveHealthCheck] does is
    decided by how its five stages end, whatever the stages are.  When one
    of them throws an [Error], the [catch] clause prints one failure line
    with the message and the run ends normally, without any report, not
    even for the stages that had completed; the same holds for any other
    thrown value that has properties, its [message] property being
    printed.  When a stage throws [null] or [undefined], reading
    [error.message] in the [catch] clause throws a TypeError, which leaves
    the orchestrator with nothing printed.  When a stage stays unsettled
    so does the run; and when the five stages return, the report of all
    five is printed. *)
Theorem orchestrator_catches_faults (s1 s2 s3 s4 s5 : M Results) (s : State) :
  match all_stages s1 s2 s3 s4 s5 (logged [start_line] s) with
  | Thrown (Err message) s' =>
      HealthCheck.orchestrate s1 s2 s3 s4 s5 s
      = Returned tt (logged ["Health check failed: " ++ message] s')
  | Thrown (Val v) s' =>
      if present v
      then HealthCheck.orchestrate s1 s2 s3 s4 s5 s
           = Returned tt
               (logged ["Health check failed: "
                        ++ to_string (field "message" v)] s')
      else exists message : string,
             HealthCheck.orchestrate s1 s2 s3 s4 s5 s = Thrown message s'
  | Returned (i, c, a, adv, f) s' =>
      exists rest,
        HealthCheck.orchestrate s1 s2 s3 s4 s5 s
        = Returned tt
            (logged (HealthCheck.render (HealthCheck.finalReport i c a adv f)
                     ++ rest)%list s')
  | Pending s' => HealthCheck.orchestrate s1 s2 s3 s4 s5 s = Pending s'
  end.
Proof.
  assert (Hcases :
    HealthCheck.orchestrate s1 s2 s3 s4 s5 s
    = match all_stages s1 s2 s3 s4 s5 (logged [start_line] s) with
      | Thrown e s' =>
          (message <- message_of e ;;
           log ("Health check failed: " ++ message)) s'
      | Returned (i, c, a, adv, f) s' =>
          HealthCheck.generateFinalReport i c a adv f s'
      | Pending s' => Pending s'
      end).
  { unfold HealthCheck.orchestrate, all_stages, start_line.
    rewrite (bind_returned _ _ s
               (logged ["Starting comprehensive health check..."] s) tt)
      by reflexivity.
    unfold try_catch, bind, ret.
    destruct (s1 _) as [i t1 | e t1 | t1]; try reflexivity.
    destruct (s2 _) as [c t2 | e t2 | t2]; try reflexivity.
    destruct (s3 _) as [a t3 | e t3 | t3]; try reflexivity.
    destruct (s4 _) as [adv t4 | e t4 | t4]; try reflexivity.
    destruct (s5 _) as [f t5 | e t5 | t5]; try reflexivity.
    destruct (generateFinalReport_prints i c a adv f t5) as (rest & Hrep).
    now rewrite Hrep. }
  rewrite Hcases.
  destruct (all_stages s1 s2 s3 s4 s5 (logged [start_line] s))
    as [[[[[i c] a] adv] f] s' | [message | v] s' | s'].
  - destruct (generateFinalReport_prints i c a adv f s') as (rest & Hrep).
    rewrite Hrep. now exists rest.
  - reflexivity.
  - destruct v; cbn; try reflexivity; eexists; reflexivity.
  - reflexivity.
Qed.

(** A stage that throws [null]: the fault that leaves the orchestrator is
    the TypeError of its own [catch] clause, and only the opening line has
    been printed. *)
Example thrown_null_leaves_orchestrator :
  exists s',
    HealthCheck.orchestrate (throw (Val JNull)) (ret []) (ret []) (ret [])
      (ret []) initial
    = Thrown "Cannot read properties of null (reading 'message')" s'
    /\ console s' = ["Starting comprehensive health check..."].
Proof. eexists. split; reflexivity. Qed.

(** C3 as stated fails.  When the second stage raises a fault after the
    infrastructure stage completed, the run ends with the failure line and
    nothing of the report on the console.  And with the stages of the
    script itself, a refused upload connection leaves the run unsettled
    in the core stage, again with no report. *)
Lemma faulted_run_prints_no_report :
  (exists s',
     HealthCheck.orchestrate
       (HealthCheck.testInfrastructure (E := Services.healthy))
       (throw "fault in the core stage")
       (HealthCheck.testAuthorityFeatures (E := Services.healthy))
       (HealthCheck.testAdvancedFeatures (E := Services.healthy))
       (HealthCheck.testFrontendPages (E := Services.healthy))
       initial = Returned tt s'
     /\ last (console s') "" = "Health check failed: fault in the core stage"
     /\ HealthCheck.report_printed s' = false)
  /\ (exists s',
        HealthCheck.runComprehensiveHealthCheck (E := Services.upload_refused)
          initial = Pending s'
        /\ HealthCheck.report_printed s' = false).
Proof.
  split; eexists; (split; [vm_compute; reflexivity |]);
    [split |]; vm_compute; reflexivity.
Qed.

(** ** The temporary file of the document upload *)

Lemma lookup_obj_set_same {A} (k : string) (v : A) (l : list (string * A)) :
  lookup k (obj_set k v l) = Some v.
Proof.
  induction l as [| [k' v'] rest IH]; cbn.
  - now rewrite String.eqb_refl.
  - destruct (String.eqb k k') eqn:Hk; cbn; rewrite ?String.eqb_refl, ?Hk;
      auto.
Qed.

Lemma lookup_remove_file (path : string) (l : list (string * string)) :
  lookup path (remove_file path l) = None.
Proof.
  unfold remove_file.
  induction l as [| [p c] rest IH]; cbn; [reflexivity |].
  destruct (String.eqb path p) eqn:Hp; cbn; rewrite ?Hp; auto.
Qed.

(** Whether the upload of test-all-features.js reaches its cleanup. *)
Lemma temp_file_after_upload {E : Env} (s : State) :
  file_exists AllFeatures.testFilePath
    (final_state (AllFeatures.testDocumentUpload s))
  = match answer (calls s)
            (Submit AllFeatures.upload_url
               [("uniqueId", testUniqueId s);
                ("documentType", JStr "passport");
                ("document", JStr AllFeatures.testFilePath)]) with
    | ConnError _ => true
    | Response _ body =>
        match JSON_parse body with
        | None | Some JNull | Some JUndefined => true
        | Some _ => false
        end
    end.
Proof.
  unfold AllFeatures.testDocumentUpload, writeFileSync, unlinkSync,
    file_exists.
  remember AllFeatures.testFilePath as path.
  unfold_js. cbn.
  destruct (answer _ _) as [err | st body]; cbn.
  - now rewrite lookup_obj_set_same.
  - destruct (JSON_parse body) as [v |]; cbn;
      [| now rewrite lookup_obj_set_same].
    destruct v; cbn; rewrite ?lookup_obj_set_same; try reflexivity;
      repeat match goal with
             | |- context [truthy ?x] => destruct (truthy x) eqn:?; cbn
             end;
      rewrite ?lookup_obj_set_same; cbn;
      now rewrite ?lookup_remove_file.
Qed.

(** C4 at its failing inputs: when the upload connection is refused, and
    when the answer is not JSON, the probe of test-all-features.js resolves
    with [false] and test-passport.txt is still there; only an answer that
    decodes reaches the cleanup. *)
Theorem upload_failure_leaves_temp_file :
  (exists s',
     AllFeatures.testDocumentUpload (E := Services.upload_refused)
       Services.registered = Returned (JBool false) s'
     /\ file_exists AllFeatures.testFilePath s' = true)
  /\ (exists s',
        AllFeatures.testDocumentUpload (E := Services.upload_bad_gateway)
          Services.registered = Returned (JBool false) s'
        /\ file_exists AllFeatures.testFilePath s' = true)
  /\ (exists s',
        AllFeatures.testDocumentUpload (E := Services.upload_accepted)
          Services.registered = Returned (JBool true) s'
        /\ file_exists AllFeatures.testFilePath s' = false).
Proof.
  repeat split; eexists; (split; [vm_compute; reflexivity |]);
    vm_compute; reflexivity.
Qed.

(** ** The tier of the final report *)

Lemma multiple_gap (q p u w v K : Z) :
  0 < w -> v = q * w -> K = u * w -> p * K < v -> p * K + w <= v.
Proof.
  intros Hw -> -> Hlt.
  assert (Hq : p * u < q) by nia.
  assert (0 <= (q - p * u - 1) * w) by (apply Z.mul_nonneg_nonneg; lia).
  lia.
Qed.

Lemma compare_rounded_08 (t u P v total p q K : Z) :
  0 < t -> 3 <= u -> K = u * (2 * t) ->
  5 * P = (4 * K + 2) * total ->
  v = q * (2 * t) -> P - t <= v <= P + t ->
  P < 2 * t * K -> 0 < total ->
  (v <= p * K <-> 4 * total <= 5 * p).
Proof.
  intros Ht Hu HK HP Hv Hnear Hrange Htotal.
  assert (HK6 : 6 * t <= K).
  { assert (0 <= (u - 3) * t) by (apply Z.mul_nonneg_nonneg; lia). lia. }
  assert (Hbound : 2 * total < 5 * t).
  { destruct (Z.lt_ge_cases (2 * total) (5 * t)) as [|Hge]; [assumption |].
    assert (0 <= (4 * K + 2) * (2 * total - 5 * t))
      by (apply Z.mul_nonneg_nonneg; lia).
    lia. }
  split; intros H.
  - destruct (Z.le_gt_cases (4 * total) (5 * p)) as [|Hlt]; [assumption |].
    assert (0 <= (4 * total - 1 - 5 * p) * K)
      by (apply Z.mul_nonneg_nonneg; lia).
    lia.
  - destruct (Z.le_gt_cases v (p * K)) as [|Hlt]; [assumption |].
    pose proof (multiple_gap q p u (2 * t) v K ltac:(lia) Hv HK Hlt).
    assert (0 <= (5 * p - 4 * total) * K)
      by (apply Z.mul_nonneg_nonneg; lia).
    lia.
Qed.

Lemma compare_rounded_06 (t u P v total p q K : Z) :
  0 < t -> 5 <= u -> K = u * (2 * t) ->
  5 * P = (3 * K - 1) * total ->
  v = q * (2 * t) -> P - t <= v <= P + t ->
  P < 2 * t * K -> 0 < total ->
  (v <= p * K <-> 3 * total <= 5 * p).
Proof.
  intros Ht Hu HK HP Hv Hnear Hrange Htotal.
  assert (HK10 : 10 * t <= K).
  { assert (0 <= (u - 5) * t) by (apply Z.mul_nonneg_nonneg; lia). lia. }
  assert (Hbound : total < 4 * t).
  { destruct (Z.lt_ge_cases total (4 * t)) as [|Hge]; [assumption |].
    assert (0 <= (3 * K - 1) * (total - 4 * t))
      by (apply Z.mul_nonneg_nonneg; lia).
    assert (0 <= t * (K - 2)) by (apply Z.mul_nonneg_nonneg; lia).
    lia. }
  split; intros H.
  - destruct (Z.le_gt_cases (3 * total) (5 * p)) as [|Hlt]; [assumption |].
    assert (0 <= (3 * total - 1 - 5 * p) * K)
      by (apply Z.mul_nonneg_nonneg; lia).
    lia.
  - destruct (Z.le_gt_cases v (p * K)) as [|Hlt]; [assumption |].
    pose proof (multiple_gap q p u (2 * t) v K ltac:(lia) Hv HK Hlt).
    assert (0 <= (5 * p - 3 * total) * K)
      by (apply Z.mul_nonneg_nonneg; lia).
    lia.
Qed.

Lemma round_exact (P : Z) : 0 < P -> P < 2 ^ 53 -> Binary64.round P = P.
Proof.
  intros Hpos Hlt. unfold Binary64.round.
  assert (Z.log2 P < 53) by (apply Z.log2_lt_pow2; lia).
  destruct (Z.leb_spec (Z.log2 P - 52) 0); [reflexivity | lia].
Qed.

Lemma round_near (P : Z) :
  2 ^ 53 <= P ->
  let d := Z.log2 P - 52 in
  0 < d
  /\ P < 2 * 2 ^ (d - 1) * 2 ^ 53
  /\ exists q,
       Binary64.round P = q * (2 * 2 ^ (d - 1))
       /\ P - 2 ^ (d - 1) <= Binary64.round P <= P + 2 ^ (d - 1).
Proof.
  intros Hge d.
  assert (Hpos : 0 < P) by (pose proof (Z.pow_pos_nonneg 2 53); lia).
  assert (Hlog : 53 <= Z.log2 P) by (apply Z.log2_le_pow2; lia).
  assert (Hd : 0 < d) by (unfold d; lia).
  assert (Hpow : 2 ^ d = 2 * 2 ^ (d - 1)).
  { replace d with (Z.succ (d - 1)) at 1 by lia.
    apply Z.pow_succ_r. lia. }
  assert (Hhalf : 0 < 2 ^ (d - 1)) by (apply Z.pow_pos_nonneg; lia).
  split; [exact Hd |]. split.
  - destruct (Z.log2_spec P Hpos) as [_ Hup].
    replace (Z.succ (Z.log2 P)) with (d + 53) in Hup by (unfold d; lia).
    rewrite Z.pow_add_r in Hup by lia. rewrite Hpow in Hup. lia.
  - unfold Binary64.round. fold d.
    destruct (Z.leb_spec d 0); [lia |].
    rewrite Hpow.
    set (w := 2 * 2 ^ (d - 1)) in *.
    pose proof (Z.div_mod P w ltac:(lia)) as Hdm.
    pose proof (Z.mod_pos_bound P w ltac:(lia)) as Hr.
    destruct ((2 ^ (d - 1) <? P mod w)
              || ((P mod w =? 2 ^ (d - 1)) && Z.odd (P / w)))%bool eqn:Hup.
    + exists (P / w + 1). split; [reflexivity |].
      assert (2 ^ (d - 1) <= P mod w).
      { apply orb_prop in Hup. destruct Hup as [Hup | Hup].
        - apply Z.ltb_lt in Hup. lia.
        - apply andb_prop in Hup. destruct Hup as [Hup _].
          apply Z.eqb_eq in Hup. lia. }
      lia.
    + exists (P / w). split; [reflexivity |].
      apply orb_false_elim in Hup. destruct Hup as [Hup _].
      apply Z.ltb_ge in Hup. lia.
Qed.

Lemma drop_bound (n c : Z) :
  0 < n <= 2 ^ 50 -> 2 ^ 52 <= c < 2 ^ 53 -> 2 ^ 53 <= n * c ->
  let d := Z.log2 (n * c) - 52 in
  exists u, 5 <= u /\ 2 ^ 53 = u * (2 * 2 ^ (d - 1)).
Proof.
  intros Hn Hc Hge d.
  assert (Hpos : 0 < n * c) by (pose proof (Z.pow_pos_nonneg 2 53); lia).
  assert (Hlog : 53 <= Z.log2 (n * c)) by (apply Z.log2_le_pow2; lia).
  assert (Hlt : Z.log2 (n * c) < 103).
  { apply Z.log2_lt_pow2; [lia |].
    replace 103 with (50 + 53) by lia. rewrite Z.pow_add_r by lia.
    assert (0 < 2 ^ 50) by (apply Z.pow_pos_nonneg; lia).
    assert (n * c < 2 ^ 50 * 2 ^ 53); [| lia].
    apply Z.le_lt_trans with (n * (2 ^ 53 - 1)).
    - apply Z.mul_le_mono_nonneg_l; lia.
    - assert (0 <= (2 ^ 50 - n) * (2 ^ 53 - 1))
        by (apply Z.mul_nonneg_nonneg; lia).
      lia. }
  assert (Hd : 1 <= d <= 50) by (unfold d; lia).
  exists (2 ^ (53 - d)). split.
  - apply Z.le_trans with (2 ^ 3); [cbn; lia |].
    apply Z.pow_le_mono_r; lia.
  - replace (2 * 2 ^ (d - 1)) with (2 ^ d).
    + rewrite <- Z.pow_add_r by lia. f_equal. lia.
    + replace d with (Z.succ (d - 1)) at 1 by lia.
      apply Z.pow_succ_r. lia.
Qed.

Lemma threshold_08 (n p : Z) :
  0 < n <= 2 ^ 50 ->
  Binary64.int_ge p (Binary64.mul_int n Binary64.c08) = true
  <-> 4 * n <= 5 * p.
Proof.
  intros Hn. unfold Binary64.int_ge, Binary64.mul_int, Binary64.scale.
  rewrite Z.leb_le.
  assert (Hc : 2 ^ 52 <= Binary64.c08 < 2 ^ 53) by (vm_compute; split; congruence).
  assert (H5 : 5 * Binary64.c08 = 4 * 2 ^ 53 + 2) by reflexivity.
  destruct (Z.lt_ge_cases (n * Binary64.c08) (2 ^ 53)) as [Hsmall | Hbig].
  - assert (n = 1) by nia. subst n.
    rewrite round_exact by lia.
    change (2 ^ 53) with 9007199254740992.
    change Binary64.c08 with 7205759403792794. lia.
  - destruct (round_near _ Hbig) as (Hd & Hup & q & Hq & Hnear).
    destruct (drop_bound n Binary64.c08 Hn Hc Hbig) as (u & Hu & HK).
    cbv zeta in *.
    set (t := 2 ^ (Z.log2 (n * Binary64.c08) - 52 - 1)) in *.
    assert (0 < t) by (apply Z.pow_pos_nonneg; lia).
    apply (compare_rounded_08 t u (n * Binary64.c08) _ n p q (2 ^ 53));
      try assumption; try lia.
Qed.

Lemma threshold_06 (n p : Z) :
  0 < n <= 2 ^ 50 ->
  Binary64.int_ge p (Binary64.mul_int n Binary64.c06) = true
  <-> 3 * n <= 5 * p.
Proof.
  intros Hn. unfold Binary64.int_ge, Binary64.mul_int, Binary64.scale.
  rewrite Z.leb_le.
  assert (Hc : 2 ^ 52 <= Binary64.c06 < 2 ^ 53) by (vm_compute; split; congruence).
  assert (H5 : 5 * Binary64.c06 = 3 * 2 ^ 53 - 1) by reflexivity.
  destruct (Z.lt_ge_cases (n * Binary64.c06) (2 ^ 53)) as [Hsmall | Hbig].
  - assert (n = 1) by nia. subst n.
    rewrite round_exact by lia.
    change (2 ^ 53) with 9007199254740992.
    change Binary64.c06 with 5404319552844595. lia.
  - destruct (round_near _ Hbig) as (Hd & Hup & q & Hq & Hnear).
    destruct (drop_bound n Binary64.c06 Hn Hc Hbig) as (u & Hu & HK).
    cbv zeta in *.
    set (t := 2 ^ (Z.log2 (n * Binary64.c06) - 52 - 1)) in *.
    assert (0 < t) by (apply Z.pow_pos_nonneg; lia).
    apply (compare_rounded_06 t u (n * Binary64.c06) _ n p q (2 ^ 53));
      try assumption; try lia.
Qed.



Lemma tier_cases (p n : Z) :
  0 < n <= 2 ^ 50 ->
  (HealthCheck.tier p n = HealthCheck.Excellent <-> 4 * n <= 5 * p)
  /\ (HealthCheck.tier p n = HealthCheck.Good
      <-> 3 * n <= 5 * p /\ 5 * p < 4 * n)
  /\ (HealthCheck.tier p n = HealthCheck.NeedsAttention <-> 5 * p < 3 * n).
Proof.
  intros Hn. unfold HealthCheck.tier.
  pose proof (threshold_08 n p Hn) as H8.
  pose proof (threshold_06 n p Hn) as H6.
  destruct (Binary64.int_ge p (Binary64.mul_int n Binary64.c08)).
  - assert (4 * n <= 5 * p) by now apply H8.
    repeat split; intros; try discriminate; try lia.
  - assert (~ 4 * n <= 5 * p) by (intros Hle; apply H8 in Hle; discriminate).
    destruct (Binary64.int_ge p (Binary64.mul_int n Binary64.c06)).
    + assert (3 * n <= 5 * p) by now apply H6.
      repeat split; intros; try discriminate; try lia.
    + assert (~ 3 * n <= 5 * p)
        by (intros Hle; apply H6 in Hle; discriminate).
      repeat split; intros; try discriminate; try lia.
Qed.

(** The written-out rounding agrees with the kernel's hardware doubles on
    every pair of counters up to 64. *)
Lemma binary64_agrees_with_hardware :
  forallb (fun n =>
    forallb (fun p =>
      Bool.eqb (Binary64.int_ge p (Binary64.mul_int n Binary64.c08))
               (Binary64.hw_int_ge_mul p n 0x1.999999999999ap-1%float)
      && Bool.eqb (Binary64.int_ge p (Binary64.mul_int n Binary64.c06))
                  (Binary64.hw_int_ge_mul p n 0x1.3333333333333p-1%float))
      small_counts) small_counts = true.
Proof. vm_compute. reflexivity. Qed.

(** ** Page fetches and the fallback to the insecure transport *)

Lemma new_lines_app {A} (c : Completion A) (s : State) (lines : list string) :
  console (final_state c) = (console s ++ lines)%list -> new_lines c s = lines.
Proof.
  intros Hc. unfold new_lines. rewrite Hc.
  rewrite skipn_app, skipn_all, Nat.sub_diag. reflexivity.
Qed.

Lemma makeHTTPSRequest_outcome {E : Env} (path : string) (s : State) :
  HealthCheck.makeHTTPSRequest path s
  = match answer (calls s) (Https path) with
    | Response st text =>
        Returned {| page_status := st; page_data := text; protocol := None |}
                 (called [Https path] s)
    | ConnError _ =>
        match answer (calls s ++ [Https path]) (Http path) with
        | Response st text =>
            Returned {| page_status := st; page_data := text;
                        protocol := Some "HTTP" |}
                     (called [Https path; Http path] s)
        | ConnError httpError =>
            Thrown httpError (called [Https path; Http path] s)
        end
    end.
Proof.
  unfold HealthCheck.makeHTTPSRequest, called. unfold_js. cbn.
  destruct (answer (calls s) (Https path)); cbn; [| reflexivity].
  destruct (answer _ (Http path)); cbn; now rewrite <- app_assoc.
Qed.

Lemma page_probe_calls {E : Env} (i : nat) (page : HealthCheck.Page)
    (s : State) :
  new_calls (HealthCheck.page_probe i page s) s
  = fetch_calls (answer (calls s) (Https (HealthCheck.path page)))
                (HealthCheck.path page).
Proof.
  apply new_calls_app.
  unfold HealthCheck.page_probe, fetch_calls. run_js;
    rewrite <- ?app_assoc; reflexivity.
Qed.

Lemma frontend_probe_calls {E : Env} (s : State) :
  new_calls (HealthCheck.frontend s) s
  = fetch_calls (answer (calls s) (Https "/tourist-auth.html"))
                "/tourist-auth.html".
Proof.
  apply new_calls_app.
  unfold HealthCheck.frontend, fetch_calls. run_js;
    rewrite <- ?app_assoc; reflexivity.
Qed.

Lemma flow_frontend_calls {E : Env} (s : State) :
  new_calls (CompleteFlow.testFrontendAccess s) s
  = fetch_calls (answer (calls s) (Https "/tourist-auth.html"))
                "/tourist-auth.html".
Proof.
  apply new_calls_app.
  unfold CompleteFlow.testFrontendAccess, fetch_calls. run_js;
    rewrite <- ?app_assoc; reflexivity.
Qed.

Lemma flow_frontend_lines {E : Env} (s : State) :
  existsb (String.eqb fallback_line)
          (new_lines (CompleteFlow.testFrontendAccess s) s)
  = negb (responded (answer (calls s) (Https "/tourist-auth.html"))).
Proof.
  assert (Hlines : exists lines,
             console (final_state (CompleteFlow.testFrontendAccess s))
             = (console s ++ lines)%list
             /\ existsb (String.eqb fallback_line) lines
                = negb (responded
                          (answer (calls s) (Https "/tourist-auth.html")))).
  { unfold CompleteFlow.testFrontendAccess. run_js;
      rewrite <- ?app_assoc; cbn;
      eexists; (split; [reflexivity | reflexivity]). }
  destruct Hlines as (lines & Hc & Hl).
  now rewrite (new_lines_app _ s lines Hc).
Qed.

(** C6, as the code has it.  [makeHTTPSRequest] asks the secure transport
    first; it asks the insecure transport, once and for the same path,
    exactly when the secure attempt ends in a connection error, whatever
    status or text a secure response carries; a result obtained over the
    fallback carries [protocol: 'HTTP'].  The page probes built on it make
    these calls and no other.  The page probe of test-complete-flow.js
    makes the same calls and notes the fallback on the console only; the
    one of test-all-features.js asks the secure transport and nothing
    else. *)
Theorem page_fetch_fallback {E : Env} (s : State) (path : string) :
  HealthCheck.makeHTTPSRequest path s
  = match answer (calls s) (Https path) with
    | Response st text =>
        Returned {| page_status := st; page_data := text; protocol := None |}
                 (called [Https path] s)
    | ConnError _ =>
        match answer (calls s ++ [Https path]) (Http path) with
        | Response st text =>
            Returned {| page_status := st; page_data := text;
                        protocol := Some "HTTP" |}
                     (called [Https path; Http path] s)
        | ConnError httpError =>
            Thrown httpError (called [Https path; Http path] s)
        end
    end
  /\ (forall i page,
         new_calls (HealthCheck.page_probe i page s) s
         = fetch_calls (answer (calls s) (Https (HealthCheck.path page)))
                       (HealthCheck.path page))
  /\ new_calls (HealthCheck.frontend s) s
     = fetch_calls (answer (calls s) (Https "/tourist-auth.html"))
                   "/tourist-auth.html"
  /\ new_calls (CompleteFlow.testFrontendAccess s) s
     = fetch_calls (answer (calls s) (Https "/tourist-auth.html"))
                   "/tourist-auth.html"
  /\ existsb (String.eqb fallback_line)
             (new_lines (CompleteFlow.testFrontendAccess s) s)
     = negb (responded (answer (calls s) (Https "/tourist-auth.html")))
  /\ new_calls (AllFeatures.testFrontendAccess s) s
     = [Https "/dashboard-simple.html"].
Proof.
  split; [apply makeHTTPSRequest_outcome |].
  split; [intros i page; apply page_probe_calls |].
  split; [apply frontend_probe_calls |].
  split; [apply flow_frontend_calls |].
  split; [apply flow_frontend_lines |].
  destruct (all_frontend_call s) as (b & s' & Hrun & Hcalls).
  apply new_calls_app. now rewrite Hrun.
Qed.

(** C6 as stated fails.  When only the insecure port serves the pages, the
    page probe of test-all-features.js fails without ever asking it.  And
    the page probe of test-complete-flow.js returns the same [true] whether
    the page came over the secure transport or over the fallback: its
    result does not say which. *)
Lemma fallback_missing_or_unrecorded :
  (exists s',
     AllFeatures.testFrontendAccess (E := Services.insecure_pages) initial
     = Returned false s'
     /\ existsb Services.is_insecure (calls s') = false)
  /\ (exists s1 s2,
        CompleteFlow.testFrontendAccess (E := Services.secure_pages) initial
        = Returned true s1
        /\ CompleteFlow.testFrontendAccess (E := Services.insecure_pages)
             initial = Returned true s2
        /\ existsb Services.is_insecure (calls s1) = false
        /\ existsb Services.is_insecure (calls s2) = true).
Proof.
  split.
  - eexists. split; vm_compute; reflexivity.
  - eexists; eexists.
    split; [vm_compute; reflexivity |].
    split; [vm_compute; reflexivity |].
    split; vm_compute; reflexivity.
Qed.

(** ** Responses whose body does not decode *)

Lemma text_response_verdict {E : Env} (body : string) (p : Probes.Probe)
    (c : Probes.Check) (s : State) (st : Z) :
  JSON_parse body = None ->
  Probes.check p = Some c ->
  hasAll (Probes.dependencies p) s = true ->
  answer (calls s) (Probes.request p s) = Response st body ->
  exists s', Probes.run p s = Returned (verdict_on_text c st) s'.
Proof.
  intros Hbody Hcheck Hdeps Hanswer.
  destruct p; cbn in Hcheck; try discriminate;
    injection Hcheck as <-;
    cbn in Hdeps; rewrite ?andb_true_r in Hdeps;
    cbn [Probes.run Probes.request] in *;
    unfold_probes; unfold_js; cbn;
    try (rewrite Hdeps; cbn);
    cbn in Hanswer; rewrite Hanswer; cbn; rewrite Hbody; cbn;
    repeat (split_next; cbn); eauto; discriminate.
Qed.

Lemma flow_registration_on_text {E : Env} (body : string) (s : State) (st : Z) :
  JSON_parse body = None ->
  answer (calls s) flow_register = Response st body ->
  CompleteFlow.testRegistration s
  = Returned false
      (logged ["Step 1: Testing Tourist Registration...";
               "Registration error: Failed to parse response: " ++ body]
         (called [flow_register] s)).
Proof.
  intros Hbody Hanswer.
  unfold CompleteFlow.testRegistration, flow_register in *.
  unfold_js. cbn. rewrite Hanswer. cbn. rewrite Hbody. cbn.
  unfold logged, called. cbn. now rewrite console_two.
Qed.

(** C7, as the code has it.  A body that does not decode never raises a
    fault out of a probe.  [makeRequest] of comprehensive-health-check.js
    resolves with the text as [data] and as [raw]; the probes that test
    [data.success] then record [false], as does the upload probe, the
    probes that test only the status record whether it is 200, and the
    backend probe records [true]; the recorded outcome is a boolean and
    keeps no body.
    [makeRequest] of test-complete-flow.js rejects with a message that
    holds the text, which the probe prints before it returns [false]. *)
Theorem undecodable_body {E : Env} (body : string) :
  JSON_parse body = None ->
  (forall m path d h s st,
      answer (calls s) (Api m path d h) = Response st body ->
      HealthCheck.makeRequest m path d h s
      = Returned {| status := st; data := JStr body; raw := Some body |}
                 (called [Api m path d h] s))
  /\ (forall p c s st,
         Probes.check p = Some c ->
         hasAll (Probes.dependencies p) s = true ->
         answer (calls s) (Probes.request p s) = Response st body ->
         exists s', Probes.run p s = Returned (verdict_on_text c st) s')
  /\ (forall p s e s', Probes.run p s <> Thrown e s')
  /\ (forall m path d s st,
         answer (calls s) (Api m path d []) = Response st body ->
         CompleteFlow.makeRequest m path d s
         = Thrown ("Failed to parse response: " ++ body)
                  (called [Api m path d []] s))
  /\ (forall s st,
         answer (calls s) flow_register = Response st body ->
         CompleteFlow.testRegistration s
         = Returned false
             (logged ["Step 1: Testing Tourist Registration...";
                      "Registration error: Failed to parse response: "
                      ++ body]
                (called [flow_register] s))).
Proof.
  intros Hbody.
  split.
  { intros m path d h s st Hanswer.
    unfold HealthCheck.makeRequest. unfold_js. cbn.
    now rewrite Hanswer, Hbody. }
  split.
  { intros p c s st. now apply text_response_verdict. }
  split.
  { intros p s e s'. apply probe_never_throws. }
  split.
  { intros m path d s st Hanswer.
    unfold CompleteFlow.makeRequest. unfold_js. cbn.
    now rewrite Hanswer, Hbody. }
  intros s st. now apply flow_registration_on_text.
Qed.

Lemma undecodable_body_witness :
  JSON_parse (Env := Services.pdf_card) "%PDF-1.4" = None
  /\ exists s',
       Probes.run (E := Services.pdf_card) Probes.PvcCard Services.registered
       = Returned (verdict_on_text Probes.StatusOnly 200) s'.
Proof.
  split; [reflexivity |].
  apply (proj1 (proj2 (undecodable_body (E := Services.pdf_card) "%PDF-1.4"
                         eq_refl))
           Probes.PvcCard Probes.StatusOnly Services.registered 200);
    reflexivity.
Defined.

(** C7 as stated fails: the card probe records [true] on a PDF body, and
    the backend probe records [true] on a 404 with a plain text. *)
Lemma undecodable_body_recorded_passed :
  JSON_parse (Env := Services.pdf_card) "%PDF-1.4" = None
  /\ JSON_parse (Env := Services.pdf_card) "Not Found" = None
  /\ (exists s',
        HealthCheck.pvcCard (E := Services.pdf_card) Services.registered
        = Returned true s'
        /\ calls s' = [Api GET "/api/tourist/pvc-card/T1" None []])
  /\ (exists s',
        HealthCheck.backend (E := Services.pdf_card) initial
        = Returned true s'
        /\ calls s' = [Api GET "/api/health" None []]).
Proof.
  split; [reflexivity |]. split; [reflexivity |].
  split; eexists; (split; [vm_compute; reflexivity | reflexivity]).
Qed.

(** ** The two variables are never cleared *)

Lemma probe_frame {E : Env} (p : Probes.Probe) (k : Key) (s : State) :
  writes p <> Some k ->
  get k (final_state (Probes.run p s)) = get k s.
Proof.
  intros Hw.
  destruct p, k; cbn in Hw; try congruence; clear Hw;
    cbn [Probes.run get]; unfold_probes; run_js; reflexivity.
Qed.

Lemma writer_keeps {E : Env} (p : Probes.Probe) (k : Key) :
  carries_keys E -> writes p = Some k -> keeps k (Probes.run p).
Proof.
  intros Hcarries Hw s Hk.
  destruct p; cbn in Hw; try discriminate; injection Hw as <-;
    cbn [Probes.run get] in *; unfold_probes; run_js;
    try assumption;
    match goal with
    | Ha : answer ?t (Api ?m ?path ?d ?h) = Response ?st ?body,
      Hp : JSON_parse ?body = Some ?v,
      Hst : (?st =? 200) = true,
      Hok : truthy _ = true |- _ =>
        apply Z.eqb_eq in Hst; subst st;
        destruct (Hcarries t m path d h body v Ha Hp Hok) as [Hid Htoken];
        first [exact (Hid eq_refl) | exact (Htoken eq_refl)]
    end.
Qed.

Lemma probe_keeps {E : Env} (p : Probes.Probe) (k : Key) :
  carries_keys E -> keeps k (Probes.run p).
Proof.
  intros Hcarries.
  destruct (writes p) as [k' |] eqn:Hw.
  - destruct k, k';
      try (now apply writer_keeps);
      intros s Hk; rewrite probe_frame; [assumption | congruence
                                         | assumption | congruence].
  - intros s Hk. rewrite probe_frame; [assumption | congruence].
Qed.

Lemma keeps_bind {A B} (k : Key) (m : M A) (f : A -> M B) :
  keeps k m -> (forall a, keeps k (f a)) -> keeps k (bind m f).
Proof.
  intros Hm Hf s Hk. unfold bind.
  specialize (Hm s Hk).
  destruct (m s) as [a s1 | e s1 | s1]; cbn in *; [| assumption ..].
  now apply Hf.
Qed.

Lemma keeps_try_catch {A} (k : Key) (m : M A) (h : string -> M A) :
  keeps k m -> (forall e, keeps k (h e)) -> keeps k (try_catch m h).
Proof.
  intros Hm Hh s Hk. unfold try_catch.
  specialize (Hm s Hk).
  destruct (m s) as [a s1 | e s1 | s1]; cbn in *; [assumption | | assumption].
  destruct e as [message | v]; [now apply Hh |].
  unfold bind, message_of, prop, throw, ret.
  destruct v; cbn; try assumption; now apply Hh.
Qed.

Lemma keeps_log {k : Key} (line : string) : keeps k (log line).
Proof. intros s Hk. now destruct k. Qed.

Lemma keeps_ret {k : Key} {A} (a : A) : keeps k (ret a).
Proof. intros s Hk. exact Hk. Qed.

Lemma keeps_page_probe {E : Env} (k : Key) (i : nat) (page : HealthCheck.Page) :
  keeps k (HealthCheck.page_probe i page).
Proof.
  intros s Hk.
  assert (Hsame : get k (final_state (HealthCheck.page_probe i page s))
                  = get k s).
  { unfold HealthCheck.page_probe. destruct k; run_js; reflexivity. }
  now rewrite Hsame.
Qed.

Lemma keeps_pages_loop {E : Env} (k : Key) (todo : list HealthCheck.Page) :
  forall i results, keeps k (HealthCheck.pages_loop i todo results).
Proof.
  induction todo as [| page rest IH]; intros i results.
  - apply keeps_ret.
  - cbn [HealthCheck.pages_loop].
    apply keeps_bind; [apply keeps_page_probe |].
    intros b. apply IH.
Qed.

Lemma keeps_generateFinalReport (k : Key) (i c a adv f : Results) :
  keeps k (HealthCheck.generateFinalReport i c a adv f).
Proof.
  intros s Hk.
  destruct (generateFinalReport_prints i c a adv f s) as (rest & ->).
  now destruct k.
Qed.

Lemma keeps_orchestrate (k : Key) (s1 s2 s3 s4 s5 : M Results) :
  keeps k s1 -> keeps k s2 -> keeps k s3 -> keeps k s4 -> keeps k s5 ->
  keeps k (HealthCheck.orchestrate s1 s2 s3 s4 s5).
Proof.
  intros H1 H2 H3 H4 H5. unfold HealthCheck.orchestrate.
  apply keeps_bind; [apply keeps_log | intros _].
  apply keeps_try_catch; [| intros e; apply keeps_log].
  apply keeps_bind; [exact H1 | intros i].
  apply keeps_bind; [exact H2 | intros c].
  apply keeps_bind; [exact H3 | intros a].
  apply keeps_bind; [exact H4 | intros adv].
  apply keeps_bind; [exact H5 | intros f].
  apply keeps_generateFinalReport.
Qed.

Ltac keeps_stage Hcarries :=
  repeat first
    [ match goal with
      | |- keeps ?k HealthCheck.docker =>
          exact (probe_keeps Probes.Docker k Hcarries)
      | |- keeps ?k HealthCheck.backend =>
          exact (probe_keeps Probes.Backend k Hcarries)
      | |- keeps ?k HealthCheck.blockchain =>
          exact (probe_keeps Probes.Blockchain k Hcarries)
      | |- keeps ?k HealthCheck.frontend =>
          exact (probe_keeps Probes.Frontend k Hcarries)
      | |- keeps ?k HealthCheck.registration =>
          exact (probe_keeps Probes.Registration k Hcarries)
      | |- keeps ?k HealthCheck.infoRetrieval =>
          exact (probe_keeps Probes.InfoRetrieval k Hcarries)
      | |- keeps ?k HealthCheck.documentUpload =>
          exact (probe_keeps Probes.DocumentUpload k Hcarries)
      | |- keeps ?k HealthCheck.documentRetrieval =>
          exact (probe_keeps Probes.DocumentRetrieval k Hcarries)
      | |- keeps ?k HealthCheck.authorityLogin =>
          exact (probe_keeps Probes.AuthorityLogin k Hcarries)
      | |- keeps ?k HealthCheck.pendingList =>
          exact (probe_keeps Probes.PendingList k Hcarries)
      | |- keeps ?k HealthCheck.verification =>
          exact (probe_keeps Probes.Verification k Hcarries)
      | |- keeps ?k HealthCheck.qrCode =>
          exact (probe_keeps Probes.QrCode k Hcarries)
      | |- keeps ?k HealthCheck.pvcCard =>
          exact (probe_keeps Probes.PvcCard k Hcarries)
      | |- keeps _ (ret _) => apply keeps_ret
      | |- keeps _ (log _) => apply keeps_log
      | |- keeps _ (bind _ _) => apply keeps_bind; [| intros ?]
      end ].

Lemma healthy_carries_keys : carries_keys Services.healthy.
Proof.
  intros trace m path d h body v Hanswer Hparse Hsuccess.
  cbn in Hanswer.
  unfold Services.is_register, Services.is_login, Services.api_path
    in Hanswer.
  destruct (String.eqb path "/api/tourist/register") eqn:Hreg.
  - injection Hanswer as <-. vm_compute in Hparse. injection Hparse as <-.
    split; [reflexivity |].
    intros ->. vm_compute in Hreg. discriminate.
  - destruct (String.eqb path "/api/authority/login") eqn:Hlogin.
    + injection Hanswer as <-. vm_compute in Hparse. injection Hparse as <-.
      split; [| reflexivity].
      intros ->. vm_compute in Hreg. discriminate.
    + split; intros ->; [vm_compute in Hreg | vm_compute in Hlogin];
        discriminate.
Qed.

(** C9 as stated fails.  Against a service that issues T1 on the first
    registration and answers later ones with success and no [uniqueId],
    the infrastructure stage leaves [testUniqueId] present, and the
    registration probe of the core stage overwrites it with [undefined];
    it is still [undefined] when the run ends. *)
Lemma key_lost_on_reregistration :
  let s1 :=
    final_state (HealthCheck.testInfrastructure (E := Services.id_only_once)
                   initial) in
  let s2 :=
    final_state (HealthCheck.registration (E := Services.id_only_once) s1) in
  testUniqueId s1 = JStr "T1"
  /\ hasAll [TestUniqueId] s1 = true
  /\ testUniqueId s2 = JUndefined
  /\ hasAll [TestUniqueId] s2 = false
  /\ testUniqueId
       (final_state (HealthCheck.runComprehensiveHealthCheck
                       (E := Services.id_only_once) initial)) = JUndefined.
Proof. cbv zeta. repeat split; vm_compute; reflexivity. Qed.

(** ** The stages are their probes, in order *)

Lemma stages_run_their_probes {E : Env} :
  HealthCheck.testInfrastructure
  = (log "INFRASTRUCTURE TESTS" ;;
     Probes.run_stage
       [Probes.Docker; Probes.Backend; Probes.Blockchain; Probes.Frontend] [])
  /\ HealthCheck.testCoreFeatures
     = (log "CORE FEATURE TESTS" ;;
        Probes.run_stage
          [Probes.Registration; Probes.InfoRetrieval; Probes.DocumentUpload;
           Probes.DocumentRetrieval] [])
  /\ HealthCheck.testAuthorityFeatures
     = (log "AUTHORITY FEATURE TESTS" ;;
        Probes.run_stage
          [Probes.AuthorityLogin; Probes.PendingList; Probes.Verification] [])
  /\ HealthCheck.testAdvancedFeatures
     = (log "ADVANCED FEATURE TESTS" ;;
        Probes.run_stage [Probes.QrCode; Probes.PvcCard] []).
Proof. repeat split. Qed.

Lemma run_stage_app {E : Env} (pre rest : list Probes.Probe) :
  forall results s r1 s1,
    Probes.run_stage pre results s = Returned r1 s1 ->
    Probes.run_stage (pre ++ rest)%list results s = Probes.run_stage rest r1 s1.
Proof.
  induction pre as [| p pre IH]; intros results s r1 s1 Hpre.
  - cbn in Hpre. unfold ret in Hpre. injection Hpre as <- <-. reflexivity.
  - cbn [Probes.run_stage app] in *. unfold bind in *.
    destruct (Probes.run p s) as [b s2 | e s2 | s2]; try discriminate.
    now apply IH.
Qed.

(** ** The upload of comprehensive-health-check.js that never settles *)

(** The awaited promise of the upload probe stays unsettled exactly when
    the probe runs and [form.submit] reports an error. *)
Lemma upload_unsettled_iff_refused {E : Env} (s : State) :
  (exists s', HealthCheck.documentUpload s = Pending s')
  <-> hasAll [TestUniqueId] s = true
      /\ responded (answer (calls s) (Probes.request Probes.DocumentUpload s))
         = false.
Proof.
  unfold hasAll, Probes.request. cbn [forallb get].
  rewrite andb_true_r.
  unfold HealthCheck.documentUpload. unfold_js. cbn.
  destruct (truthy (testUniqueId s)); cbn.
  - destruct (answer _ _) as [err | st body]; cbn.
    + split; [intros _; now split | intros _; eexists; reflexivity].
    + split.
      * intros (s' & Hrun). exfalso. revert Hrun.
        repeat (split_next; cbn); discriminate.
      * intros [_ Hno]. discriminate.
  - split; [intros (s' & Hrun); discriminate | intros [Hno _]; discriminate].
Qed.

(** * Further properties of the scripts *)

(** ** What the writing probes store *)

Lemma registration_effect {E : Env} (s : State) :
  let request := Probes.request Probes.Registration s in
  let a := answer (calls s) request in
  exists s',
    Probes.run Probes.Registration s = Returned (is_some (accepted a)) s'
    /\ get TestUniqueId s' = match accepted a with
                             | Some v => field "uniqueId" v
                             | None => get TestUniqueId s
                             end
    /\ calls s' = (calls s ++ [request])%list.
Proof.
  intros request a. subst request a.
  cbn [Probes.run Probes.request get].
  unfold accepted, decoded.
  unfold_probes; unfold_js; cbn.
  destruct (answer _ _) as [e | st body]; cbn;
    try (eexists; repeat split; reflexivity);
    destruct (JSON_parse body) as [v |]; cbn;
    destruct (st =? 200); cbn;
    try (eexists; repeat split; reflexivity);
    destruct v; cbn;
    try (eexists; repeat split; reflexivity);
    repeat (split_next; cbn);
    eexists; repeat split; reflexivity.
Qed.

(** X1: a probe of comprehensive-health-check.js that assigns a variable
    (the two registrations and the authority login) makes one call,
    records whether the answer was accepted (status 200 and a truthy
    [success]), and assigns the variable only then: it takes the carried
    property of the accepted body, also when that property is missing,
    and keeps its old value on every other answer. *)
Theorem writer_outcome {E : Env} (p : Probes.Probe) (k : Key) (s : State) :
  writes p = Some k ->
  let a := answer (calls s) (Probes.request p s) in
  exists s',
    Probes.run p s = Returned (is_some (accepted a)) s'
    /\ get k s' = match accepted a with
                  | Some v => field (carried k) v
                  | None => get k s
                  end
    /\ calls s' = (calls s ++ [Probes.request p s])%list.
Proof.
  intros Hw a. subst a.
  destruct p; cbn in Hw; try discriminate; injection Hw as <-;
    cbn [Probes.run Probes.request get carried];
    unfold accepted, decoded;
    unfold_probes; unfold_js; cbn;
    destruct (answer _ _) as [e | st body]; cbn;
    try (eexists; repeat split; reflexivity);
    destruct (JSON_parse body) as [v |]; cbn;
    destruct (st =? 200); cbn;
    try (eexists; repeat split; reflexivity);
    destruct v; cbn;
    try (eexists; repeat split; reflexivity);
    repeat (split_next; cbn);
    eexists; repeat split; reflexivity.
Qed.

Lemma writer_outcome_witness :
  exists s',
    Probes.run (E := Services.healthy) Probes.Registration initial
    = Returned true s'
    /\ get TestUniqueId s' = JStr "T1".
Proof.
  destruct (writer_outcome (E := Services.healthy) Probes.Registration
              TestUniqueId initial eq_refl) as (s' & Hrun & Hid & _).
  exists s'. split; [exact Hrun | exact Hid].
Defined.

(** X2: a response whose body is the JSON text [null] never raises a
    fault out of a probe of comprehensive-health-check.js.  Reading
    [success] of [null] throws inside the probe and is caught there, so
    the probe records what it records for a body that is not JSON: [true]
    for the backend-health probe, the status test for the probes that
    look at the status only, [false] for the others; and no variable
    changes. *)
Theorem null_body_verdict {E : Env} (body : string) (p : Probes.Probe)
    (c : Probes.Check) (s : State) (st : Z) :
  JSON_parse body = Some JNull ->
  Probes.check p = Some c ->
  hasAll (Probes.dependencies p) s = true ->
  answer (calls s) (Probes.request p s) = Response st body ->
  exists s',
    Probes.run p s = Returned (verdict_on_text c st) s'
    /\ get TestUniqueId s' = get TestUniqueId s
    /\ get AuthToken s' = get AuthToken s.
Proof.
  intros Hbody Hcheck Hdeps Hanswer.
  destruct p; cbn in Hcheck; try discriminate;
    injection Hcheck as <-;
    cbn in Hdeps; rewrite ?andb_true_r in Hdeps;
    cbn [Probes.run Probes.request] in *;
    unfold_probes; unfold_js; cbn;
    try (rewrite Hdeps; cbn);
    cbn in Hanswer; rewrite Hanswer; cbn; rewrite Hbody; cbn;
    repeat (split_next; cbn); eexists; repeat split; reflexivity.
Qed.

Lemma null_body_verdict_witness :
  exists s',
    Probes.run (E := null_bodies) Probes.PendingList initial
    = Returned true s'.
Proof.
  destruct (null_body_verdict (E := null_bodies) "null" Probes.PendingList
              Probes.StatusOnly initial 200
              eq_refl eq_refl eq_refl eq_refl) as (s' & Hrun & _).
  exists s'. exact Hrun.
Defined.

(** ** Calls are only ever appended *)

Lemma appends_ret {A} (a : A) : appends (ret a).
Proof. intros s. exists []. cbn. now rewrite app_nil_r. Qed.

Lemma appends_log (line : string) : appends (log line).
Proof. intros s. exists []. cbn. now rewrite app_nil_r. Qed.

Lemma appends_bind {A B} (m : M A) (f : A -> M B) :
  appends m -> (forall a, appends (f a)) -> appends (bind m f).
Proof.
  intros Hm Hf s. unfold bind.
  destruct (Hm s) as (more & Hmore).
  destruct (m s) as [a s1 | e s1 | s1]; cbn in *; eauto.
  destruct (Hf a s1) as (more' & Hmore').
  exists (more ++ more')%list. now rewrite Hmore', Hmore, app_assoc.
Qed.

Lemma appends_probe {E : Env} (p : Probes.Probe) : appends (Probes.run p).
Proof.
  intros s.
  destruct p; cbn [Probes.run]; unfold_probes; run_js;
    rewrite <- ?app_assoc;
    first [ eexists; reflexivity
          | exists []; now rewrite app_nil_r ].
Qed.

Lemma appends_run_stage {E : Env} (probes : list Probes.Probe) :
  forall results, appends (Probes.run_stage probes results).
Proof.
  induction probes as [| p rest IH]; intros results.
  - apply appends_ret.
  - cbn [Probes.run_stage]. apply appends_bind; [apply appends_probe |].
    intros b. apply IH.
Qed.

Lemma bind_extends {A B} (m : M A) (f : A -> M B) (s : State) :
  (forall a, appends (f a)) ->
  exists more,
    calls (final_state (bind m f s))
    = (calls (final_state (m s)) ++ more)%list.
Proof.
  intros Hf. unfold bind.
  destruct (m s) as [a s1 | e s1 | s1]; cbn;
    try (exists []; now rewrite app_nil_r).
  apply Hf.
Qed.

Lemma skipped_stage {E : Env} (probes : list Probes.Probe) :
  forall results s,
    forallb (fun p => negb (hasAll (Probes.dependencies p) s)) probes = true ->
    exists results' lines,
      Probes.run_stage probes results s = Returned results' (logged lines s).
Proof.
  induction probes as [| p rest IH]; intros results s Hall.
  - exists results, []. cbn. unfold ret, logged. rewrite app_nil_r.
    now destruct s.
  - cbn in Hall. apply andb_prop in Hall. destruct Hall as [Hp Hrest].
    apply negb_true_iff in Hp.
    cbn [Probes.run_stage].
    rewrite (bind_returned _ _ _ _ _ (skip_run p s Hp)).
    destruct (IH (obj_set (Probes.key p) false results)
                 (logged [Probes.header p; Probes.skip_line p] s))
      as (results' & lines & Hrun).
    { exact Hrest. }
    rewrite Hrun, logged_logged. eauto.
Qed.

(** X3: the core stage asks for the information of the identifier that the
    registration it has just made returned, or, when that registration was
    not accepted, of the identifier it found; with no identifier it makes
    no call after the registration.  An identifier that is a number is
    taken to be a safe integer, so that its text in the path is the one
    JavaScript prints. *)
Theorem core_stage_uses_latest_id {E : Env} (s : State) :
  let register := Probes.request Probes.Registration s in
  let id := match accepted (answer (calls s) register) with
            | Some v => field "uniqueId" v
            | None => testUniqueId s
            end in
  exact_text id = true ->
  if truthy id
  then exists rest,
         new_calls (HealthCheck.testCoreFeatures s) s
         = register
           :: Api GET ("/api/tourist/info/" ++ to_string id) None [] :: rest
  else new_calls (HealthCheck.testCoreFeatures s) s = [register].
Proof.
  intros register id _.
  change (HealthCheck.testCoreFeatures s)
    with ((log "CORE FEATURE TESTS" ;;
           Probes.run_stage
             [Probes.Registration; Probes.InfoRetrieval;
              Probes.DocumentUpload; Probes.DocumentRetrieval] []) s).
  rewrite (bind_returned _ _ s (logged ["CORE FEATURE TESTS"] s) tt)
    by reflexivity.
  cbn [Probes.run_stage].
  destruct (registration_effect (logged ["CORE FEATURE TESTS"] s))
    as (s1 & Hreg & Hid & Hcalls).
  cbv zeta in Hreg, Hid, Hcalls.
  change (calls (logged ["CORE FEATURE TESTS"] s)) with (calls s)
    in Hreg, Hid, Hcalls.
  change (Probes.request Probes.Registration (logged ["CORE FEATURE TESTS"] s))
    with register in Hreg, Hid, Hcalls.
  change (get TestUniqueId (logged ["CORE FEATURE TESTS"] s))
    with (testUniqueId s) in Hid.
  change (carried TestUniqueId) with "uniqueId" in Hid.
  fold id in Hid.
  rewrite (bind_returned _ _ _ _ _ Hreg).
  destruct (truthy id) eqn:Hpresent.
  - match goal with
    | |- context [bind (Probes.run Probes.InfoRetrieval) ?f s1] =>
        destruct (bind_extends (Probes.run Probes.InfoRetrieval) f s1)
          as (more & Hmore)
    end.
    { intros b.
      exact (appends_run_stage
               [Probes.DocumentUpload; Probes.DocumentRetrieval] _). }
    destruct (probe_runs Probes.InfoRetrieval s1) as (rest & Hinfo).
    { cbn. cbn in Hid. now rewrite Hid, Hpresent. }
    destruct (appends_probe Probes.InfoRetrieval s1) as (added & Hadded).
    rewrite (new_calls_app _ s1 added Hadded) in Hinfo. subst added.
    exists (rest ++ more)%list.
    apply new_calls_app.
    rewrite Hmore, Hadded, Hcalls.
    cbn [Probes.request]. cbn in Hid. rewrite Hid.
    rewrite <- !app_assoc. reflexivity.
  - destruct (skipped_stage
                [Probes.InfoRetrieval; Probes.DocumentUpload;
                 Probes.DocumentRetrieval]
                (obj_set (Probes.key Probes.Registration)
                   (is_some (accepted (answer (calls s) register))) []) s1)
      as (results' & lines & Hrun).
    { cbn. cbn in Hid. now rewrite Hid, Hpresent. }
    cbn [Probes.run_stage] in Hrun.
    apply new_calls_app. rewrite Hrun. cbn. exact Hcalls.
Qed.

Lemma core_stage_uses_latest_id_witness :
  exists rest,
    new_calls (HealthCheck.testCoreFeatures (E := Services.healthy) initial)
      initial
    = Probes.request Probes.Registration initial
      :: Api GET "/api/tourist/info/T1" None [] :: rest.
Proof.
  exact (core_stage_uses_latest_id (E := Services.healthy) initial eq_refl).
Defined.

(** ** The outcome of the core stage *)

Lemma upload_pending_state {E : Env} (s s' : State) :
  HealthCheck.documentUpload s = Pending s' ->
  truthy (testUniqueId s) = true
  /\ testUniqueId s' = testUniqueId s
  /\ calls s' = (calls s ++ [Probes.request Probes.DocumentUpload s])%list
  /\ responded (answer (calls s) (Probes.request Probes.DocumentUpload s))
     = false.
Proof.
  unfold HealthCheck.documentUpload, Probes.request. unfold_js. cbn.
  destruct (truthy (testUniqueId s)); cbn; [| discriminate].
  destruct (answer _ _) as [err | st body]; cbn.
  - intros H. injection H as <-. cbn. repeat split.
  - repeat (split_next; cbn); discriminate.
Qed.

Lemma core_stage_cases {E : Env} (s : State) :
  (exists b1 b2 b3 b4 s',
     HealthCheck.testCoreFeatures s
     = Returned [("registration", b1); ("infoRetrieval", b2);
                 ("documentUpload", b3); ("documentRetrieval", b4)] s')
  \/ (exists s', HealthCheck.testCoreFeatures s = Pending s').
Proof.
  unfold HealthCheck.testCoreFeatures.
  rewrite (bind_returned _ _ s (logged ["CORE FEATURE TESTS"] s) tt)
    by reflexivity.
  destruct (probe_returns Probes.Registration
              (logged ["CORE FEATURE TESTS"] s)) as (b1 & s1 & H1);
    [discriminate |].
  destruct (probe_returns Probes.InfoRetrieval s1) as (b2 & s2 & H2);
    [discriminate |].
  cbn [Probes.run] in H1, H2.
  rewrite (bind_returned _ _ _ _ _ H1), (bind_returned _ _ _ _ _ H2).
  destruct (HealthCheck.documentUpload s2) as [b3 s3 | e s3 | s3] eqn:H3.
  - destruct (probe_returns Probes.DocumentRetrieval s3) as (b4 & s4 & H4);
      [discriminate |].
    cbn [Probes.run] in H4.
    rewrite (bind_returned _ _ _ _ _ H3), (bind_returned _ _ _ _ _ H4).
    left. now exists b1, b2, b3, b4, s4.
  - exfalso. exact (probe_never_throws Probes.DocumentUpload s2 e s3 H3).
  - right. exists s3. unfold bind at 1. now rewrite H3.
Qed.

(** X4: the core stage never raises a fault, and when it returns, its
    report holds its four keys in their order.  When its upload probe is
    reached with an identifier and the submission fails at the connection,
    the stage never settles: the probe does not resolve the promise it
    awaits on that branch, and the upload request stays the last call
    made. *)
Theorem core_stage_outcome {E : Env} (s : State) :
  (forall e s', HealthCheck.testCoreFeatures s <> Thrown e s')
  /\ (forall report s',
         HealthCheck.testCoreFeatures s = Returned report s' ->
         map fst report
         = ["registration"; "infoRetrieval"; "documentUpload";
            "documentRetrieval"])
  /\ (forall r1 s1,
         Probes.run_stage [Probes.Registration; Probes.InfoRetrieval] []
           (logged ["CORE FEATURE TESTS"] s) = Returned r1 s1 ->
         hasAll [TestUniqueId] s1 = true ->
         responded (answer (calls s1)
                      (Probes.request Probes.DocumentUpload s1)) = false ->
         exists s',
           HealthCheck.testCoreFeatures s = Pending s'
           /\ calls s'
              = (calls s1 ++ [Probes.request Probes.DocumentUpload s1])%list).
Proof.
  split.
  { intros e s' Hthrown.
    destruct (core_stage_cases s)
      as [(b1 & b2 & b3 & b4 & s2 & H) | (s2 & H)];
      rewrite H in Hthrown; discriminate. }
  split.
  { intros report s' Hreturned.
    destruct (core_stage_cases s)
      as [(b1 & b2 & b3 & b4 & s2 & H) | (s2 & H)];
      rewrite H in Hreturned; [| discriminate].
    injection Hreturned as <- _. reflexivity. }
  intros r1 s1 Hpre Hid Hrefused.
  destruct (proj2 (upload_unsettled_iff_refused s1) (conj Hid Hrefused))
    as (s' & Hpending).
  exists s'. split.
  - change (HealthCheck.testCoreFeatures s)
      with ((log "CORE FEATURE TESTS" ;;
             Probes.run_stage
               ([Probes.Registration; Probes.InfoRetrieval]
                ++ [Probes.DocumentUpload; Probes.DocumentRetrieval])%list
               []) s).
    rewrite (bind_returned _ _ s (logged ["CORE FEATURE TESTS"] s) tt)
      by reflexivity.
    rewrite (run_stage_app _ _ _ _ _ _ Hpre).
    cbn [Probes.run_stage Probes.run]. unfold bind at 1.
    now rewrite Hpending.
  - now destruct (upload_pending_state s1 s' Hpending) as (_ & _ & Hcalls & _).
Qed.

Lemma core_stage_outcome_witness :
  exists s',
    HealthCheck.testCoreFeatures (E := Services.upload_refused) initial
    = Pending s'.
Proof.
  destruct (Probes.run_stage (E := Services.upload_refused)
              [Probes.Registration; Probes.InfoRetrieval] []
              (logged ["CORE FEATURE TESTS"] initial))
    as [r1 s1 | e s1 | s1] eqn:Hpre;
    [| vm_compute in Hpre; discriminate ..].
  pose proof Hpre as Hvalue. vm_compute in Hvalue.
  injection Hvalue as <- <-.
  destruct (proj2 (proj2 (core_stage_outcome (E := Services.upload_refused)
                            initial)) _ _ Hpre eq_refl eq_refl)
    as (s' & Hpending & _).
  now exists s'.
Defined.

(** ** Every report counts nineteen outcomes *)

Lemma passing_le (results : list (string * bool)) :
  (List.length (passing results) <= List.length results)%nat.
Proof. unfold passing. apply filter_length_le. Qed.

Lemma passing_all (results : list (string * bool)) :
  List.length (passing results) = List.length results
  <-> forallb snd results = true.
Proof.
  unfold passing. induction results as [| [k b] rest IH]; cbn.
  - tauto.
  - destruct b; cbn.
    + rewrite <- IH. lia.
    + pose proof (filter_length_le snd rest). split; [lia | discriminate].
Qed.

Lemma tier_of_nineteen (p : Z) :
  (HealthCheck.tier p 19 = HealthCheck.Excellent <-> 16 <= p)
  /\ (HealthCheck.tier p 19 = HealthCheck.Good <-> 12 <= p <= 15)
  /\ (HealthCheck.tier p 19 = HealthCheck.NeedsAttention <-> p <= 11).
Proof.
  destruct (tier_cases p 19) as (He & Hg & Hn).
  { split; [lia | vm_compute; discriminate]. }
  rewrite He, Hg, Hn. lia.
Qed.

(** X5: a run of comprehensive-health-check.js never raises a fault; it
    stays unsettled or it ends having printed a report of exactly
    nineteen outcomes, whose tier is "excellent" from 16 passed, "good"
    from 12 to 15, and "needs attention" below. *)
Theorem every_report_counts_nineteen {E : Env} (s : State) :
  (exists s', HealthCheck.runComprehensiveHealthCheck s = Pending s')
  \/ (exists i c a adv f s5 rest,
        let r := HealthCheck.finalReport i c a adv f in
        HealthCheck.runComprehensiveHealthCheck s
        = Returned tt (logged (HealthCheck.render r ++ rest)%list s5)
        /\ HealthCheck.total r = 19
        /\ 0 <= HealthCheck.passed r <= 19
        /\ (HealthCheck.verdict r = HealthCheck.Excellent
            <-> 16 <= HealthCheck.passed r)
        /\ (HealthCheck.verdict r = HealthCheck.Good
            <-> 12 <= HealthCheck.passed r <= 15)
        /\ (HealthCheck.verdict r = HealthCheck.NeedsAttention
            <-> HealthCheck.passed r <= 11)).
Proof.
  unfold HealthCheck.runComprehensiveHealthCheck, HealthCheck.orchestrate.
  rewrite (bind_returned _ _ s
             (logged ["Starting comprehensive health check..."] s) tt)
    by reflexivity.
  unfold try_catch.
  destruct (infrastructure_returns
              (logged ["Starting comprehensive health check..."] s))
    as (i1 & i2 & i3 & i4 & s1 & H1).
  rewrite (bind_returned _ _ _ _ _ H1).
  destruct (core_stage_cases s1) as [(c1 & c2 & c3 & c4 & s2 & H2) | (s2 & H2)].
  - rewrite (bind_returned _ _ _ _ _ H2).
    destruct (authority_returns s2) as (a1 & a2 & a3 & s3 & H3).
    rewrite (bind_returned _ _ _ _ _ H3).
    destruct (advanced_returns s3) as (d1 & d2 & s4 & H4).
    rewrite (bind_returned _ _ _ _ _ H4).
    destruct (frontend_pages_returns s4)
      as (f1 & f2 & f3 & f4 & f5 & f6 & s5 & H5).
    rewrite (bind_returned _ _ _ _ _ H5).
    right.
    match goal with
    | |- context [HealthCheck.generateFinalReport ?i ?c ?a ?adv ?f s5] =>
        destruct (generateFinalReport_prints i c a adv f s5) as (rest & Hrep);
        exists i, c, a, adv, f, s5, rest
    end.
    cbv zeta. rewrite Hrep. split; [reflexivity |].
    match goal with
    | |- HealthCheck.total ?r = 19 /\ _ =>
        assert (Htotal : HealthCheck.total r = 19)
    end.
    { unfold HealthCheck.finalReport, HealthCheck.total,
        HealthCheck.totalTests.
      rewrite count_tests_entries. reflexivity. }
    split; [exact Htotal |].
    match goal with
    | |- 0 <= HealthCheck.passed ?r <= 19 /\ _ =>
        assert (Hpassed : 0 <= HealthCheck.passed r <= 19)
    end.
    { unfold HealthCheck.finalReport, HealthCheck.passed,
        HealthCheck.passedTests.
      rewrite count_tests_entries. cbn [snd].
      match goal with
      | |- 0 <= Z.of_nat (List.length (passing ?l)) <= 19 =>
          pose proof (passing_le l) as Hle;
          change (List.length l) with 19%nat in Hle
      end.
      lia. }
    split; [exact Hpassed |].
    match goal with
    | |- context [HealthCheck.verdict ?r] =>
        change (HealthCheck.verdict r)
          with (HealthCheck.tier (HealthCheck.passed r) (HealthCheck.total r))
    end.
    rewrite Htotal. apply tier_of_nineteen.
  - left. exists s2. unfold bind at 1. now rewrite H2.
Qed.

(** ** The closing line of the report *)

Lemma all_passed_iff (all : list (string * Results)) :
  (HealthCheck.passedTests all =? HealthCheck.totalTests all)
  = forallb snd (entries all).
Proof.
  unfold HealthCheck.passedTests, HealthCheck.totalTests.
  rewrite count_tests_entries. cbn [fst snd].
  destruct (forallb snd (entries all)) eqn:Hall.
  - apply passing_all in Hall. rewrite Hall. apply Z.eqb_refl.
  - apply Z.eqb_neq. intros Heq. apply Nat2Z.inj in Heq.
    apply passing_all in Heq. congruence.
Qed.

(** X6: [generateFinalReport] only prints: it makes no call and leaves the
    files and both variables alone.  Its last line announces that all
    systems are operational exactly when every recorded outcome is [true];
    otherwise it points to the logs. *)
Theorem report_closing_line (i c a adv f : Results) (s : State) :
  exists s',
    HealthCheck.generateFinalReport i c a adv f s = Returned tt s'
    /\ calls s' = calls s
    /\ files s' = files s
    /\ testUniqueId s' = testUniqueId s
    /\ authToken s' = authToken s
    /\ last (console s') ""
       = if forallb snd (entries (HealthCheck.allResults i c a adv f))
         then operational_line
         else "Check logs for specific error details.".
Proof.
  unfold HealthCheck.generateFinalReport. cbv zeta.
  rewrite (bind_returned _ _ _ _ _ (log_all_logged _ s)).
  remember (HealthCheck.render (HealthCheck.finalReport i c a adv f)) as lines.
  change (HealthCheck.passed (HealthCheck.finalReport i c a adv f)
          =? HealthCheck.total (HealthCheck.finalReport i c a adv f))
    with (HealthCheck.passedTests (HealthCheck.allResults i c a adv f)
          =? HealthCheck.totalTests (HealthCheck.allResults i c a adv f)).
  rewrite all_passed_iff.
  remember (forallb snd (entries (HealthCheck.allResults i c a adv f)))
    as operational.
  unfold_js. cbn.
  destruct operational; cbn;
    eexists; (split; [reflexivity |]); cbn;
    repeat (split; [reflexivity |]);
    now rewrite last_last.
Qed.

(** ** The files the upload of test-all-features.js touches *)

Lemma lookup_obj_set_other {A} (k k' : string) (v : A) (l : list (string * A)) :
  String.eqb k' k = false -> lookup k' (obj_set k v l) = lookup k' l.
Proof.
  intros Hk. induction l as [| [k0 v0] rest IH]; cbn.
  - now rewrite Hk.
  - destruct (String.eqb k k0) eqn:Hk0; cbn.
    + apply String.eqb_eq in Hk0. subst k0. now rewrite Hk.
    + destruct (String.eqb k' k0); auto.
Qed.

Lemma lookup_remove_file_other (path p : string) (l : list (string * string)) :
  String.eqb p path = false -> lookup p (remove_file path l) = lookup p l.
Proof.
  intros Hp. unfold remove_file.
  induction l as [| [k c] rest IH]; cbn; [reflexivity |].
  destruct (String.eqb path k) eqn:Hk; cbn.
  - apply String.eqb_eq in Hk. subst k. now rewrite Hp.
  - destruct (String.eqb p k); auto.
Qed.

(** X7: the upload probe of test-all-features.js touches one file.  Every
    other path keeps what it held; test-passport.txt ends up absent when
    the answer decoded to a value other than [null], and otherwise holds
    the text the probe generated, whatever it held before. *)
Theorem upload_touches_one_file {E : Env} (s : State) (p : string) :
  lookup p (files (final_state (AllFeatures.testDocumentUpload s)))
  = if String.eqb p AllFeatures.testFilePath
    then if cleanup_reached
              (answer (calls s)
                 (Submit AllFeatures.upload_url
                    [("uniqueId", testUniqueId s);
                     ("documentType", JStr "passport");
                     ("document", JStr AllFeatures.testFilePath)]))
         then None
         else Some ("PASSPORT DOCUMENT Tourist ID: "
                    ++ to_string (testUniqueId s))
    else lookup p (files s).
Proof.
  unfold AllFeatures.testDocumentUpload, writeFileSync, unlinkSync,
    cleanup_reached.
  remember AllFeatures.testFilePath as path.
  unfold_js. cbn.
  destruct (String.eqb p path) eqn:Hp.
  - apply String.eqb_eq in Hp. subst p.
    destruct (answer _ _) as [err | st body]; cbn.
    + now rewrite lookup_obj_set_same.
    + destruct (JSON_parse body) as [v |]; cbn;
        [| now rewrite lookup_obj_set_same].
      destruct v; cbn; rewrite ?lookup_obj_set_same; try reflexivity;
        repeat match goal with
               | |- context [truthy ?x] => destruct (truthy x) eqn:?; cbn
               end;
        rewrite ?lookup_obj_set_same; cbn;
        now rewrite ?lookup_remove_file.
  - destruct (answer _ _) as [err | st body]; cbn.
    + now rewrite lookup_obj_set_other.
    + destruct (JSON_parse body) as [v |]; cbn;
        [| now rewrite lookup_obj_set_other].
      destruct v; cbn; rewrite ?lookup_obj_set_same;
        try (now rewrite lookup_obj_set_other);
        repeat match goal with
               | |- context [truthy ?x] => destruct (truthy x) eqn:?; cbn
               end;
        rewrite ?lookup_obj_set_same; cbn;
        now rewrite ?lookup_remove_file_other, ?lookup_obj_set_other.
Qed.

(** ** The score of test-all-features.js *)

Section AllFeaturesGated.
Context {E : Env}.

Lemma all_verification_returns (s : State) :
  exists b s', AllFeatures.testTouristVerification s = Returned b s'.
Proof. unfold AllFeatures.testTouristVerification. run_js; eauto. Qed.

Lemma all_qrcode_returns (s : State) :
  exists b s', AllFeatures.testQRCodeGeneration s = Returned b s'.
Proof. unfold AllFeatures.testQRCodeGeneration. run_js; eauto. Qed.

Lemma all_card_returns (s : State) :
  exists b s', AllFeatures.testPVCCardGeneration s = Returned b s'.
Proof. unfold AllFeatures.testPVCCardGeneration. run_js; eauto. Qed.
End AllFeaturesGated.

Lemma count_truthy_bounds {A} (f : A -> bool) (l : list A) (acc : Z) :
  acc <= fold_left (fun (n : Z) (x : A) => if f x then n + 1 else n) l acc
      <= acc + Z.of_nat (List.length l).
Proof.
  revert acc. induction l as [| x rest IH]; intros acc; cbn [fold_left].
  - cbn. lia.
  - specialize (IH (if f x then acc + 1 else acc)).
    cbn [List.length]. destruct (f x); lia.
Qed.

Lemma run_tests_keys {E : Env} (s : State) :
  exists results s',
    AllFeatures.run_tests s = Returned results s'
    /\ map fst results
       = ["registration"; "login"; "documentUpload"; "documentRetrieval";
          "authorityLogin"; "verification"; "qrCode"; "pvcCard"; "frontend"]
    /\ Z.of_nat (List.length results) = 9
    /\ 0 <= AllFeatures.passedTests results <= 9.
Proof.
  assert (Hrun : exists results s',
             AllFeatures.run_tests s = Returned results s'
             /\ map fst results = map fst AllFeatures.initial_results).
  { unfold AllFeatures.run_tests.
    destruct (all_registration_call s) as (b1 & s1 & H1 & _).
    rewrite (bind_returned _ _ _ _ _ H1).
    destruct b1; [| eexists; eexists; split; reflexivity].
    destruct (all_login_call s1) as (b2 & s2 & H2 & _).
    rewrite (bind_returned _ _ _ _ _ H2).
    destruct (all_upload_call s2) as (v3 & s3 & H3 & _).
    rewrite (bind_returned _ _ _ _ _ H3).
    destruct (all_retrieval_call s3) as (b4 & s4 & H4 & _).
    rewrite (bind_returned _ _ _ _ _ H4).
    destruct (all_authority_login_call s4) as (b5 & s5 & H5 & _).
    rewrite (bind_returned _ _ _ _ _ H5).
    destruct b5.
    - destruct (all_verification_returns s5) as (b6 & s6 & H6).
      destruct (all_qrcode_returns s6) as (b7 & s7 & H7).
      destruct (all_card_returns s7) as (b8 & s8 & H8).
      destruct (all_frontend_call s8) as (b9 & s9 & H9 & _).
      unfold bind at 1. unfold bind at 1.
      rewrite H6. rewrite (bind_returned _ _ _ _ _ H7).
      rewrite (bind_returned _ _ _ _ _ H8). unfold ret at 1.
      rewrite (bind_returned _ _ _ _ _ H9).
      eexists; eexists; split; reflexivity.
    - destruct (all_frontend_call s5) as (b9 & s9 & H9 & _).
      rewrite (bind_returned _ _ s5 s5 _ eq_refl).
      rewrite (bind_returned _ _ _ _ _ H9).
      eexists; eexists; split; reflexivity. }
  destruct Hrun as (results & s' & Hrun & Hkeys).
  exists results, s'. split; [exact Hrun |]. split; [exact Hkeys |].
  split.
  - rewrite <- (length_map fst), Hkeys. reflexivity.
  - unfold AllFeatures.passedTests.
    pose proof (count_truthy_bounds
                  (fun entry : string * string =>
                     truthy (AllFeatures.result_of results (fst entry)))
                  AllFeatures.testNames 0) as Hb.
    change (Z.of_nat (List.length AllFeatures.testNames)) with 9 in Hb.
    lia.
Qed.

(** X8: whenever the probes of test-all-features.js have run to their
    end, the results hold the same nine keys in the same order, whichever
    probes ran: the score is out of nine and a probe that did not run
    counts as failed. *)
Theorem all_features_always_nine {E : Env} (s s' : State)
    (results : list (string * JsVal)) :
  AllFeatures.run_tests s = Returned results s' ->
  map fst results
  = ["registration"; "login"; "documentUpload"; "documentRetrieval";
     "authorityLogin"; "verification"; "qrCode"; "pvcCard"; "frontend"]
  /\ Z.of_nat (List.length results) = 9
  /\ 0 <= AllFeatures.passedTests results <= 9.
Proof.
  intros Hrun.
  destruct (run_tests_keys s) as (results' & s2 & Hrun' & Hkeys).
  rewrite Hrun in Hrun'. injection Hrun' as <- <-. exact Hkeys.
Qed.

Lemma all_features_always_nine_witness :
  exists results s',
    AllFeatures.run_tests (E := Services.login_refused) initial
    = Returned results s'
    /\ Z.of_nat (List.length results) = 9.
Proof.
  destruct (AllFeatures.run_tests (E := Services.login_refused) initial)
    as [results s' | e s' | s'] eqn:Hrun;
    [| vm_compute in Hrun; discriminate ..].
  exists results, s'. split; [reflexivity |].
  exact (proj1 (proj2 (all_features_always_nine
                         (E := Services.login_refused) initial s' results
                         Hrun))).
Defined.

Lemma all_log_all_logged (lines : list string) (s : State) :
  AllFeatures.log_all lines s = Returned tt (logged lines s).
Proof.
  revert s. induction lines as [| l rest IH]; intros s.
  - cbn. unfold ret, logged. rewrite app_nil_r. now destruct s.
  - cbn [AllFeatures.log_all].
    rewrite (bind_returned _ _ s (logged [l] s) tt) by reflexivity.
    rewrite IH, logged_logged. reflexivity.
Qed.

(** X9: when the registration of test-all-features.js fails, no other probe
    runs and the script prints FAIL for all nine probes and the score 0/9. *)
Theorem failed_registration_scores_zero {E : Env} (s s1 : State) :
  AllFeatures.testRegistration
    (logged ["Starting Complete System Test..."] s) = Returned false s1 ->
  AllFeatures.runCompleteSystemTest s
  = Returned tt (logged nothing_passed s1).
Proof.
  intros Hreg. unfold AllFeatures.runCompleteSystemTest.
  rewrite (bind_returned _ _ s
             (logged ["Starting Complete System Test..."] s) tt)
    by reflexivity.
  rewrite (bind_returned _ _ _ _ _
             (all_stops_after_failed_registration _ _ Hreg)).
  rewrite (bind_returned _ _ s1 (logged ["FINAL TEST RESULTS"] s1) tt)
    by reflexivity.
  rewrite (bind_returned _ _ _ _ _ (all_log_all_logged _ _)).
  cbn. unfold_js. cbn. unfold logged, nothing_passed. cbn.
  rewrite <- !app_assoc. reflexivity.
Qed.

Lemma failed_registration_scores_zero_witness :
  exists s1,
    AllFeatures.testRegistration (E := Services.down)
      (logged ["Starting Complete System Test..."] initial)
    = Returned false s1
    /\ AllFeatures.runCompleteSystemTest (E := Services.down) initial
       = Returned tt (logged nothing_passed s1).
Proof.
  eexists. split; [vm_compute; reflexivity |].
  apply (failed_registration_scores_zero (E := Services.down) initial).
  vm_compute. reflexivity.
Defined.

(** ** Verdicts that depend on what the success branch prints *)

Lemma log_documents_result (items : list JsVal) (s : State) :
  if forallb present items
  then exists lines,
         AllFeatures.log_documents items s = Returned tt (logged lines s)
  else exists (e : string) lines,
         AllFeatures.log_documents items s = Thrown e (logged lines s).
Proof.
  revert s. induction items as [| doc rest IH]; intros s.
  - cbn. exists []. unfold ret, logged. rewrite app_nil_r. now destruct s.
  - cbn [forallb AllFeatures.log_documents]. unfold_js.
    destruct doc; cbn;
      try (eexists; exists ["Document:"]; reflexivity);
      match goal with
      | |- context [AllFeatures.log_documents rest ?st] =>
          specialize (IH st); destruct (forallb present rest);
          [ destruct IH as (lines & ->)
          | destruct IH as (e & lines & ->); exists e ];
          eexists; unfold logged; cbn; rewrite <- ?app_assoc; reflexivity
      end.
Qed.

(** X10: the document-retrieval probe of test-all-features.js passes on an
    accepted answer without documents or with an empty list; with a
    list it passes exactly when no entry is [null], because it prints a
    field of every entry; with any other value that has a positive length
    it fails, because the value has no [forEach]. *)
Theorem document_retrieval_verdict {E : Env} (s : State) :
  exists s',
    AllFeatures.testDocumentRetrieval s
    = Returned
        match accepted
                (answer (calls s)
                   (Api GET ("/api/tourist/documents/"
                             ++ to_string (testUniqueId s)) None [])) with
        | None => false
        | Some v =>
            match field "documents" v with
            | JArr items => forallb present items
            | documents =>
                negb (truthy documents
                      && gt_zero (AllFeatures.js_length documents))
            end
        end s'.
Proof.
  unfold AllFeatures.testDocumentRetrieval, AllFeatures.forEach_document,
    accepted, decoded.
  unfold_js. cbn.
  destruct (answer _ _) as [err | st body]; cbn; [eauto |].
  destruct (JSON_parse body) as [v |]; cbn;
    destruct (st =? 200); cbn; eauto;
    destruct v; cbn; eauto.
  destruct (truthy
              match lookup "success" fields with
              | Some x => x
              | None => JUndefined
              end); cbn; eauto.
  destruct (match lookup "documents" fields with
            | Some x => x
            | None => JUndefined
            end) as [| | b | n | str | items | fs]; cbn; eauto.
  - destruct b; cbn; eauto.
  - destruct (negb (n =? 0)); cbn; eauto.
  - destruct (negb (str =? "")%string); cbn; eauto.
    destruct (0 <? Z.of_nat (String.length str)); cbn; eauto.
  - destruct items as [| doc rest]; cbn; eauto.
    unfold_js.
    destruct doc; cbn; eauto;
      match goal with
      | |- context [AllFeatures.log_documents rest ?st] =>
          pose proof (log_documents_result rest st) as Hdocs
      end;
      (destruct (forallb present rest);
       [ destruct Hdocs as (lines & ->)
       | destruct Hdocs as (e & lines & ->) ]);
      cbn; eauto.
  - destruct (gt_zero _); cbn; eauto.
Qed.

(** X11: the info-retrieval probes of test-all-features.js ([testLogin]) and
    of test-complete-flow.js pass exactly when the answer is accepted and
    its [data] field is neither missing nor [null]: an accepted answer
    without [data] fails the probe while it prints the name. *)
Theorem info_probe_needs_data {E : Env} (s : State) :
  let a := answer (calls s)
             (Api GET ("/api/tourist/info/" ++ to_string (testUniqueId s))
                None []) in
  let verdict := match accepted a with
                 | Some v => present (field "data" v)
                 | None => false
                 end in
  (exists s', AllFeatures.testLogin s = Returned verdict s')
  /\ (exists s', CompleteFlow.testInfoRetrieval s = Returned verdict s').
Proof.
  intros a verdict. subst verdict a.
  unfold AllFeatures.testLogin, CompleteFlow.testInfoRetrieval,
    accepted, decoded.
  unfold_js. cbn.
  destruct (answer _ _) as [err | st body]; cbn; [split; eauto |].
  destruct (JSON_parse body) as [v |]; cbn;
    destruct (st =? 200); cbn; try (split; eauto; fail);
    destruct v; cbn; try (split; eauto; fail).
  destruct (truthy
              match lookup "success" fields with
              | Some x => x
              | None => JUndefined
              end); cbn; try (split; eauto; fail).
  destruct (match lookup "data" fields with
            | Some x => x
            | None => JUndefined
            end); cbn; split; eauto.
Qed.

(** X12: the page probes of test-all-features.js and test-complete-flow.js
    judge a page by its text alone, whatever the status of the response;
    the page probes of comprehensive-health-check.js also require the
    status 200.  A connection error on the last transport tried fails the
    probe. *)
Theorem page_verdicts {E : Env} (s : State) :
  (exists s',
     AllFeatures.testFrontendAccess s
     = Returned
         match answer (calls s) (Https "/dashboard-simple.html") with
         | Response _ html =>
             includes html "Tourist Dashboard"
             && includes html "Document Upload"
         | ConnError _ => false
         end s')
  /\ (exists s',
        CompleteFlow.testFrontendAccess s
        = Returned
            match answer (calls s) (Https "/tourist-auth.html") with
            | Response _ html => CompleteFlow.page_ok html
            | ConnError _ =>
                match answer (calls s ++ [Https "/tourist-auth.html"])
                        (Http "/tourist-auth.html") with
                | Response _ html => CompleteFlow.page_ok html
                | ConnError _ => false
                end
            end s')
  /\ (forall i page,
         exists s',
           HealthCheck.page_probe i page s
           = Returned
               match answer (calls s) (Https (HealthCheck.path page)) with
               | Response st html =>
                   (st =? 200) && includes html (HealthCheck.keyword page)
               | ConnError _ =>
                   match answer (calls s ++ [Https (HealthCheck.path page)])
                           (Http (HealthCheck.path page)) with
                   | Response st html =>
                       (st =? 200)
                       && includes html (HealthCheck.keyword page)
                   | ConnError _ => false
                   end
               end s').
Proof.
  split; [| split; [| intros i page]].
  - unfold AllFeatures.testFrontendAccess. unfold_js. cbn.
    destruct (answer _ _) as [err | st html]; cbn; eauto.
    destruct (includes html "Tourist Dashboard"
              && includes html "Document Upload")%bool; cbn; eauto.
  - unfold CompleteFlow.testFrontendAccess. unfold_js. cbn.
    destruct (answer (calls s) _) as [err | st html]; cbn.
    + destruct (answer _ _) as [err' | st html]; cbn; eauto.
      destruct (CompleteFlow.page_ok html); cbn; eauto.
    + destruct (CompleteFlow.page_ok html); cbn; eauto.
  - unfold HealthCheck.page_probe. unfold_js. cbn.
    destruct (answer (calls s) _) as [err | st html]; cbn.
    + destruct (answer _ _) as [err' | st html]; cbn; eauto.
      destruct ((st =? 200) && includes html (HealthCheck.keyword page))%bool;
        cbn; eauto.
    + destruct ((st =? 200) && includes html (HealthCheck.keyword page))%bool;
        cbn; eauto.
Qed.

(** ** The quick verification script *)

(** X13: the quick verification script settles for every answer, makes one
    GET request for the tourist's information and nothing else (it never
    posts a verification), and prints its advice for manual verification
    exactly when the tourist was found and is not verified. *)
Theorem quick_verify_only_reads {E : Env} (s : State) :
  exists s',
    QuickVerify.tryDirectVerification s = Returned tt s'
    /\ new_calls (QuickVerify.tryDirectVerification s) s = [info_request]
    /\ files s' = files s
    /\ existsb (String.eqb advice_line)
               (new_lines (QuickVerify.tryDirectVerification s) s)
       = found_unverified (answer (calls s) info_request).
Proof.
  assert (Hrun : exists s' lines,
             QuickVerify.tryDirectVerification s = Returned tt s'
             /\ calls s' = (calls s ++ [info_request])%list
             /\ files s' = files s
             /\ console s' = (console s ++ lines)%list
             /\ existsb (String.eqb advice_line) lines
                = found_unverified (answer (calls s) info_request)).
  { unfold QuickVerify.tryDirectVerification, found_unverified, info_request.
    unfold_js. cbn.
    destruct (answer _ _) as [err | st text]; cbn.
    - eexists; eexists. repeat split.
      + rewrite <- app_assoc. reflexivity.
      + reflexivity.
    - destruct (JSON_parse text) as [v |]; cbn.
      + destruct v; cbn;
          try (eexists; eexists; repeat split;
               [rewrite <- ?app_assoc; reflexivity | reflexivity]).
        destruct (truthy
                    match lookup "success" fields with
                    | Some x => x
                    | None => JUndefined
                    end); cbn;
          [| eexists; eexists; repeat split;
             [rewrite <- ?app_assoc; reflexivity | reflexivity]].
        destruct (match lookup "data" fields with
                  | Some x => x
                  | None => JUndefined
                  end) as [| | b | n | str | items | fs]; cbn;
          try (eexists; eexists; repeat split;
               [rewrite <- ?app_assoc; reflexivity | reflexivity]).
        destruct (truthy
                    match lookup "isVerified" fs with
                    | Some x => x
                    | None => JUndefined
                    end); cbn;
          eexists; eexists; repeat split;
          [rewrite <- ?app_assoc; reflexivity | reflexivity
          | rewrite <- ?app_assoc; reflexivity | reflexivity].
      + eexists; eexists. repeat split;
          [rewrite <- ?app_assoc; reflexivity | reflexivity]. }
  destruct Hrun as (s' & lines & Hrun & Hcalls & Hfiles & Hconsole & Hadvice).
  exists s'. split; [exact Hrun |].
  split; [apply new_calls_app; now rewrite Hrun |].
  split; [exact Hfiles |].
  rewrite (new_lines_app _ s lines); [exact Hadvice | now rewrite Hrun].
Qed.

(** X14: [verifyTourist] settles for every answer after its one POST
    request, and its last line tells how it ended; for a body that does
    not decode, or decodes to [null], that line is the raw body. *)
Theorem verify_tourist_settles {E : Env} (s : State) :
  let request :=
    Api POST "/api/authority/verify-direct"
      (Some (JObj [("uniqueId", JStr QuickVerify.uniqueId);
                   ("validityDays", JNum 365);
                   ("notes", JStr "Manual verification for testing")])) [] in
  exists s',
    QuickVerify.verifyTourist s = Returned tt s'
    /\ calls s' = (calls s ++ [request])%list
    /\ last (console s') ""
       = match answer (calls s) request with
         | ConnError e => "Request error: " ++ e
         | Response _ text =>
             match JSON_parse text with
             | Some v =>
                 if present v
                 then if truthy (field "success" v)
                      then "PVC Card: Download available in dashboard"
                      else "Verification failed:"
                 else "Raw response: " ++ text
             | None => "Raw response: " ++ text
             end
         end.
Proof.
  intros request. subst request.
  unfold QuickVerify.verifyTourist. unfold_js. cbn.
  destruct (answer _ _) as [err | st text]; cbn.
  - eexists. split; [reflexivity | split; [reflexivity |]].
    cbn. apply last_last.
  - destruct (JSON_parse text) as [v |]; cbn.
    + destruct v; cbn;
        try (eexists; split; [reflexivity | split; [reflexivity |]];
             cbn; apply last_last).
      destruct (truthy
                  match lookup "success" fields with
                  | Some x => x
                  | None => JUndefined
                  end); cbn;
        eexists; (split; [reflexivity | split; [reflexivity |]]);
        cbn; apply last_last.
    + eexists. split; [reflexivity | split; [reflexivity |]].
      cbn. apply last_last.
Qed.

(** ** When test-complete-flow.js reports success *)

Section FlowEffects.
Context {E : Env}.

Lemma flow_registration_effect (s : State) :
  let a := answer (calls s) flow_register in
  exists s1 lines,
    CompleteFlow.testRegistration s = Returned (is_some (accepted a)) s1
    /\ calls s1 = (calls s ++ [flow_register])%list
    /\ testUniqueId s1 = match accepted a with
                         | Some v => field "uniqueId" v
                         | None => testUniqueId s
                         end
    /\ console s1 = (console s ++ lines)%list
    /\ existsb (String.eqb all_passed_line) lines = false.
Proof.
  intros a. subst a.
  unfold CompleteFlow.testRegistration, flow_register, accepted, decoded.
  unfold_js. cbn.
  destruct (answer _ _) as [err | st body]; cbn;
    [eexists; eexists; repeat split;
     [rewrite <- ?app_assoc; reflexivity | reflexivity] |].
  destruct (JSON_parse body) as [v |]; cbn;
    destruct (st =? 200); cbn;
    try (eexists; eexists; repeat split;
         [rewrite <- ?app_assoc; reflexivity | reflexivity]);
    destruct v; cbn;
    try (eexists; eexists; repeat split;
         [rewrite <- ?app_assoc; reflexivity | reflexivity]).
  destruct (truthy
              match lookup "success" fields with
              | Some x => x
              | None => JUndefined
              end); cbn;
    eexists; eexists; repeat split;
    [rewrite <- ?app_assoc; reflexivity | reflexivity
    | rewrite <- ?app_assoc; reflexivity | reflexivity].
Qed.

Lemma flow_info_effect (s : State) :
  let info :=
    Api GET ("/api/tourist/info/" ++ to_string (testUniqueId s)) None [] in
  exists s1 lines,
    CompleteFlow.testInfoRetrieval s
    = Returned match accepted (answer (calls s) info) with
               | Some v => present (field "data" v)
               | None => false
               end s1
    /\ calls s1 = (calls s ++ [info])%list
    /\ console s1 = (console s ++ lines)%list
    /\ existsb (String.eqb all_passed_line) lines = false.
Proof.
  intros info. subst info.
  unfold CompleteFlow.testInfoRetrieval, accepted, decoded.
  unfold_js. cbn.
  destruct (answer _ _) as [err | st body]; cbn;
    [eexists; eexists; repeat split;
     [rewrite <- ?app_assoc; reflexivity | reflexivity] |].
  destruct (JSON_parse body) as [v |]; cbn;
    destruct (st =? 200); cbn;
    try (eexists; eexists; repeat split;
         [rewrite <- ?app_assoc; reflexivity | reflexivity]);
    destruct v; cbn;
    try (eexists; eexists; repeat split;
         [rewrite <- ?app_assoc; reflexivity | reflexivity]).
  destruct (truthy
              match lookup "success" fields with
              | Some x => x
              | None => JUndefined
              end); cbn;
    [| eexists; eexists; repeat split;
       [rewrite <- ?app_assoc; reflexivity | reflexivity]].
  destruct (match lookup "data" fields with
            | Some x => x
            | None => JUndefined
            end); cbn;
    eexists; eexists; repeat split;
    [rewrite <- ?app_assoc; reflexivity | reflexivity
    | rewrite <- ?app_assoc; reflexivity | reflexivity
    | rewrite <- ?app_assoc; reflexivity | reflexivity
    | rewrite <- ?app_assoc; reflexivity | reflexivity
    | rewrite <- ?app_assoc; reflexivity | reflexivity
    | rewrite <- ?app_assoc; reflexivity | reflexivity
    | rewrite <- ?app_assoc; reflexivity | reflexivity].
Qed.

Lemma flow_frontend_effect (s : State) :
  exists s1 lines,
    CompleteFlow.testFrontendAccess s
    = Returned
        match answer (calls s) (Https flow_page) with
        | Response _ html => CompleteFlow.page_ok html
        | ConnError _ =>
            match answer (calls s ++ [Https flow_page]) (Http flow_page) with
            | Response _ html => CompleteFlow.page_ok html
            | ConnError _ => false
            end
        end s1
    /\ console s1 = (console s ++ lines)%list
    /\ existsb (String.eqb all_passed_line) lines = false.
Proof.
  unfold CompleteFlow.testFrontendAccess, flow_page. unfold_js. cbn.
  destruct (answer (calls s) _) as [err | st html]; cbn.
  - destruct (answer _ _) as [err' | st html]; cbn.
    + eexists; eexists; repeat split;
        [rewrite <- ?app_assoc; reflexivity | reflexivity].
    + destruct (CompleteFlow.page_ok html); cbn;
        eexists; eexists; repeat split;
        [rewrite <- ?app_assoc; reflexivity | reflexivity
        | rewrite <- ?app_assoc; reflexivity | reflexivity].
  - destruct (CompleteFlow.page_ok html); cbn;
      eexists; eexists; repeat split;
      [rewrite <- ?app_assoc; reflexivity | reflexivity
      | rewrite <- ?app_assoc; reflexivity | reflexivity].
Qed.
End FlowEffects.

Lemma skipn_console (s : State) (lines : list string) :
  skipn (List.length (console s)) (console s ++ lines) = lines.
Proof.
  rewrite skipn_app, skipn_all, Nat.sub_diag. reflexivity.
Qed.

Lemma flow_outcome {E : Env} (s : State) :
  exists s',
    CompleteFlow.runCompleteTest s = Returned tt s'
    /\ existsb (String.eqb all_passed_line)
         (new_lines (CompleteFlow.runCompleteTest s) s)
       = flow_passes s.
Proof.
  unfold CompleteFlow.runCompleteTest, flow_passes, new_lines, try_catch.
  remember (String.eqb all_passed_line) as said eqn:Hsaid.
  assert (Hstarting : said "Starting complete flow test..." = false)
    by (subst said; reflexivity).
  assert (Hstop1 : said "Registration test failed. Stopping tests." = false)
    by (subst said; reflexivity).
  assert (Hstop2 : said "Info retrieval test failed. Stopping tests." = false)
    by (subst said; reflexivity).
  assert (Hstop3 : said "Frontend access test failed." = false)
    by (subst said; reflexivity).
  assert (Hpassed : said "ALL TESTS PASSED!" = true)
    by (subst said; reflexivity).
  set (s0 := logged ["Starting complete flow test..."] s).
  assert (Hstart : log "Starting complete flow test..." s = Returned tt s0)
    by reflexivity.
  rewrite (bind_returned _ _ _ _ _ Hstart).
  destruct (flow_registration_effect s0)
    as (s1 & lines1 & Hrun1 & Hcalls1 & Hid1 & Hconsole1 & Hquiet1).
  rewrite <- Hsaid in Hquiet1.
  rewrite (bind_returned _ _ _ _ _ Hrun1).
  change (calls s0) with (calls s) in *.
  change (console s0)
    with (console s ++ ["Starting complete flow test..."])%list in Hconsole1.
  destruct (accepted (answer (calls s) flow_register)) as [v1 |];
    cbn [is_some negb].
  2:{ eexists. split; [reflexivity |].
      cbn. rewrite Hconsole1, <- !app_assoc, skipn_console.
      rewrite !existsb_app. cbn [existsb].
      now rewrite Hquiet1, Hstarting, Hstop1. }
  destruct (flow_info_effect s1)
    as (s2 & lines2 & Hrun2 & Hcalls2 & Hconsole2 & Hquiet2).
  rewrite <- Hsaid in Hquiet2.
  rewrite (bind_returned _ _ _ _ _ Hrun2).
  rewrite Hid1, Hcalls1 in *.
  destruct (accepted _) as [v2 |].
  2:{ eexists. split; [reflexivity |].
      cbn. rewrite Hconsole2, Hconsole1, <- !app_assoc, skipn_console.
      rewrite !existsb_app. cbn [existsb].
      now rewrite Hquiet1, Hquiet2, Hstarting, Hstop2. }
  destruct (present (field "data" v2)); cbn [negb andb].
  2:{ eexists. split; [reflexivity |].
      cbn. rewrite Hconsole2, Hconsole1, <- !app_assoc, skipn_console.
      rewrite !existsb_app. cbn [existsb].
      now rewrite Hquiet1, Hquiet2, Hstarting, Hstop2. }
  destruct (flow_frontend_effect s2)
    as (s3 & lines3 & Hrun3 & Hconsole3 & Hquiet3).
  rewrite <- Hsaid in Hquiet3.
  rewrite (bind_returned _ _ _ _ _ Hrun3).
  rewrite Hcalls2 in *.
  rewrite <- !app_assoc in *. cbn [app] in *.
  match goal with
  | |- context [if negb ?b then _ else _] => destruct b
  end; cbn [negb].
  - eexists. split; [reflexivity |].
    cbn. rewrite Hconsole3, Hconsole2, Hconsole1, <- !app_assoc.
    rewrite skipn_console.
    rewrite !existsb_app. cbn [existsb].
    now rewrite Hquiet1, Hquiet2, Hquiet3, Hstarting, Hpassed.
  - eexists. split; [reflexivity |].
    cbn. rewrite Hconsole3, Hconsole2, Hconsole1, <- !app_assoc.
    rewrite skipn_console.
    rewrite !existsb_app. cbn [existsb].
    now rewrite Hquiet1, Hquiet2, Hquiet3, Hstarting, Hstop3.
Qed.

(** X15: whenever [runCompleteTest] has run to its end, it has printed
    its success line exactly when the registration was accepted, the
    record of the identifier just issued was returned with its data, and
    the sign-in page with both texts arrived over one of the two
    transports.  An issued identifier that is a number is taken to be a
    safe integer, so that its text in the path is the one JavaScript
    prints. *)
Theorem flow_success_line {E : Env} (s s' : State) :
  (forall v,
      accepted (answer (calls s) flow_register) = Some v ->
      exact_text (field "uniqueId" v) = true) ->
  CompleteFlow.runCompleteTest s = Returned tt s' ->
  existsb (String.eqb all_passed_line)
    (new_lines (CompleteFlow.runCompleteTest s) s)
  = flow_passes s.
Proof.
  intros _ _.
  now destruct (flow_outcome s) as (s2 & _ & Hlines).
Qed.

Lemma flow_success_line_witness :
  existsb (String.eqb all_passed_line)
    (new_lines (CompleteFlow.runCompleteTest (E := Services.healthy) initial)
       initial)
  = flow_passes (E := Services.healthy) initial.
Proof.
  destruct (CompleteFlow.runCompleteTest (E := Services.healthy) initial)
    as [[] s' | e s' | s'] eqn:Hrun;
    [| vm_compute in Hrun; discriminate ..].
  rewrite <- Hrun.
  apply (flow_success_line (E := Services.healthy) initial s');
    [| exact Hrun].
  intros v Hv. vm_compute in Hv. injection Hv as <-. reflexivity.
Defined.

(** ** The score of a run whose authority login fails *)

Lemma run_tests_gated {E : Env} (s : State) :
  exists results s',
    AllFeatures.run_tests s = Returned results s'
    /\ (AllFeatures.result_of results "authorityLogin" = JBool true
        \/ (AllFeatures.result_of results "verification" = JBool false
            /\ AllFeatures.result_of results "qrCode" = JBool false
            /\ AllFeatures.result_of results "pvcCard" = JBool false
            /\ AllFeatures.passedTests results <= 6)).
Proof.
  unfold AllFeatures.run_tests.
  destruct (all_registration_call s) as (b1 & s1 & H1 & _).
  rewrite (bind_returned _ _ _ _ _ H1).
  destruct b1.
  2:{ eexists; eexists; split; [reflexivity |].
      right. repeat split. vm_compute. discriminate. }
  destruct (all_login_call s1) as (b2 & s2 & H2 & _).
  rewrite (bind_returned _ _ _ _ _ H2).
  destruct (all_upload_call s2) as (v3 & s3 & H3 & _).
  rewrite (bind_returned _ _ _ _ _ H3).
  destruct (all_retrieval_call s3) as (b4 & s4 & H4 & _).
  rewrite (bind_returned _ _ _ _ _ H4).
  destruct (all_authority_login_call s4) as (b5 & s5 & H5 & _).
  rewrite (bind_returned _ _ _ _ _ H5).
  destruct b5.
  - destruct (all_verification_returns s5) as (b6 & s6 & H6).
    destruct (all_qrcode_returns s6) as (b7 & s7 & H7).
    destruct (all_card_returns s7) as (b8 & s8 & H8).
    destruct (all_frontend_call s8) as (b9 & s9 & H9 & _).
    unfold bind at 1. unfold bind at 1.
    rewrite H6. rewrite (bind_returned _ _ _ _ _ H7).
    rewrite (bind_returned _ _ _ _ _ H8). unfold ret at 1.
    rewrite (bind_returned _ _ _ _ _ H9).
    eexists; eexists; split; [reflexivity |].
    left. reflexivity.
  - destruct (all_frontend_call s5) as (b9 & s9 & H9 & _).
    rewrite (bind_returned _ _ s5 s5 _ eq_refl).
    rewrite (bind_returned _ _ _ _ _ H9).
    eexists; eexists; split; [reflexivity |].
    right. repeat split.
    unfold AllFeatures.passedTests, AllFeatures.result_of. cbn.
    destruct b2, (truthy v3), b4, b9; cbn; lia.
Qed.

(** X16: whenever the probes of test-all-features.js have run to their
    end with the authority login not passed, the three probes behind the
    login have kept their initial [false], and the run scores at most six
    of nine. *)
Theorem refused_login_caps_score {E : Env} (s s' : State)
    (results : list (string * JsVal)) :
  AllFeatures.run_tests s = Returned results s' ->
  AllFeatures.result_of results "authorityLogin" = JBool false ->
  AllFeatures.result_of results "verification" = JBool false
  /\ AllFeatures.result_of results "qrCode" = JBool false
  /\ AllFeatures.result_of results "pvcCard" = JBool false
  /\ AllFeatures.passedTests results <= 6.
Proof.
  intros Hrun Hlogin.
  destruct (run_tests_gated s) as (results' & s2 & Hrun' & Hcases).
  rewrite Hrun in Hrun'. injection Hrun' as <- <-.
  destruct Hcases as [Hpassed | Hgated]; [| exact Hgated].
  rewrite Hlogin in Hpassed. discriminate.
Qed.

Lemma refused_login_caps_score_witness :
  exists results s',
    AllFeatures.run_tests (E := Services.login_refused) initial
    = Returned results s'
    /\ AllFeatures.result_of results "registration" = JBool true
    /\ AllFeatures.passedTests results <= 6.
Proof.
  destruct (AllFeatures.run_tests (E := Services.login_refused) initial)
    as [results s' | e s' | s'] eqn:Hrun;
    [| vm_compute in Hrun; discriminate ..].
  pose proof Hrun as Hvalue. vm_compute in Hvalue.
  injection Hvalue as <- <-.
  eexists; eexists. split; [reflexivity |]. split; [reflexivity |].
  exact (proj2 (proj2 (proj2 (refused_login_caps_score
                                (E := Services.login_refused) initial _ _
                                Hrun eq_refl)))).
Defined.

(** ** The calls of the infrastructure stage *)

Lemma single_call {E : Env} (p : Probes.Probe) (s : State) :
  In p [Probes.Docker; Probes.Backend; Probes.Blockchain] ->
  exists b s',
    Probes.run p s = Returned b s'
    /\ calls s' = (calls s ++ [Probes.request p s])%list.
Proof.
  intros [<- | [<- | [<- | []]]];
    cbn [Probes.run Probes.request];
    unfold_probes; unfold_js; cbn;
    repeat (split_next; cbn); eauto.
Qed.

Lemma infrastructure_calls_exact {E : Env} (s : State) :
  exists results s',
    HealthCheck.testInfrastructure s = Returned results s'
    /\ calls s'
       = (calls s
          ++ infrastructure_requests
          ++ fetch_calls
               (answer (calls s ++ infrastructure_requests)
                  (Https "/tourist-auth.html"))
               "/tourist-auth.html")%list.
Proof.
  unfold HealthCheck.testInfrastructure.
  rewrite (bind_returned _ _ s (logged ["INFRASTRUCTURE TESTS"] s) tt)
    by reflexivity.
  destruct (single_call Probes.Docker (logged ["INFRASTRUCTURE TESTS"] s))
    as (b1 & s1 & H1 & C1); [cbn; auto |].
  destruct (single_call Probes.Backend s1) as (b2 & s2 & H2 & C2);
    [cbn; auto |].
  destruct (single_call Probes.Blockchain s2) as (b3 & s3 & H3 & C3);
    [cbn; auto |].
  cbn [Probes.run Probes.request] in *.
  rewrite (bind_returned _ _ _ _ _ H1), (bind_returned _ _ _ _ _ H2),
    (bind_returned _ _ _ _ _ H3).
  assert (Hcalls : calls s3 = (calls s ++ infrastructure_requests)%list).
  { rewrite C3, C2, C1. cbn [calls logged]. unfold infrastructure_requests.
    now rewrite <- !app_assoc. }
  pose proof (frontend_probe_calls s3) as Hpage.
  destruct (probe_returns Probes.Frontend s3) as (b4 & s4 & H4);
    [discriminate |].
  cbn [Probes.run] in H4.
  rewrite H4 in Hpage. unfold new_calls in Hpage.
  cbn [final_state] in Hpage.
  rewrite (bind_returned _ _ _ _ _ H4).
  eexists; eexists; split; [reflexivity |].
  destruct (appends_probe Probes.Frontend s3) as (more & Hmore).
  cbn [Probes.run] in Hmore. rewrite H4 in Hmore. cbn [final_state] in Hmore.
  rewrite Hmore in Hpage.
  rewrite skipn_app, skipn_all, Nat.sub_diag in Hpage. cbn in Hpage.
  rewrite Hmore, Hpage, Hcalls, <- app_assoc. reflexivity.
Qed.

(** X17: the infrastructure stage skips nothing: whatever the answers and
    whatever the two variables hold, it runs the container listing, asks
    for the health endpoint, registers a tourist and fetches the sign-in
    page, with the fallback to plain HTTP when the secure transport
    fails; it makes no other call. *)
Theorem infrastructure_stage_calls {E : Env} (s : State) :
  new_calls (HealthCheck.testInfrastructure s) s
  = (infrastructure_requests
     ++ fetch_calls
          (answer (calls s ++ infrastructure_requests)
             (Https "/tourist-auth.html"))
          "/tourist-auth.html")%list.
Proof.
  destruct (infrastructure_calls_exact s) as (results & s' & Hrun & Hcalls).
  apply new_calls_app. rewrite Hrun. exact Hcalls.
Qed.

(** ** Every run registers two tourists *)

Lemma bind_assoc {A B C} (m : M A) (f : A -> M B) (g : B -> M C) (s : State) :
  bind (bind m f) g s = bind m (fun a => bind (f a) g) s.
Proof. unfold bind. now destruct (m s). Qed.

Lemma appends_try_catch {A} (m : M A) (h : string -> M A) :
  appends m -> (forall e, appends (h e)) -> appends (try_catch m h).
Proof.
  intros Hm Hh s. unfold try_catch.
  destruct (Hm s) as (more & Hmore).
  destruct (m s) as [a s1 | e s1 | s1]; cbn in *; eauto.
  assert (Hcaught : exists more',
             calls (final_state ((msg <- message_of e ;; h msg) s1))
             = (calls s1 ++ more')%list).
  { destruct e as [message | v]; [apply Hh |].
    unfold bind, message_of, prop, throw, ret.
    destruct v; cbn; try apply Hh; exists []; now rewrite app_nil_r. }
  destruct Hcaught as (more' & Hmore').
  exists (more ++ more')%list. now rewrite Hmore', Hmore, app_assoc.
Qed.

Lemma appends_page_probe {E : Env} (i : nat) (page : HealthCheck.Page) :
  appends (HealthCheck.page_probe i page).
Proof.
  intros s.
  exists (fetch_calls (answer (calls s) (Https (HealthCheck.path page)))
            (HealthCheck.path page)).
  pose proof (page_probe_calls i page s) as Hcalls.
  unfold new_calls in Hcalls. rewrite <- Hcalls.
  unfold HealthCheck.page_probe. run_js;
    rewrite <- ?app_assoc, skipn_app, skipn_all, Nat.sub_diag;
    reflexivity.
Qed.

Lemma appends_pages_loop {E : Env} (todo : list HealthCheck.Page) :
  forall i results, appends (HealthCheck.pages_loop i todo results).
Proof.
  induction todo as [| page rest IH]; intros i results.
  - apply appends_ret.
  - cbn [HealthCheck.pages_loop].
    apply appends_bind; [apply appends_page_probe |].
    intros b. apply IH.
Qed.

Lemma appends_report (i c a adv f : Results) :
  appends (HealthCheck.generateFinalReport i c a adv f).
Proof.
  intros s. destruct (generateFinalReport_prints i c a adv f s) as (rest & ->).
  exists []. cbn. now rewrite app_nil_r.
Qed.

Lemma appends_stage {E : Env} (title : string) (probes : list Probes.Probe) :
  appends (log title ;; Probes.run_stage probes []).
Proof.
  apply appends_bind; [apply appends_log |].
  intros _. apply appends_run_stage.
Qed.

(** X18: every run of comprehensive-health-check.js sends two
    registrations: after the calls of the infrastructure stage, which
    include the registration of the blockchain probe, the next call is the
    registration of the core stage, whatever the service answered and also
    when the first registration was accepted. *)
Theorem every_run_registers_twice {E : Env} (s : State) :
  exists rest,
    new_calls (HealthCheck.runComprehensiveHealthCheck s) s
    = (infrastructure_requests
       ++ fetch_calls
            (answer (calls s ++ infrastructure_requests)
               (Https "/tourist-auth.html"))
            "/tourist-auth.html"
       ++ Probes.request Probes.Registration s :: rest)%list.
Proof.
  unfold HealthCheck.runComprehensiveHealthCheck, HealthCheck.orchestrate.
  set (s0 := logged ["Starting comprehensive health check..."] s).
  rewrite (bind_returned _ _ s s0 tt) by reflexivity.
  destruct (infrastructure_calls_exact s0) as (results & s1 & Hrun & Hcalls).
  change (calls s0) with (calls s) in Hcalls.
  unfold try_catch at 1.
  rewrite (bind_returned _ _ _ _ _ Hrun).
  change (HealthCheck.testCoreFeatures)
    with (log "CORE FEATURE TESTS" ;;
          Probes.run_stage
            [Probes.Registration; Probes.InfoRetrieval;
             Probes.DocumentUpload; Probes.DocumentRetrieval] []).
  rewrite bind_assoc.
  rewrite (bind_returned _ _ s1 (logged ["CORE FEATURE TESTS"] s1) tt)
    by reflexivity.
  cbn [Probes.run_stage]. rewrite bind_assoc.
  destruct (registration_effect (logged ["CORE FEATURE TESTS"] s1))
    as (s2 & Hreg & _ & Hcalls2).
  cbv zeta in Hreg, Hcalls2.
  rewrite (bind_returned _ _ _ _ _ Hreg).
  match goal with
  | |- context [match ?m s2 with _ => _ end] =>
      assert (Hrest : appends
                        (try_catch m
                           (fun e => log ("Health check failed: " ++ e))))
  end.
  { apply appends_try_catch; [| intros e; apply appends_log].
    apply appends_bind;
      [exact (appends_run_stage
                [Probes.InfoRetrieval; Probes.DocumentUpload;
                 Probes.DocumentRetrieval] _) |].
    intros c.
    apply appends_bind;
      [exact (appends_stage "AUTHORITY FEATURE TESTS"
                [Probes.AuthorityLogin; Probes.PendingList;
                 Probes.Verification]) |].
    intros a.
    apply appends_bind;
      [exact (appends_stage "ADVANCED FEATURE TESTS"
                [Probes.QrCode; Probes.PvcCard]) |].
    intros adv.
    apply appends_bind;
      [apply appends_bind;
         [apply appends_log | intros _; apply appends_pages_loop] |].
    intros f. apply appends_report. }
  destruct (Hrest s2) as (more & Hmore).
  unfold try_catch in Hmore.
  exists more. apply new_calls_app.
  rewrite Hmore, Hcalls2. cbn [calls logged]. rewrite Hcalls.
  rewrite <- !app_assoc. reflexivity.
Qed.

(** * Skipped probes, gates, tiers and the two variables *)

(** ** A stage runs its probes one after the other *)

Lemma run_stage_keeps_key {E : Env} (k : string) (rest : list Probes.Probe) :
  forall acc s report s',
    ~ In k (map Probes.key rest) ->
    Probes.run_stage rest acc s = Returned report s' ->
    lookup k report = lookup k acc.
Proof.
  induction rest as [| p rest IH]; intros acc s report s' Hk Hrun.
  - cbn in Hrun. unfold ret in Hrun. now injection Hrun as <- <-.
  - cbn [Probes.run_stage] in Hrun. unfold bind in Hrun.
    destruct (Probes.run p s) as [b s2 | e s2 | s2]; try discriminate.
    rewrite (IH _ _ _ _ (fun H => Hk (or_intror H)) Hrun).
    apply lookup_obj_set_other.
    apply String.eqb_neq. intros ->. apply Hk. now left.
Qed.

Lemma api_stage_shape {E : Env} (stage : M Results) (title : string)
    (probes : list Probes.Probe) :
  In (stage, title, probes) api_stages ->
  stage = (log title ;; Probes.run_stage probes [])
  /\ NoDup (map Probes.key probes).
Proof.
  intros [H | [H | [H | [H | []]]]]; injection H as <- <- <-;
    (split; [reflexivity |]);
    cbn; repeat constructor; cbn; intuition discriminate.
Qed.

Lemma stage_reaches {E : Env} (stage : M Results) (title : string)
    (pre rest : list Probes.Probe) (p : Probes.Probe) (s s1 : State)
    (r1 : Results) :
  In (stage, title, (pre ++ p :: rest)%list) api_stages ->
  Probes.run_stage pre [] (logged [title] s) = Returned r1 s1 ->
  stage s
  = (b <- Probes.run p ;;
     Probes.run_stage rest (obj_set (Probes.key p) b r1)) s1
  /\ ~ In (Probes.key p) (map Probes.key rest).
Proof.
  intros Hin Hpre.
  destruct (api_stage_shape _ _ _ Hin) as [-> Hkeys].
  split.
  - rewrite (bind_returned _ _ s (logged [title] s) tt) by reflexivity.
    now rewrite (run_stage_app _ _ _ _ _ _ Hpre).
  - rewrite map_app in Hkeys. cbn [map] in Hkeys.
    apply NoDup_remove_2 in Hkeys.
    intros Hrest. apply Hkeys. apply in_or_app. now right.
Qed.

Lemma lookup_In {A} (k : string) (v : A) (l : list (string * A)) :
  lookup k l = Some v -> In (k, v) l.
Proof.
  induction l as [| [k' v'] rest IH]; cbn; [discriminate |].
  destruct (String.eqb k k') eqn:Hk.
  - apply String.eqb_eq in Hk. subst k'. intros [= ->]. now left.
  - intros H. right. now apply IH.
Qed.

Lemma render_has_entry (i c a adv f report : Results) (entry : string * bool) :
  In report [i; c; a; adv; f] ->
  In entry report ->
  In (HealthCheck.test_line entry)
     (HealthCheck.render (HealthCheck.finalReport i c a adv f))
  /\ In entry (entries (HealthCheck.allResults i c a adv f)).
Proof.
  intros Hreport Hentry.
  assert (Hcat : exists name,
             In (name, report) (HealthCheck.allResults i c a adv f)).
  { unfold HealthCheck.allResults.
    destruct Hreport as [<- | [<- | [<- | [<- | [<- | []]]]]];
      eexists; cbn; eauto 6. }
  destruct Hcat as (name & Hcat).
  split.
  - unfold HealthCheck.render. right. apply in_or_app. left.
    apply in_flat_map. exists (name, report). split; [exact Hcat |].
    right. now apply in_map.
  - unfold entries. apply in_flat_map. now exists (name, report).
Qed.

(** C1, as the code has it.  In a stage of comprehensive-health-check.js,
    a probe whose guard fails when the probes before it have completed
    makes no call and prints its heading and its "Skipped" line; the
    stage continues behind it, and the report the stage returns holds the
    boolean [false] under the probe's key, the value a failed probe
    records.  A final report made from that stage report prints the entry
    as FAIL and counts it in the total and not among the passed. *)
Theorem skipped_probe_recorded_false {E : Env} (stage : M Results)
    (title : string) (pre rest : list Probes.Probe) (p : Probes.Probe)
    (s s1 : State) (r1 : Results) :
  In (stage, title, (pre ++ p :: rest)%list) api_stages ->
  Probes.run_stage pre [] (logged [title] s) = Returned r1 s1 ->
  hasAll (Probes.dependencies p) s1 = false ->
  Probes.run p s1
  = Returned false (logged [Probes.header p; Probes.skip_line p] s1)
  /\ stage s
     = Probes.run_stage rest (obj_set (Probes.key p) false r1)
         (logged [Probes.header p; Probes.skip_line p] s1)
  /\ (forall report s',
         stage s = Returned report s' ->
         lookup (Probes.key p) report = Some false
         /\ forall i c a adv f s2,
              In report [i; c; a; adv; f] ->
              let r := HealthCheck.finalReport i c a adv f in
              let outcomes := entries (HealthCheck.allResults i c a adv f) in
              (exists rest',
                 HealthCheck.generateFinalReport i c a adv f s2
                 = Returned tt (logged (HealthCheck.render r ++ rest')%list s2))
              /\ In ("  " ++ HealthCheck.testName (Probes.key p) ++ ": FAIL")
                    (HealthCheck.render r)
              /\ In (Probes.key p, false) outcomes
              /\ ~ In (Probes.key p, false) (passing outcomes)
              /\ HealthCheck.total r = Z.of_nat (List.length outcomes)
              /\ HealthCheck.passed r
                 = Z.of_nat (List.length (passing outcomes))).
Proof.
  intros Hin Hpre Hdeps.
  destruct (stage_reaches _ _ _ _ _ _ _ _ Hin Hpre) as [Hstage Hfresh].
  pose proof (skip_run p s1 Hdeps) as Hskip.
  rewrite (bind_returned _ _ _ _ _ Hskip) in Hstage.
  split; [exact Hskip |]. split; [exact Hstage |].
  intros report s' Hreturned.
  rewrite Hstage in Hreturned.
  assert (Hfalse : lookup (Probes.key p) report = Some false).
  { rewrite (run_stage_keeps_key _ _ _ _ _ _ Hfresh Hreturned).
    apply lookup_obj_set_same. }
  split; [exact Hfalse |].
  intros i c a adv f s2 Hreport r outcomes. subst r outcomes.
  destruct (render_has_entry i c a adv f report (Probes.key p, false)
              Hreport (lookup_In _ _ _ Hfalse)) as [Hline Hentry].
  split; [apply generateFinalReport_prints |].
  split; [exact Hline |].
  split; [exact Hentry |].
  split.
  { unfold passing. rewrite filter_In. cbn. intros [_ H]. discriminate. }
  unfold HealthCheck.finalReport, HealthCheck.total, HealthCheck.passed,
    HealthCheck.totalTests, HealthCheck.passedTests.
  rewrite count_tests_entries. split; reflexivity.
Qed.

Lemma skipped_probe_recorded_false_witness :
  exists report s',
    HealthCheck.testAdvancedFeatures (E := Services.down) initial
    = Returned report s'
    /\ lookup "qrCode" report = Some false.
Proof.
  destruct (skipped_probe_recorded_false (E := Services.down)
              (HealthCheck.testAdvancedFeatures (E := Services.down))
              "ADVANCED FEATURE TESTS"
              [] [Probes.PvcCard] Probes.QrCode initial
              (logged ["ADVANCED FEATURE TESTS"] initial) [])
    as (_ & Hstage & Hreport).
  - cbn. auto 6.
  - reflexivity.
  - reflexivity.
  - destruct (HealthCheck.testAdvancedFeatures (E := Services.down) initial)
      as [report s' | e s' | s'] eqn:Hrun;
      [| vm_compute in Hrun; discriminate ..].
    exists report, s'. split; [reflexivity |].
    exact (proj1 (Hreport report s' eq_refl)).
Defined.

(** ** Whether and when a probe runs *)

Lemma pages_loop_app {E : Env} (pre rest : list HealthCheck.Page) :
  forall i results s r1 s1,
    HealthCheck.pages_loop i pre results s = Returned r1 s1 ->
    HealthCheck.pages_loop i (pre ++ rest)%list results s
    = HealthCheck.pages_loop (i + List.length pre) rest r1 s1.
Proof.
  induction pre as [| page pre IH]; intros i results s r1 s1 Hpre.
  - cbn in Hpre. unfold ret in Hpre. injection Hpre as <- <-.
    cbn. now rewrite Nat.add_0_r.
  - cbn [HealthCheck.pages_loop app List.length] in *. unfold bind in *.
    destruct (HealthCheck.page_probe i page s) as [b s2 | e s2 | s2];
      try discriminate.
    rewrite (IH _ _ _ _ _ Hpre). f_equal. lia.
Qed.

Lemma first_call_stays {A B} (m : M A) (f : A -> M B) (s : State)
    (c : Call) (rest : list Call) :
  (forall a, appends (f a)) ->
  new_calls (m s) s = c :: rest ->
  appends m ->
  exists more,
    calls (final_state (bind m f s)) = (calls s ++ c :: more)%list.
Proof.
  intros Hf Hfirst Hm.
  destruct (bind_extends m f s Hf) as (more & Hmore).
  destruct (Hm s) as (added & Hadded).
  rewrite (new_calls_app _ s added Hadded) in Hfirst. subst added.
  exists (rest ++ more)%list.
  now rewrite Hmore, Hadded, <- app_assoc.
Qed.

(** C2, as the code has it.  In comprehensive-health-check.js a probe
    hands its request to its collaborator whenever its own guard holds.
    Each of the four stages that go through the API starts its next probe
    as soon as the probes before it have completed, whatever they
    recorded, and that probe makes its request if its guard holds then;
    the page stage fetches its next page in the same way.  No stage has
    another exit.  In test-all-features.js nothing runs after a failed
    registration, and no verification, QR or card request is made unless
    the authority login passed.  test-complete-flow.js stops after a
    failed registration.  Where a request is named, an identifier or
    token that is a number is taken to be a safe integer. *)
Theorem probes_run_by_guard_or_gate {E : Env} (s : State) :
  (forall p,
      hasAll (Probes.dependencies p) s = true ->
      exact_text (testUniqueId s) = true ->
      exact_text (authToken s) = true ->
      exists rest, new_calls (Probes.run p s) s = Probes.request p s :: rest)
  /\ (forall stage title pre p rest r1 s1,
         In (stage, title, (pre ++ p :: rest)%list) api_stages ->
         Probes.run_stage pre [] (logged [title] s) = Returned r1 s1 ->
         stage s
         = (b <- Probes.run p ;;
            Probes.run_stage rest (obj_set (Probes.key p) b r1)) s1
         /\ (hasAll (Probes.dependencies p) s1 = true ->
             exact_text (testUniqueId s1) = true ->
             exact_text (authToken s1) = true ->
             exists more,
               calls (final_state (stage s))
               = (calls s1 ++ Probes.request p s1 :: more)%list))
  /\ (forall pre page rest r1 s1,
         HealthCheck.pages = (pre ++ page :: rest)%list ->
         HealthCheck.pages_loop 0 pre [] (logged ["FRONTEND PAGE TESTS"] s)
         = Returned r1 s1 ->
         HealthCheck.testFrontendPages s
         = (b <- HealthCheck.page_probe (List.length pre) page ;;
            HealthCheck.pages_loop (S (List.length pre)) rest
              (obj_set (HealthCheck.page_key page) b r1)) s1
         /\ exists more,
              calls (final_state (HealthCheck.testFrontendPages s))
              = (calls s1 ++ Https (HealthCheck.path page) :: more)%list)
  /\ (forall s1,
         AllFeatures.testRegistration s = Returned false s1 ->
         AllFeatures.run_tests s = Returned AllFeatures.initial_results s1)
  /\ (forall results s',
         AllFeatures.run_tests s = Returned results s' ->
         AllFeatures.result_of results "authorityLogin" = JBool false ->
         existsb behind_login (new_calls (AllFeatures.run_tests s) s) = false)
  /\ (forall s1,
         CompleteFlow.testRegistration
           (logged ["Starting complete flow test..."] s) = Returned false s1 ->
         CompleteFlow.runCompleteTest s
         = Returned tt
             (logged ["Registration test failed. Stopping tests."] s1)
         /\ new_calls (CompleteFlow.runCompleteTest s) s
            = [Api POST "/api/tourist/register"
                 (Some CompleteFlow.testData) []]).
Proof.
  split; [intros p Hdeps _ _; now apply probe_runs |].
  split.
  { intros stage title pre p rest r1 s1 Hin Hpre.
    destruct (stage_reaches _ _ _ _ _ _ _ _ Hin Hpre) as [Hstage _].
    split; [exact Hstage |].
    intros Hdeps _ _. rewrite Hstage.
    destruct (probe_runs p s1 Hdeps) as (first & Hfirst).
    apply (first_call_stays _ _ _ _ first); [| exact Hfirst |].
    - intros b. apply appends_run_stage.
    - apply appends_probe. }
  split.
  { intros pre page rest r1 s1 Hpages Hpre.
    assert (Hstage : HealthCheck.testFrontendPages s
                     = (b <- HealthCheck.page_probe (List.length pre) page ;;
                        HealthCheck.pages_loop (S (List.length pre)) rest
                          (obj_set (HealthCheck.page_key page) b r1)) s1).
    { unfold HealthCheck.testFrontendPages.
      rewrite (bind_returned _ _ s (logged ["FRONTEND PAGE TESTS"] s) tt)
        by reflexivity.
      rewrite Hpages, (pages_loop_app _ _ _ _ _ _ _ Hpre). reflexivity. }
    split; [exact Hstage |].
    rewrite Hstage.
    pose proof (page_probe_calls (List.length pre) page s1) as Hfirst.
    unfold fetch_calls in Hfirst.
    destruct (answer (calls s1) (Https (HealthCheck.path page)));
      eapply first_call_stays;
      try exact Hfirst;
      try (intros b; apply appends_pages_loop);
      apply appends_page_probe. }
  split; [intros s1; apply all_stops_after_failed_registration |].
  split; [intros results s'; apply all_login_gate |].
  intros s1; apply flow_stops_after_failed_registration.
Qed.

Lemma probes_run_by_guard_or_gate_witness :
  exists r1 s1 more,
    Probes.run_stage (E := Services.failing_after_registration)
      [Probes.QrCode] [] (logged ["ADVANCED FEATURE TESTS"] Services.registered)
    = Returned r1 s1
    /\ lookup "qrCode" r1 = Some false
    /\ calls (final_state
                (HealthCheck.testAdvancedFeatures
                   (E := Services.failing_after_registration)
                   Services.registered))
       = (calls s1 ++ Probes.request Probes.PvcCard s1 :: more)%list.
Proof.
  destruct (Probes.run_stage (E := Services.failing_after_registration)
              [Probes.QrCode] []
              (logged ["ADVANCED FEATURE TESTS"] Services.registered))
    as [r1 s1 | e s1 | s1] eqn:Hrun;
    [| vm_compute in Hrun; discriminate ..].
  pose proof Hrun as Hvalue. vm_compute in Hvalue.
  injection Hvalue as <- <-.
  destruct (proj1 (proj2 (probes_run_by_guard_or_gate
                            (E := Services.failing_after_registration)
                            Services.registered))
              (HealthCheck.testAdvancedFeatures
                 (E := Services.failing_after_registration))
              "ADVANCED FEATURE TESTS" [Probes.QrCode] Probes.PvcCard []
              _ _ (or_intror (or_intror (or_intror (or_introl eq_refl))))
              Hrun) as [_ Hcall].
  destruct (Hcall eq_refl eq_refl eq_refl) as (more & Hmore).
  eexists; eexists; exists more.
  split; [reflexivity |]. split; [reflexivity | exact Hmore].
Defined.

(** ** The tier of a report *)



(** ** The two variables *)

Lemma writer_assigns {E : Env} (p : Probes.Probe) (k : Key) (s : State) :
  writes p = Some k ->
  get k (final_state (Probes.run p s))
  = match accepted (answer (calls s) (Probes.request p s)) with
    | Some v => field (carried k) v
    | None => get k s
    end.
Proof.
  intros Hw.
  destruct p; cbn in Hw; try discriminate; injection Hw as <-;
    cbn [Probes.run Probes.request get carried];
    unfold accepted, decoded;
    unfold_probes; unfold_js; cbn;
    destruct (answer _ _) as [e | st body]; cbn;
    try reflexivity;
    destruct (JSON_parse body) as [v |]; cbn;
    destruct (st =? 200); cbn;
    try reflexivity;
    destruct v; cbn;
    try reflexivity;
    repeat (split_next; cbn);
    reflexivity.
Qed.

Lemma page_probe_frame {E : Env} (k : Key) (i : nat) (page : HealthCheck.Page)
    (s : State) :
  get k (final_state (HealthCheck.page_probe i page s)) = get k s.
Proof. unfold HealthCheck.page_probe. destruct k; run_js; reflexivity. Qed.

Lemma report_frame (k : Key) (i c a adv f : Results) (s : State) :
  get k (final_state (HealthCheck.generateFinalReport i c a adv f s))
  = get k s.
Proof.
  destruct (generateFinalReport_prints i c a adv f s) as (rest & ->).
  now destruct k.
Qed.

(** C9, as the code has it.  For every service, three probes of
    comprehensive-health-check.js assign a variable and nothing else
    does: the two registration probes assign [testUniqueId] and the login
    probe assigns [authToken].  Each does so exactly on an answer with
    status 200 and a truthy [success], and stores the [uniqueId] (the
    [token]) of that answer as it is, also when it is missing or [null].
    Against a service whose success answers carry a truthy value there, a
    key that is present stays present through every probe, every stage
    and the whole run, whether the run returns or stays unsettled. *)
Theorem keys_stay_present {E : Env} (k : Key) :
  (forall p s, writes p <> Some k ->
               get k (final_state (Probes.run p s)) = get k s)
  /\ (forall p s, writes p = Some k ->
                  get k (final_state (Probes.run p s))
                  = match accepted (answer (calls s) (Probes.request p s)) with
                    | Some v => field (carried k) v
                    | None => get k s
                    end)
  /\ (forall i page s,
         get k (final_state (HealthCheck.page_probe i page s)) = get k s)
  /\ (forall i c a adv f s,
         get k (final_state (HealthCheck.generateFinalReport i c a adv f s))
         = get k s)
  /\ (carries_keys E ->
      (forall p, keeps k (Probes.run p))
      /\ keeps k HealthCheck.testInfrastructure
      /\ keeps k HealthCheck.testCoreFeatures
      /\ keeps k HealthCheck.testAuthorityFeatures
      /\ keeps k HealthCheck.testAdvancedFeatures
      /\ keeps k HealthCheck.testFrontendPages
      /\ keeps k HealthCheck.runComprehensiveHealthCheck).
Proof.
  split; [intros p s; apply probe_frame |].
  split; [intros p s; apply writer_assigns |].
  split; [intros i page s; apply page_probe_frame |].
  split; [intros i c a adv f s; apply report_frame |].
  intros Hcarries.
  assert (Hi : keeps k HealthCheck.testInfrastructure)
    by (unfold HealthCheck.testInfrastructure; keeps_stage Hcarries).
  assert (Hc : keeps k HealthCheck.testCoreFeatures)
    by (unfold HealthCheck.testCoreFeatures; keeps_stage Hcarries).
  assert (Ha : keeps k HealthCheck.testAuthorityFeatures)
    by (unfold HealthCheck.testAuthorityFeatures; keeps_stage Hcarries).
  assert (Hadv : keeps k HealthCheck.testAdvancedFeatures)
    by (unfold HealthCheck.testAdvancedFeatures; keeps_stage Hcarries).
  assert (Hf : keeps k HealthCheck.testFrontendPages).
  { unfold HealthCheck.testFrontendPages.
    apply keeps_bind; [apply keeps_log | intros _].
    apply keeps_pages_loop. }
  split; [intros p; now apply probe_keeps |].
  repeat (split; [assumption |]).
  now apply keeps_orchestrate.
Qed.

Lemma keys_stay_present_witness :
  carries_keys Services.healthy
  /\ truthy (get TestUniqueId Services.registered) = true
  /\ truthy (get TestUniqueId
               (final_state
                  (HealthCheck.runComprehensiveHealthCheck
                     (E := Services.healthy) Services.registered))) = true.
Proof.
  split; [exact healthy_carries_keys |].
  split; [reflexivity |].
  destruct (keys_stay_present (E := Services.healthy) TestUniqueId)
    as (_ & _ & _ & _ & Hkeeps).
  destruct (Hkeeps healthy_carries_keys) as (_ & _ & _ & _ & _ & _ & Hrun).
  apply Hrun. reflexivity.
Defined.
